(** * Contract generation pipeline: a shallow embedding of [contracts.py]
      and [contracts2.py]

    The repository holds two variants of one pipeline.  [contracts.py]
    (module [PDF] below) prompts a hosted model for four pieces of text and
    lays them out with a PDF drawing library; [contracts2.py] (module
    [HTML] below) asks for HTML fragments, fills an HTML page template and
    converts the page with an external HTML-to-PDF renderer.

    Modelling conventions.
    - A Python [str] is a list of Unicode code points ([Py.str]).
    - Everything the program does not implement itself (the model service,
      the layout engine, the template engine, the renderer, the clock, the
      file system calls) is an oracle in the record [env]; an oracle is
      consulted at the current [tick] of the [world], so two calls with the
      same arguments may behave differently.  The exception is the layout
      library's constructors of paragraphs, page breaks and spacers, which
      are kept as data (see the note on flowables).
    - Column widths are exact rationals where the source has floating
      point numbers (see [PDF.col_width]).
    - Python exceptions derived from [Exception] are values of [exn]; code
      that may raise lives in the monad [M].  Asynchronous interrupts
      ([KeyboardInterrupt], [SystemExit]) are outside the model.
    - Progress messages on the console are not modelled; the summary that
      [main] prints is modelled by the values it prints. *)

From Stdlib Require Import ZArith NArith QArith Qminmax List String Ascii.
From Stdlib Require Import DecimalString DecimalNat DecimalZ Lia.
From stdpp Require Import base option list gmap.

Import ListNotations.
Local Open Scope list_scope.

(* ===================================================================== *)
(** ** Python strings *)
(* ===================================================================== *)

Module Py.

(** A character is a Unicode code point; a string is a sequence of them. *)
Abbreviation char := N (only parsing).
Abbreviation str := (list N) (only parsing).

(** The string denoted by a literal of the source text. *)
Definition lit (s : string) : str := map N_of_ascii (list_ascii_of_string s).

Definition newline : char := 10%N.
Definition hash : char := 35%N.
Definition pipe : char := 124%N.

(** [c.isspace()] for a one-character [str]: the code points CPython's
    [_PyUnicode_IsWhitespace] accepts. *)
Definition isspace (c : char) : bool :=
  ((9 <=? c) && (c <=? 13) || (28 <=? c) && (c <=? 32)
   || (c =? 133) || (c =? 160) || (c =? 5760)
   || (8192 <=? c) && (c <=? 8202)
   || (c =? 8232) || (c =? 8233) || (c =? 8239) || (c =? 8287)
   || (c =? 12288))%N.

(** Membership of a character in the argument of [strip(chars)]. *)
Definition char_in (chars : str) (c : char) : bool := existsb (N.eqb c) chars.

Fixpoint lstrip_by (p : char -> bool) (s : str) : str :=
  match s with
  | [] => []
  | c :: s' => if p c then lstrip_by p s' else s
  end.

Definition rstrip_by (p : char -> bool) (s : str) : str :=
  rev (lstrip_by p (rev s)).

Definition strip_by (p : char -> bool) (s : str) : str :=
  rstrip_by p (lstrip_by p s).

(** [s.strip()] *)
Definition strip (s : str) : str := strip_by isspace s.

(** [s.strip(chars)] *)
Definition strip_chars (chars : str) (s : str) : str := strip_by (char_in chars) s.

(** [s.split(sep)] for a one-character separator: never an empty list. *)
Fixpoint split (sep : char) (s : str) : list str :=
  match s with
  | [] => [[]]
  | c :: s' =>
      if (c =? sep)%N then [] :: split sep s'
      else match split sep s' with
           | [] => [[c]]
           | w :: ws => (c :: w) :: ws
           end
  end.

(** [s.count(c)] for a one-character argument. *)
Fixpoint count (c : char) (s : str) : nat :=
  match s with
  | [] => 0
  | d :: s' => if (d =? c)%N then S (count c s') else count c s'
  end.

(** [s.startswith(c)] for a one-character argument. *)
Definition startswith (c : char) (s : str) : bool :=
  match s with
  | [] => false
  | d :: _ => (d =? c)%N
  end.

(** [sep.join(l)] *)
Fixpoint join (sep : str) (l : list str) : str :=
  match l with
  | [] => []
  | [x] => x
  | x :: xs => x ++ sep ++ join sep xs
  end.

(** [str(n)] for an [int]. *)
Definition str_of_int (z : Z) : str := lit (NilZero.string_of_int (Z.to_int z)).

(** [str(n)] for a non-negative [int] held as a [nat] (a length or a count). *)
Definition str_of_nat (n : nat) : str := lit (NilZero.string_of_uint (Nat.to_uint n)).

(** Truth value of a [str]: the empty string is false. *)
Definition truthy_str (s : str) : bool :=
  match s with [] => false | _ :: _ => true end.

(** [sub in s] as a proposition, and the length of the leading run of a
    character, used to state properties only. *)
Definition substring (sub s : str) : Prop := exists p q, s = p ++ sub ++ q.

(** [s.startswith(sub)] and [sub in s], computed. *)
Fixpoint has_prefix (sub s : str) : bool :=
  match sub, s with
  | [], _ => true
  | _ :: _, [] => false
  | a :: sub', b :: s' => (a =? b)%N && has_prefix sub' s'
  end.

Fixpoint contains (sub s : str) : bool :=
  has_prefix sub s || match s with [] => false | _ :: s' => contains sub s' end.

Fixpoint leading_run (c : char) (s : str) : nat :=
  match s with
  | d :: s' => if (d =? c)%N then S (leading_run c s') else 0
  | [] => 0
  end.

End Py.

Import Py.

(* ===================================================================== *)
(** ** Configuration store *)
(* ===================================================================== *)

(** The value of [state_info['provider_details']]. *)
Record provider_details_t := {
  fleet_size : Z;
  operating_hours : str;
  driver_count : Z;
  term : str
}.

(** One entry of [state_configs]: a JurisdictionRecord. *)
Record state_info := {
  state : str;
  state_abbrev : str;
  health_agency : str;
  agency_city : str;
  provider_name : str;
  provider_city : str;
  service_regions : list str;
  contract_date : str;
  provider_details : provider_details_t
}.

(** [state_configs], the same dictionary in both files, in insertion order. *)
Definition state_configs : list (str * state_info) :=
  [
    (lit "FL",
     {| state := lit "Florida"; state_abbrev := lit "FL";
        health_agency := lit "Florida Department of Health";
        agency_city := lit "Tallahassee";
        provider_name := lit "SafeRide Transit Solutions";
        provider_city := lit "Orlando";
        service_regions := [lit "Orange County"; lit "Seminole County"; lit "Osceola County"];
        contract_date := lit "March 15, 2024";
        provider_details :=
          {| fleet_size := 50; operating_hours := lit "24/7"; driver_count := 120;
             term := lit "2-year contract with 1-year renewal option" |} |});
    (lit "TX",
     {| state := lit "Texas"; state_abbrev := lit "TX";
        health_agency := lit "Texas Health and Human Services Commission";
        agency_city := lit "Austin";
        provider_name := lit "Lone Star Medical Transport";
        provider_city := lit "Houston";
        service_regions := [lit "Harris County"; lit "Fort Bend County"; lit "Montgomery County"];
        contract_date := lit "April 1, 2024";
        provider_details :=
          {| fleet_size := 75; operating_hours := lit "24/7"; driver_count := 180;
             term := lit "3-year contract with two 1-year renewal options" |} |});
    (lit "CA",
     {| state := lit "California"; state_abbrev := lit "CA";
        health_agency := lit "California Department of Health Care Services";
        agency_city := lit "Sacramento";
        provider_name := lit "Pacific Coast Medical Transport";
        provider_city := lit "Los Angeles";
        service_regions := [lit "Los Angeles County"; lit "Orange County"; lit "Ventura County"];
        contract_date := lit "May 1, 2024";
        provider_details :=
          {| fleet_size := 100; operating_hours := lit "24/7"; driver_count := 250;
             term := lit "4-year contract with one 2-year renewal option" |} |});
    (lit "NY",
     {| state := lit "New York"; state_abbrev := lit "NY";
        health_agency := lit "New York State Department of Health";
        agency_city := lit "Albany";
        provider_name := lit "Empire State Medical Transport";
        provider_city := lit "Buffalo";
        service_regions := [lit "Erie County"; lit "Niagara County"; lit "Monroe County"];
        contract_date := lit "June 1, 2024";
        provider_details :=
          {| fleet_size := 85; operating_hours := lit "24/7"; driver_count := 200;
             term := lit "3-year contract with one 1-year renewal option" |} |});
    (lit "IL",
     {| state := lit "Illinois"; state_abbrev := lit "IL";
        health_agency := lit "Illinois Department of Healthcare and Family Services";
        agency_city := lit "Springfield";
        provider_name := lit "Midwest Healthcare Transit";
        provider_city := lit "Chicago";
        service_regions := [lit "Cook County"; lit "DuPage County"; lit "Lake County"];
        contract_date := lit "July 15, 2024";
        provider_details :=
          {| fleet_size := 60; operating_hours := lit "24/7"; driver_count := 145;
             term := lit "2-year contract with two 1-year renewal options" |} |});
    (lit "PA",
     {| state := lit "Pennsylvania"; state_abbrev := lit "PA";
        health_agency := lit "Pennsylvania Department of Human Services";
        agency_city := lit "Harrisburg";
        provider_name := lit "Keystone Medical Transit";
        provider_city := lit "Philadelphia";
        service_regions := [lit "Philadelphia County"; lit "Montgomery County"; lit "Bucks County"];
        contract_date := lit "August 1, 2024";
        provider_details :=
          {| fleet_size := 70; operating_hours := lit "24/7"; driver_count := 165;
             term := lit "5-year contract with no renewal option" |} |});
    (lit "OH",
     {| state := lit "Ohio"; state_abbrev := lit "OH";
        health_agency := lit "Ohio Department of Medicaid";
        agency_city := lit "Columbus";
        provider_name := lit "Buckeye Medical Transport";
        provider_city := lit "Cleveland";
        service_regions := [lit "Cuyahoga County"; lit "Franklin County"; lit "Hamilton County"];
        contract_date := lit "September 15, 2024";
        provider_details :=
          {| fleet_size := 55; operating_hours := lit "24/7"; driver_count := 130;
             term := lit "3-year contract with one 3-year renewal option" |} |});
    (lit "MI",
     {| state := lit "Michigan"; state_abbrev := lit "MI";
        health_agency := lit "Michigan Department of Health and Human Services";
        agency_city := lit "Lansing";
        provider_name := lit "Great Lakes Medical Transport";
        provider_city := lit "Detroit";
        service_regions := [lit "Wayne County"; lit "Oakland County"; lit "Macomb County"];
        contract_date := lit "October 1, 2024";
        provider_details :=
          {| fleet_size := 65; operating_hours := lit "24/7"; driver_count := 155;
             term := lit "2-year contract with three 1-year renewal options" |} |});
    (lit "GA",
     {| state := lit "Georgia"; state_abbrev := lit "GA";
        health_agency := lit "Georgia Department of Community Health";
        agency_city := lit "Atlanta";
        provider_name := lit "Peach State Medical Transit";
        provider_city := lit "Savannah";
        service_regions := [lit "Fulton County"; lit "DeKalb County"; lit "Cobb County"];
        contract_date := lit "November 15, 2024";
        provider_details :=
          {| fleet_size := 45; operating_hours := lit "24/7"; driver_count := 110;
             term := lit "4-year contract with two 1-year renewal options" |} |});
    (lit "NC",
     {| state := lit "North Carolina"; state_abbrev := lit "NC";
        health_agency := lit "North Carolina Department of Health and Human Services";
        agency_city := lit "Raleigh";
        provider_name := lit "Carolina Care Transit";
        provider_city := lit "Charlotte";
        service_regions := [lit "Mecklenburg County"; lit "Wake County"; lit "Durham County"];
        contract_date := lit "December 1, 2024";
        provider_details :=
          {| fleet_size := 40; operating_hours := lit "24/7"; driver_count := 95;
             term := lit "1-year contract with four 1-year renewal options" |} |});
    (lit "VA",
     {| state := lit "Virginia"; state_abbrev := lit "VA";
        health_agency := lit "Virginia Department of Medical Assistance Services";
        agency_city := lit "Richmond";
        provider_name := lit "Commonwealth Medical Transport";
        provider_city := lit "Virginia Beach";
        service_regions := [lit "Fairfax County"; lit "Virginia Beach City"; lit "Richmond City"];
        contract_date := lit "January 15, 2025";
        provider_details :=
          {| fleet_size := 50; operating_hours := lit "24/7"; driver_count := 120;
             term := lit "3-year contract with two 1-year renewal options" |} |});
    (lit "WA",
     {| state := lit "Washington"; state_abbrev := lit "WA";
        health_agency := lit "Washington State Health Care Authority";
        agency_city := lit "Olympia";
        provider_name := lit "Evergreen Medical Transport";
        provider_city := lit "Seattle";
        service_regions := [lit "King County"; lit "Pierce County"; lit "Snohomish County"];
        contract_date := lit "February 1, 2025";
        provider_details :=
          {| fleet_size := 45; operating_hours := lit "24/7"; driver_count := 105;
             term := lit "2-year contract with two 2-year renewal options" |} |});
    (lit "MA",
     {| state := lit "Massachusetts"; state_abbrev := lit "MA";
        health_agency := lit "Massachusetts Department of Public Health";
        agency_city := lit "Boston";
        provider_name := lit "New England Medical Transport Services";
        provider_city := lit "Worcester";
        service_regions := [lit "Suffolk County"; lit "Middlesex County"; lit "Essex County"];
        contract_date := lit "March 1, 2025";
        provider_details :=
          {| fleet_size := 35; operating_hours := lit "24/7"; driver_count := 85;
             term := lit "5-year contract with one 2-year renewal option" |} |})
  ].

(* ===================================================================== *)
(** ** Prompt builder *)
(* ===================================================================== *)

(** The expressions that the f-strings of [StateContractGenerator]
    interpolate. *)
Inductive field :=
| fld_state | fld_health_agency | fld_agency_city | fld_provider_name
| fld_provider_city | fld_service_regions | fld_contract_date
| fld_term | fld_fleet_size | fld_operating_hours | fld_driver_count.

#[global] Instance field_eq_dec : EqDecision field.
Proof. solve_decision. Defined.

(** An f-string: literal text [T], a line break of the literal [NL], and
    replacement fields [F]. *)
Inductive piece :=
| T (s : string)
| NL
| F (f : field).

Definition template := list piece.

(** The text a replacement field formats to. *)
Definition field_value (info : state_info) (f : field) : str :=
  match f with
  | fld_state => state info
  | fld_health_agency => health_agency info
  | fld_agency_city => agency_city info
  | fld_provider_name => provider_name info
  | fld_provider_city => provider_city info
  | fld_service_regions => join (lit ", ") (service_regions info)
  | fld_contract_date => contract_date info
  | fld_term => term (provider_details info)
  | fld_fleet_size => str_of_int (fleet_size (provider_details info))
  | fld_operating_hours => operating_hours (provider_details info)
  | fld_driver_count => str_of_int (driver_count (provider_details info))
  end.

Definition render_piece (info : state_info) (p : piece) : str :=
  match p with
  | T s => lit s
  | NL => [newline]
  | F f => field_value info f
  end.

(** Evaluation of an f-string. *)
Definition format (t : template) (info : state_info) : str :=
  concat (map (render_piece info) t).

(** The replacement fields of a template. *)
Fixpoint fields_of (t : template) : list field :=
  match t with
  | [] => []
  | F f :: t' => f :: fields_of t'
  | _ :: t' => fields_of t'
  end.

(** The four content kinds. *)
Inductive content_kind := Contract | Rates | ServiceAreas | Performance.

(** *** Templates of [contracts.py] *)
Module PDFPrompts.

Definition create_contract_template : template :=
  [ T "Generate a detailed contract between the "; F fld_health_agency; T " (located in "; F fld_agency_city; T ", "; F fld_state; T ") "; NL;
    T "        and "; F fld_provider_name; T " (a transportation provider headquartered in "; F fld_provider_city; T ", "; F fld_state; T "). "; NL;
    NL;
    T "        Use these specific details:"; NL;
    T "        - Contract date: "; F fld_contract_date; NL;
    T "        - Term: "; F fld_term; NL;
    T "        - Service area: "; F fld_service_regions; NL;
    T "        - Provider details: "; NL;
    T "            * Fleet size: "; F fld_fleet_size; T " vehicles"; NL;
    T "            * Operating hours: "; F fld_operating_hours; NL;
    T "            * Number of certified drivers: "; F fld_driver_count; NL;
    T "        "; NL;
    T "        The response should be in a format that can be parsed into sections, with clear headings marked by '#' symbols."; NL;
    T "        Include standard contract sections but make all details specific to "; F fld_state; T " and medical transportation." ].

Definition generate_rate_schedule_template : template :=
  [ T "Generate a detailed transportation rate schedule for "; F fld_health_agency; T " contract with "; F fld_provider_name; T " "; NL;
    T "        in "; F fld_state; T ". The response should be in a format that can be converted to a table with the following columns:"; NL;
    T "        "; NL;
    T "        Service Type | Base Rate | Mileage Rate | Wait Time Rate | After Hours | Weekend/Holiday"; NL;
    T "        "; NL;
    T "        Include these service types:"; NL;
    T "        - Standard Vehicle Transport"; NL;
    T "        - Wheelchair Accessible Vehicle"; NL;
    T "        - Stretcher Transport"; NL;
    T "        - Bariatric Transport"; NL;
    T "        - Group Transport"; NL;
    T "        "; NL;
    T "        Consider "; F fld_state; T "'s:"; NL;
    T "        - Cost of living"; NL;
    T "        - Fuel costs"; NL;
    T "        - Urban vs rural rates"; NL;
    T "        - State regulations"; NL;
    T "        "; NL;
    T "        Make rates realistic for "; F fld_state; T " market in 2024."; NL;
    T "        Format the response as pipe-separated values for easy table creation." ].

Definition generate_service_areas_template : template :=
  [ T "Generate a detailed service area coverage table for "; F fld_provider_name; T "'s contract in "; F fld_state; T "."; NL;
    T "        The response should be in a format that can be converted to a table with the following columns:"; NL;
    NL;
    T "        Service Zone | Counties Covered | Response Time | Population Served | Facilities Covered | Special Conditions"; NL;
    NL;
    T "        Create entries for:"; NL;
    T "        - Primary urban zones"; NL;
    T "        - Suburban areas"; NL;
    T "        - Rural coverage"; NL;
    T "        - Special service areas"; NL;
    T "        "; NL;
    T "        Consider "; F fld_state; T "'s:"; NL;
    T "        - Geographic features"; NL;
    T "        - Population distribution"; NL;
    T "        - Healthcare facility locations"; NL;
    T "        - Emergency service requirements"; NL;
    NL;
    T "        Format the response as pipe-separated values for easy table creation." ].

Definition generate_performance_standards_template : template :=
  [ T "Generate detailed performance standards for "; F fld_provider_name; T "'s contract in "; F fld_state; T "."; NL;
    T "        The response should be in a format that can be converted to a table with the following columns:"; NL;
    NL;
    T "        Performance Category | Standard | Measurement Method | Minimum Target | Penalty for Non-Compliance"; NL;
    NL;
    T "        Include standards for:"; NL;
    T "        - On-time performance"; NL;
    T "        - Vehicle maintenance"; NL;
    T "        - Driver qualifications"; NL;
    T "        - Customer service"; NL;
    T "        - Safety metrics"; NL;
    T "        - Complaint resolution"; NL;
    T "        "; NL;
    T "        Consider "; F fld_state; T "'s:"; NL;
    T "        - Healthcare regulations"; NL;
    T "        - Quality metrics"; NL;
    T "        - Reporting requirements"; NL;
    T "        "; NL;
    T "        Format the response as pipe-separated values for easy table creation." ].

Definition template_of (k : content_kind) : template :=
  match k with
  | Contract => create_contract_template
  | Rates => generate_rate_schedule_template
  | ServiceAreas => generate_service_areas_template
  | Performance => generate_performance_standards_template
  end.

End PDFPrompts.

(** *** Templates of [contracts2.py] *)
Module HTMLPrompts.

Definition create_contract_template : template :=
  [ T "Create a detailed transportation services contract between "; F fld_health_agency; T " and "; F fld_provider_name; T "."; NL;
    T "        Format the response as HTML with proper sections and headings."; NL;
    T "        "; NL;
    T "        Include these key details:"; NL;
    T "        - Contract date: "; F fld_contract_date; NL;
    T "        - Agency location: "; F fld_agency_city; T ", "; F fld_state; NL;
    T "        - Provider location: "; F fld_provider_city; T ", "; F fld_state; NL;
    T "        - Term: "; F fld_term; NL;
    T "        - Service areas: "; F fld_service_regions; NL;
    T "        - Fleet size: "; F fld_fleet_size; T " vehicles"; NL;
    T "        - Operating hours: "; F fld_operating_hours; NL;
    T "        - Driver count: "; F fld_driver_count; NL;
    NL;
    T "        Include standard sections:"; NL;
    T "        1. Parties and Purpose"; NL;
    T "        2. Definitions"; NL;
    T "        3. Term and Renewal"; NL;
    T "        4. Scope of Services"; NL;
    T "        5. Provider Responsibilities"; NL;
    T "        6. Agency Responsibilities"; NL;
    T "        7. Compensation"; NL;
    T "        8. Compliance and Reporting"; NL;
    T "        9. Insurance and Liability"; NL;
    T "        10. Termination"; NL;
    T "        11. General Provisions"; NL;
    NL;
    T "        Format as clean HTML with proper headings and paragraphs."; NL;
    T "        Make all details specific to "; F fld_state; T " and medical transportation." ].

Definition generate_rate_schedule_template : template :=
  [ T "Create an HTML table showing transportation rates for "; F fld_provider_name; T " in "; F fld_state; T "."; NL;
    T "        "; NL;
    T "        Include these service types:"; NL;
    T "        - Standard Vehicle Transport"; NL;
    T "        - Wheelchair Accessible Vehicle"; NL;
    T "        - Stretcher Transport"; NL;
    T "        - Bariatric Transport"; NL;
    T "        - Group Transport"; NL;
    NL;
    T "        Table columns:"; NL;
    T "        - Service Type"; NL;
    T "        - Base Rate"; NL;
    T "        - Mileage Rate"; NL;
    T "        - Wait Time Rate"; NL;
    T "        - After Hours Rate"; NL;
    T "        - Weekend/Holiday Rate"; NL;
    NL;
    T "        Return a properly formatted HTML table with realistic rates for "; F fld_state; T "."; NL;
    T "        Include <thead> and <tbody> tags, and proper styling classes." ].

Definition generate_service_areas_template : template :=
  [ T "Create an HTML table showing service area details for "; F fld_provider_name; T " in "; F fld_state; T "."; NL;
    T "        "; NL;
    T "        Include these zones:"; NL;
    T "        - Primary Urban Areas"; NL;
    T "        - Suburban Regions"; NL;
    T "        - Rural Coverage"; NL;
    T "        - Special Service Areas"; NL;
    NL;
    T "        Table columns:"; NL;
    T "        - Service Zone"; NL;
    T "        - Counties Covered"; NL;
    T "        - Response Time"; NL;
    T "        - Population Served"; NL;
    T "        - Facilities Covered"; NL;
    T "        - Special Conditions"; NL;
    NL;
    T "        Return a properly formatted HTML table specific to "; F fld_state; T "."; NL;
    T "        Include <thead> and <tbody> tags, and proper styling classes." ].

Definition generate_performance_standards_template : template :=
  [ T "Create an HTML table showing performance standards for "; F fld_provider_name; T " in "; F fld_state; T "."; NL;
    T "        "; NL;
    T "        Include these categories:"; NL;
    T "        - On-time Performance"; NL;
    T "        - Vehicle Maintenance"; NL;
    T "        - Driver Qualifications"; NL;
    T "        - Safety Metrics"; NL;
    T "        - Complaint Resolution"; NL;
    NL;
    T "        Table columns:"; NL;
    T "        - Performance Category"; NL;
    T "        - Standard Description"; NL;
    T "        - Measurement Method"; NL;
    T "        - Minimum Target"; NL;
    T "        - Non-Compliance Penalty"; NL;
    NL;
    T "        Return a properly formatted HTML table with realistic standards."; NL;
    T "        Include <thead> and <tbody> tags, and proper styling classes." ].

Definition template_of (k : content_kind) : template :=
  match k with
  | Contract => create_contract_template
  | Rates => generate_rate_schedule_template
  | ServiceAreas => generate_service_areas_template
  | Performance => generate_performance_standards_template
  end.

End HTMLPrompts.

(* ===================================================================== *)
(** ** Python values, exceptions and effects *)
(* ===================================================================== *)

(** The exceptions of the model.  The first four are raised by the
    interpreter in the repository's own code, [PlainException] is the
    [raise Exception(...)] of [contracts2.py], and [ExternalError] stands
    for whatever an external library or the operating system raises. *)
Inductive exn :=
| KeyError
| IndexError
| TypeError
| AttributeError
| PlainException
| ExternalError (code : nat).

Inductive result (A : Type) :=
| Ok (a : A)
| Raise (e : exn).
Arguments Ok {A} a.
Arguments Raise {A} e.

(** The values [json.loads] produces, which are the values the content
    service client can hand to its caller.  A dictionary is kept as its
    items in insertion order.  A number is an integer here: the program
    observes a number only through its truth value. *)
#[warnings="-register-all"]
Inductive pyval :=
| PyNone
| PyBool (b : bool)
| PyNum (z : Z)
| PyStr (s : str)
| PyList (l : list pyval)
| PyDict (items : list (str * pyval)).

(** [bool(v)] *)
Definition truthy (v : pyval) : bool :=
  match v with
  | PyNone => false
  | PyBool b => b
  | PyNum z => negb (z =? 0)%Z
  | PyStr s => truthy_str s
  | PyList l => match l with [] => false | _ :: _ => true end
  | PyDict items => match items with [] => false | _ :: _ => true end
  end.

Fixpoint assoc (key : str) (items : list (str * pyval)) : option pyval :=
  match items with
  | [] => None
  | (k, v) :: items' => if decide (k = key) then Some v else assoc key items'
  end.

(** [v.get(key)]: only a dictionary has the method. *)
Definition py_get (v : pyval) (key : str) : result pyval :=
  match v with
  | PyDict items => Ok (default PyNone (assoc key items))
  | _ => Raise AttributeError
  end.

(** [v[0]] *)
Definition py_item0 (v : pyval) : result pyval :=
  match v with
  | PyList (x :: _) => Ok x
  | PyList [] => Raise IndexError
  | PyStr (c :: _) => Ok (PyStr [c])
  | PyStr [] => Raise IndexError
  | PyDict _ => Raise KeyError
  | _ => Raise TypeError
  end.

(** Use of a value as a [str] receiver ([v.split(...)], [v.strip()]). *)
Definition as_str (v : pyval) : result str :=
  match v with
  | PyStr s => Ok s
  | _ => Raise AttributeError
  end.

(** *** Flowables of the layout library, as the data handed to it *)

(** A flowable is kept as the data the repository hands to the library's
    constructor.  Of the constructors only [Table] is given a say (the
    oracle [Table_init] below); [Paragraph] is taken to accept its text,
    although the library reads the text as markup and can refuse it.  The
    properties of the PDF assembler are therefore stated from its return
    or to its failure, and to a return only on given plain texts: they
    hold as well where a [Paragraph] is refused, which is one more
    exception on the way to the same handler. *)

Inductive style :=
| SheetStyle (name : str)       (* [styles[name]] *)
| CustomTitle                   (* [ParagraphStyle('CustomTitle', parent=styles['Heading1'], ...)] *)
| TableTitle.                   (* [ParagraphStyle('TableTitle', ...)] *)

Inductive flowable :=
| Paragraph (text : str) (st : style)
| PageBreak
| TableOfContents
| Table (rows : list (list str)) (colWidths : list Q)
| Spacer (w h : Z).

(** *** The world *)

Inductive artifact :=
| TextFile (content : str)
| PdfFile.

(** Calls that leave the program, in the order they are made, together
    with the marker [EvCreateDocument] for an entry into the document
    assembler. *)
Inductive event :=
| EvClient
| EvInvokeModel (prompt : str)
| EvCreateDocument
| EvMultiBuild (filename : str) (story : list flowable)
| EvOpen (filename : str)
| EvWrite (filename : str) (content : str)
| EvConfiguration
| EvFromFile (input output : str) (options : list (str * str))
| EvFromString (html output : str) (options : list (str * str))
| EvSubprocess
| EvMakedirs
| EvChdir.

Record world := {
  tick : nat;
  fs : gmap (list N) artifact;
  trace : list event
}.

(** The behaviour of everything outside the repository.  An oracle that
    takes a [nat] is asked at the current tick. *)
Record env := {
  now_Ymd : nat -> str;                 (* [datetime.now().strftime("%Y%m%d")] *)
  now_BdY : nat -> str;                 (* [datetime.now().strftime('%B %d, %Y')] *)
  boto3_client : nat -> option exn;     (* [boto3.client(...)]: [Some e] when it raises *)
  invoke_model : nat -> str -> result pyval;
                                        (* [invoke_model], reading the body and [json.loads] *)
  Table_init : list (list str) -> list Q -> option exn;
                                        (* the constructor [Table(rows, colWidths=..., repeatRows=1)] *)
  multiBuild : nat -> str -> list flowable -> option exn;
  jinja_render : str -> str -> str -> pyval -> pyval -> pyval -> str;
                                        (* [Template(html_template).render(...)] *)
  open_w : nat -> str -> option exn;    (* [open(name, 'w', encoding='utf-8')] *)
  file_write : nat -> str -> str -> option exn;
  pdfkit_configuration : nat -> option exn;
  pdfkit_from_file : nat -> str -> str -> list (str * str) -> option exn;
  pdfkit_from_string : nat -> str -> str -> list (str * str) -> option exn;
  subprocess_run : nat -> option exn;
  os_makedirs : nat -> option exn;
  os_chdir : nat -> option exn
}.

(** *** The monad of effectful code: environment, world, exceptions *)

Definition M (A : Type) : Type := env -> world -> result A * world.

Definition ret {A} (a : A) : M A := fun _ w => (Ok a, w).

Definition raise {A} (e : exn) : M A := fun _ w => (Raise e, w).

Definition bind {A B} (m : M A) (k : A -> M B) : M B :=
  fun E w =>
    match m E w with
    | (Ok a, w') => k a E w'
    | (Raise e, w') => (Raise e, w')
    end.

(** [try: m except Exception as e: h e].  What [m] did to the world before
    it raised stays done. *)
Definition try_catch {A} (m : M A) (h : exn -> M A) : M A :=
  fun E w =>
    match m E w with
    | (Ok a, w') => (Ok a, w')
    | (Raise e, w') => h e E w'
    end.

Definition lift {A} (r : result A) : M A := fun _ w => (r, w).

Notation "'do' x <- m ; k" := (bind m (fun x => k))
  (at level 10, x name, m at level 100, k at level 200).
Notation "'run' m ; k" := (bind m (fun _ => k))
  (at level 10, m at level 100, k at level 200).

Definition advance (ev : list event) (w : world) : world :=
  {| tick := S (tick w); fs := fs w; trace := trace w ++ ev |}.

(** Reading an oracle that cannot fail (the clock). *)
Definition ask {A} (f : env -> nat -> A) : M A :=
  fun E w => (Ok (f E (tick w)), advance [] w).

(** A call that leaves the program: it is recorded, and raises when the
    oracle says so. *)
Definition call (ev : event) (f : env -> nat -> option exn) : M unit :=
  fun E w =>
    match f E (tick w) with
    | None => (Ok tt, advance [ev] w)
    | Some e => (Raise e, advance [ev] w)
    end.

(** Marking an entry into a function of the repository. *)
Definition mark (ev : event) : M unit :=
  fun _ w => (Ok tt, {| tick := tick w; fs := fs w; trace := trace w ++ [ev] |}).

(** The file at [name] becomes [a]. *)
Definition store (name : str) (a : artifact) : M unit :=
  fun _ w => (Ok tt, {| tick := tick w; fs := <[name := a]> (fs w); trace := trace w |}).

Fixpoint foldM {A B} (f : B -> A -> M B) (l : list A) (b : B) : M B :=
  match l with
  | [] => ret b
  | a :: l' => do b' <- f b a; foldM f l' b'
  end.

(* ===================================================================== *)
(** ** Content service client *)
(* ===================================================================== *)

(** [StateContractGenerator.generate_content_with_bedrock], identical in
    both files.  The client object is created before the [try]; the
    request body is a [json.dumps] of a literal and the prompt. *)
Definition generate_content_with_bedrock (prompt : str) : M pyval :=
  run call EvClient boto3_client;
  try_catch
    (do response_body <-
       (fun E w => (invoke_model E (tick w) prompt, advance [EvInvokeModel prompt] w));
     do content <- lift (py_get response_body (lit "content"));
     do first <- lift (py_item0 content);
     lift (py_get first (lit "text")))
    (fun _ => ret PyNone).

(** The four generator methods: build the prompt, call the client. *)
Definition generate (t : template) (info : state_info) : M pyval :=
  generate_content_with_bedrock (format t info).

(** [all([a, b, c, d])] *)
Definition all (l : list pyval) : bool := forallb truthy l.

(* ===================================================================== *)
(** ** Structured-text parser: the loop shared by both assemblers *)
(* ===================================================================== *)

(** A parsed unit of prose: heading depth (0 for a body paragraph) and text. *)
Record DocumentBlock := { depth : nat; text : str }.

(** What one pass of the [for section in contract_content.split('\n')]
    loop decides, before the assembler-specific rendering of the block. *)
Definition block_of_section (section : str) : option DocumentBlock :=
  if truthy_str (strip section) then
    if startswith hash section then
      let level := count hash section in
      let text := strip (strip_chars [hash] section) in
      Some {| depth := level; text := text |}
    else Some {| depth := 0; text := section |}
  else None.

Definition parse_blocks (contract_content : str) : list DocumentBlock :=
  omap block_of_section (split newline contract_content).

(* ===================================================================== *)
(** ** [contracts.py]: the direct-PDF variant *)
(* ===================================================================== *)

Module PDF.

Definition create_contract := generate PDFPrompts.create_contract_template.
Definition generate_rate_schedule := generate PDFPrompts.generate_rate_schedule_template.
Definition generate_service_areas := generate PDFPrompts.generate_service_areas_template.
Definition generate_performance_standards :=
  generate PDFPrompts.generate_performance_standards_template.

(** The keys of the layout library's sample stylesheet
    ([getSampleStyleSheet()]): style names, then their aliases.  The
    library is not part of the repository; of this list the program only
    uses which [Heading<n>] keys exist. *)
Definition sample_style_keys : list str :=
  map lit
    [ "Normal"; "BodyText"; "Italic"; "Heading1"; "Title"; "Heading2";
      "Heading3"; "Heading4"; "Heading5"; "Heading6"; "Bullet";
      "Definition"; "Code"; "UnorderedList"; "OrderedList";
      "bt"; "italic"; "h1"; "title"; "h2"; "h3"; "h4"; "h5"; "h6"; "bu";
      "df"; "ul"; "ol" ]%string.

(** [styles[name]] *)
Definition styles (name : str) : result style :=
  if decide (name ∈ sample_style_keys) then Ok (SheetStyle name) else Raise KeyError.

(** *** [ContractPDF.create_table_from_data] *)

(** The two list comprehensions that turn the reply into rows of cells. *)
Definition parse_rows (data : str) : list (list str) :=
  let rows := map (fun row => split pipe (strip row)) (split newline (strip data)) in
  map (fun row => map (fun cell => strip cell) row) rows.

(** [len(str(row[col_idx])) for row in rows], consumed in order. *)
Fixpoint cell_lengths (rows : list (list str)) (col_idx : nat) : result (list nat) :=
  match rows with
  | [] => Ok []
  | row :: rows' =>
      match row !! col_idx with
      | None => Raise IndexError
      | Some cell =>
          match cell_lengths rows' col_idx with
          | Ok ls => Ok (length cell :: ls)
          | Raise e => Raise e
          end
      end
  end.

Definition inch : Q := 72.
(** [self.doc.width]: the letter page, 612 points wide, less two margins of 72. *)
Definition doc_width : Q := 612 - 72 - 72.

(** One pass of [for col_idx in range(len(rows[0]))].  The arithmetic is
    on rationals; the source computes in floating point, so that its
    widths are the roundings of the ones here.  What is stated of widths
    below (how many there are, that a blank column has width zero, that a
    width is one of its two candidates and exceeds neither) holds in
    either arithmetic. *)
Definition col_width (rows : list (list str)) (ncols col_idx : nat) : result Q :=
  match cell_lengths rows col_idx with
  | Ok ls =>
      let max_width := list_max ls in
      Ok (Qmin (inject_Z (Z.of_nat max_width) * (1 # 10) * inch)
               (doc_width / inject_Z (Z.of_nat ncols)))
  | Raise e => Raise e
  end.

Fixpoint col_widths_loop (rows : list (list str)) (ncols : nat) (idxs : list nat)
    (col_widths : list Q) : result (list Q) :=
  match idxs with
  | [] => Ok col_widths
  | col_idx :: idxs' =>
      match col_width rows ncols col_idx with
      | Ok w => col_widths_loop rows ncols idxs' (col_widths ++ [w])
      | Raise e => Raise e
      end
  end.

Definition col_widths_of (rows : list (list str)) : result (list Q) :=
  match rows with
  | [] => Raise IndexError
  | header :: _ => col_widths_loop rows (length header) (seq 0 (length header)) []
  end.

(** The table style is a constant of the source and is left out. *)
Definition create_table_from_data (data : pyval) (table_title : str) : M (list flowable) :=
  do data <- lift (as_str data);
  let rows := parse_rows data in
  do col_widths <- lift (col_widths_of rows);
  run (fun E w => (match Table_init E rows col_widths with
                   | None => Ok tt
                   | Some e => Raise e
                   end, w));
  ret [ Paragraph (lit "<b>" ++ table_title ++ lit "</b>") TableTitle;
        Table rows col_widths;
        Spacer 1 20 ].

(** *** [ContractPDF.create_document] *)

(** One pass of the loop over the sections of the contract body. *)
Definition add_section (story : list flowable) (section : str) : M (list flowable) :=
  if truthy_str (strip section) then
    if startswith hash section then
      let level := count hash section in
      let text := strip (strip_chars [hash] section) in
      do st <- lift (styles (lit "Heading" ++ str_of_nat level));
      ret (story ++ [Paragraph text st])
    else
      do st <- lift (styles (lit "Normal"));
      ret (story ++ [Paragraph section st])
  else ret story.

(** [self.story] starts empty in a fresh [ContractPDF]; the page template
    set up before the build is a constant of the source. *)
Definition create_document (filename title : str)
    (contract_content rate_schedule service_areas performance_standards : pyval) : M unit :=
  run mark EvCreateDocument;
  do h1 <- lift (styles (lit "Heading1"));
  let story := [Paragraph title CustomTitle; PageBreak] in
  do h1 <- lift (styles (lit "Heading1"));
  let story := story ++ [Paragraph (lit "Table of Contents") h1; TableOfContents; PageBreak] in
  do contract_content <- lift (as_str contract_content);
  do story <- foldM add_section (split newline contract_content) story;
  do h1 <- lift (styles (lit "Heading1"));
  let story := story ++ [Paragraph (lit "Attachments") h1] in
  do t <- create_table_from_data rate_schedule (lit "Attachment A: Rate Schedule");
  let story := story ++ t in
  do t <- create_table_from_data service_areas (lit "Attachment B: Service Areas");
  let story := story ++ t in
  do t <- create_table_from_data performance_standards
            (lit "Attachment C: Performance Standards");
  let story := story ++ t in
  run call (EvMultiBuild filename story) (fun E n => multiBuild E n filename story);
  store filename PdfFile.

Definition generate_filename (base_name : str) (info : state_info) : M str :=
  do date_str <- ask now_Ymd;
  let state_abbrev := state_abbrev info in
  ret (base_name ++ lit "_" ++ state_abbrev ++ lit "_" ++ date_str ++ lit ".pdf").

Definition process_state (info : state_info) : M bool :=
  try_catch
    (do contract_text <- create_contract info;
     do rate_schedule <- generate_rate_schedule info;
     do service_areas <- generate_service_areas info;
     do performance_standards <- generate_performance_standards info;
     if all [contract_text; rate_schedule; service_areas; performance_standards] then
       do filename <- generate_filename (lit "Transportation_Contract") info;
       run create_document filename
             (lit "Transportation Services Contract - " ++ state info)
             contract_text rate_schedule service_areas performance_standards;
       ret true
     else ret false)
    (fun _ => ret false).

(** The four generator calls of [process_state], in order. *)
Definition generate_all (info : state_info) : M (pyval * pyval * pyval * pyval) :=
  do contract_text <- create_contract info;
  do rate_schedule <- generate_rate_schedule info;
  do service_areas <- generate_service_areas info;
  do performance_standards <- generate_performance_standards info;
  ret (contract_text, rate_schedule, service_areas, performance_standards).

(** The loop of [main] over [state_configs.items()], with its two
    accumulators. *)
Definition process_all (configs : list (str * state_info)) : M (nat * list str) :=
  foldM (fun acc item =>
           let '(successful_states, failed_states) := acc in
           let '(state_code, info) := item in
           do ok <- process_state info;
           if ok then ret (successful_states + 1, failed_states)
           else ret (successful_states, failed_states ++ [state_code]))
        configs (0, []).

(** The lines of the summary that report the outcome. *)
Definition summary_lines (successful_states : nat) (failed_states : list str) : list str :=
  [lit "Successfully generated: " ++ str_of_nat successful_states ++ lit " contracts"]
  ++ match failed_states with
     | [] => []
     | _ :: _ => [lit "Failed states: " ++ join (lit ", ") failed_states]
     end.

Definition main : M (list str) :=
  run call EvMakedirs os_makedirs;
  run call EvChdir os_chdir;
  do r <- process_all state_configs;
  ret (summary_lines r.1 r.2).

End PDF.

(* ===================================================================== *)
(** ** [contracts2.py]: the HTML-output variant *)
(* ===================================================================== *)

Module HTML.

Definition create_contract := generate HTMLPrompts.create_contract_template.
Definition generate_rate_schedule := generate HTMLPrompts.generate_rate_schedule_template.
Definition generate_service_areas := generate HTMLPrompts.generate_service_areas_template.
Definition generate_performance_standards :=
  generate HTMLPrompts.generate_performance_standards_template.

(** *** [ContractHTML.create_document] *)

(** One pass of the loop over the lines of the contract body. *)
Definition add_line (processed_content : list str) (line : str) : list str :=
  if truthy_str (strip line) then
    if startswith hash line then
      let level := count hash line in
      let text := strip (strip_chars [hash] line) in
      processed_content
        ++ [lit "<h" ++ str_of_nat level ++ lit ">" ++ text
            ++ lit "</h" ++ str_of_nat level ++ lit ">"]
    else processed_content ++ [lit "<p>" ++ line ++ lit "</p>"]
  else processed_content.

Definition create_document (title : str)
    (contract_content rate_schedule service_areas performance_standards : pyval) : M str :=
  run mark EvCreateDocument;
  do contract_content <- lift (as_str contract_content);
  let processed_content := fold_left add_line (split newline contract_content) [] in
  let contract_html := join [newline] processed_content in
  do date <- ask now_BdY;
  fun E w =>
    (Ok (jinja_render E title date contract_html
           rate_schedule service_areas performance_standards), w).

Definition generate_filename (base_name : str) (info : state_info) : M str :=
  do date_str <- ask now_Ymd;
  let state_abbrev := state_abbrev info in
  ret (base_name ++ lit "_" ++ state_abbrev ++ lit "_" ++ date_str).

(** The [options] dictionary of the first two conversion methods. *)
Definition options (info : state_info) (header_right : str) : list (str * str) :=
  [ (lit "page-size", lit "Letter");
    (lit "margin-top", lit "25mm");
    (lit "margin-right", lit "25mm");
    (lit "margin-bottom", lit "25mm");
    (lit "margin-left", lit "25mm");
    (lit "encoding", lit "UTF-8");
    (lit "enable-local-file-access", lit "");
    (lit "footer-right", lit "[page] of [topage]");
    (lit "footer-font-size", lit "9");
    (lit "header-font-size", lit "9");
    (lit "header-left", lit "Transportation Services Contract - " ++ state info);
    (lit "header-right", header_right);
    (lit "header-line", lit "");
    (lit "footer-line", lit "");
    (lit "footer-left", lit "Confidential and Proprietary");
    (lit "quiet", lit "") ].

(** The [simple_options] dictionary of the third method. *)
Definition simple_options : list (str * str) :=
  [ (lit "page-size", lit "Letter");
    (lit "encoding", lit "UTF-8");
    (lit "enable-local-file-access", lit "");
    (lit "quiet", lit "") ].

Definition from_file (input output : str) (opts : list (str * str)) : M unit :=
  run call (EvFromFile input output opts) (fun E n => pdfkit_from_file E n input output opts);
  store output PdfFile.

Definition from_string (html output : str) (opts : list (str * str)) : M unit :=
  run call (EvFromString html output opts)
        (fun E n => pdfkit_from_string E n html output opts);
  store output PdfFile.

(** The body of the inner [try] of [process_state]: renderer
    configuration, option set, and the three nested conversion methods. *)
Definition convert_to_pdf (info : state_info) (html_filename html_content pdf_filename : str)
    : M unit :=
  run call EvConfiguration pdfkit_configuration;
  do header_right <- ask now_BdY;
  let options := options info header_right in
  try_catch
    (from_file html_filename pdf_filename options)
    (fun e1 =>
       try_catch
         (from_string html_content pdf_filename options)
         (fun e2 =>
            try_catch
              (from_file html_filename pdf_filename simple_options)
              (fun e3 => raise PlainException))).

(** [with open(html_filename, 'w', encoding='utf-8') as f: f.write(html_content)] *)
Definition save_html (html_filename html_content : str) : M unit :=
  run call (EvOpen html_filename) (fun E n => open_w E n html_filename);
  run store html_filename (TextFile []);
  run call (EvWrite html_filename html_content)
        (fun E n => file_write E n html_filename html_content);
  store html_filename (TextFile html_content).

Definition process_state (info : state_info) : M bool :=
  try_catch
    (do contract_text <- create_contract info;
     do rate_schedule <- generate_rate_schedule info;
     do service_areas <- generate_service_areas info;
     do performance_standards <- generate_performance_standards info;
     if all [contract_text; rate_schedule; service_areas; performance_standards] then
       do base_filename <- generate_filename (lit "Transportation_Contract") info;
       do html_content <-
         create_document (lit "Transportation Services Contract - " ++ state info)
           contract_text rate_schedule service_areas performance_standards;
       let html_filename := base_filename ++ lit ".html" in
       run save_html html_filename html_content;
       let pdf_filename := base_filename ++ lit ".pdf" in
       do converted <-
         try_catch
           (run convert_to_pdf info html_filename html_content pdf_filename;
            ret true)
           (fun e =>
              run try_catch (call EvSubprocess subprocess_run) (fun ve => ret tt);
              ret false);
       if converted then ret true else ret false
     else ret false)
    (fun _ => ret false).

(** The four generator calls of [process_state], in order. *)
Definition generate_all (info : state_info) : M (pyval * pyval * pyval * pyval) :=
  do contract_text <- create_contract info;
  do rate_schedule <- generate_rate_schedule info;
  do service_areas <- generate_service_areas info;
  do performance_standards <- generate_performance_standards info;
  ret (contract_text, rate_schedule, service_areas, performance_standards).

(** [process_state] up to and including the saving of the HTML file:
    [None] when the content gate is closed, otherwise the HTML file name,
    the HTML text and the PDF file name. *)
Definition prepare (info : state_info) : M (option (str * str * str)) :=
  do c <- generate_all info;
  let '(contract_text, rate_schedule, service_areas, performance_standards) := c in
  if all [contract_text; rate_schedule; service_areas; performance_standards] then
    do base_filename <- generate_filename (lit "Transportation_Contract") info;
    do html_content <-
      create_document (lit "Transportation Services Contract - " ++ state info)
        contract_text rate_schedule service_areas performance_standards;
    let html_filename := base_filename ++ lit ".html" in
    run save_html html_filename html_content;
    ret (Some (html_filename, html_content, base_filename ++ lit ".pdf"))
  else ret None.

(** The loop of [main] over [enumerate(state_configs.items(), 1)]. *)
Definition process_all (configs : list (str * state_info)) : M (nat * list str) :=
  foldM (fun acc item =>
           let '(successful_states, failed_states) := acc in
           let '(state_code, info) := item in
           do ok <- process_state info;
           if ok then ret (successful_states + 1, failed_states)
           else ret (successful_states, failed_states ++ [state_code]))
        configs (0, []).

(** The lines of the summary that report the outcome. *)
Definition summary_lines (total_states successful_states : nat) (failed_states : list str)
    : list str :=
  [ lit "Total states processed: " ++ str_of_nat total_states;
    lit "Successfully generated: " ++ str_of_nat successful_states ++ lit " contracts";
    lit "Failed states: " ++ str_of_nat (length failed_states) ]
  ++ match failed_states with
     | [] => []
     | _ :: _ => [lit "Failed state codes: " ++ join (lit ", ") failed_states]
     end.

Definition main : M (list str) :=
  run call EvMakedirs os_makedirs;
  run call EvChdir os_chdir;
  let total_states := length state_configs in
  do r <- process_all state_configs;
  ret (summary_lines total_states r.1 r.2).

End HTML.

(* ===================================================================== *)
(** ** Vocabulary for the statements, and sample environments *)
(* ===================================================================== *)

(** The outcomes of the records of a batch, one after the other in the
    same world; the list stops where a record's pipeline raises. *)
Fixpoint batch_outcomes (process_state : state_info -> M bool)
    (configs : list (str * state_info)) (E : env) (w : world) : list bool * world :=
  match configs with
  | [] => ([], w)
  | (_, info) :: configs' =>
      match process_state info E w with
      | (Ok ok, w1) =>
          let '(oks, w2) := batch_outcomes process_state configs' E w1 in
          (ok :: oks, w2)
      | (Raise _, w1) => ([], w1)
      end
  end.

(** The codes of the records whose outcome is failure, in input order. *)
Fixpoint failed_codes (configs : list (str * state_info)) (oks : list bool) : list str :=
  match configs, oks with
  | (code, _) :: configs', ok :: oks' =>
      if ok then failed_codes configs' oks' else code :: failed_codes configs' oks'
  | _, _ => []
  end.

(** The body of the loop of [main], for either variant's [process_state]. *)
Definition batch_step (process_state : state_info -> M bool)
    (acc : nat * list str) (item : str * state_info) : M (nat * list str) :=
  let '(successful_states, failed_states) := acc in
  let '(state_code, info) := item in
  do ok <- process_state info;
  if ok then ret (successful_states + 1, failed_states)
  else ret (successful_states, failed_states ++ [state_code]).

(** The world in which the loop of [main] starts. *)
Definition after_setup (w : world) : world :=
  advance [EvChdir] (advance [EvMakedirs] w).

(** A content value that the gate rejects by the claim's wording. *)
Definition no_content (v : pyval) : Prop := v = PyNone \/ v = PyStr [].

(** Events of the content service client. *)
Definition service_event (ev : event) : Prop :=
  match ev with
  | EvClient | EvInvokeModel _ => True
  | _ => False
  end.

(** Events of a conversion attempt. *)
Definition conversion_event (ev : event) : bool :=
  match ev with
  | EvFromFile _ _ _ | EvFromString _ _ _ => true
  | _ => false
  end.

(** Events of the build of a PDF and of the writing of a file. *)
Definition output_event (ev : event) : Prop :=
  match ev with
  | EvMultiBuild _ _ | EvOpen _ | EvWrite _ _ | EvFromFile _ _ _ | EvFromString _ _ _ => True
  | _ => False
  end.

(** The world after the marker of an entry into the assembler. *)
Definition entered (w : world) : world :=
  {| tick := tick w; fs := fs w; trace := trace w ++ [EvCreateDocument] |}.

(** A line that takes the heading branch of the assembler's loop. *)
Definition heading_line (line : str) : Prop := startswith hash line = true.

(** The text the client takes out of a decoded reply:
    [response_body.get("content")[0].get("text")]. *)
Definition extract_text (response_body : pyval) : result pyval :=
  match py_get response_body (lit "content") with
  | Ok content =>
      match py_item0 content with
      | Ok first => py_get first (lit "text")
      | Raise e => Raise e
      end
  | Raise e => Raise e
  end.

(** The value the client returns once its [try] block has been entered. *)
Definition text_or_none (reply : result pyval) : pyval :=
  match reply with
  | Ok response_body =>
      match extract_text response_body with
      | Ok v => v
      | Raise _ => PyNone
      end
  | Raise _ => PyNone
  end.

(** [w1] differs from [w] only by calls of the content service client. *)
Definition service_only (w w1 : world) : Prop :=
  fs w1 = fs w /\ exists evs, trace w1 = trace w ++ evs /\ Forall service_event evs.

(** How each assembler renders a parsed block. *)
Definition paragraph_of_block (b : DocumentBlock) : result flowable :=
  let name :=
    match depth b with
    | 0 => lit "Normal"
    | S _ => lit "Heading" ++ str_of_nat (depth b)
    end in
  match PDF.styles name with
  | Ok st => Ok (Paragraph (text b) st)
  | Raise e => Raise e
  end.

Definition html_of_block (b : DocumentBlock) : str :=
  match depth b with
  | 0 => lit "<p>" ++ text b ++ lit "</p>"
  | S _ => lit "<h" ++ str_of_nat (depth b) ++ lit ">" ++ text b
           ++ lit "</h" ++ str_of_nat (depth b) ++ lit ">"
  end.

(** What [PDF.process_state] does behind an open content gate. *)
Definition pdf_assemble (info : state_info)
    (contract_text rate_schedule service_areas performance_standards : pyval) : M bool :=
  do filename <- PDF.generate_filename (lit "Transportation_Contract") info;
  run PDF.create_document filename
        (lit "Transportation Services Contract - " ++ state info)
        contract_text rate_schedule service_areas performance_standards;
  ret true.

(** What [HTML.process_state] does once the HTML file is saved. *)
Definition html_convert (info : state_info) (html_filename html_content pdf_filename : str)
    : M bool :=
  try_catch
    (run HTML.convert_to_pdf info html_filename html_content pdf_filename;
     ret true)
    (fun e =>
       run try_catch (call EvSubprocess subprocess_run) (fun ve => ret tt);
       ret false).

(** The three conversion methods, as the events they leave in the trace. *)
Definition method1 (info : state_info) (header_right html_filename pdf_filename : str) : event :=
  EvFromFile html_filename pdf_filename (HTML.options info header_right).
Definition method2 (info : state_info) (header_right html_content pdf_filename : str) : event :=
  EvFromString html_content pdf_filename (HTML.options info header_right).
Definition method3 (html_filename pdf_filename : str) : event :=
  EvFromFile html_filename pdf_filename HTML.simple_options.

(** The answers of the renderer to the three methods ([None]: done), and
    the attempts that the nesting of the three [try] blocks then makes. *)
Definition all_failed (a1 a2 a3 : option exn) : bool :=
  match a1, a2, a3 with
  | Some _, Some _, Some _ => true
  | _, _, _ => false
  end.

Definition attempts_made (a1 a2 : option exn) (m1 m2 m3 : event) : list event :=
  match a1 with
  | None => [m1]
  | Some _ => match a2 with
              | None => [m1; m2]
              | Some _ => [m1; m2; m3]
              end
  end.

(** A well-formed reply of the service carrying [s] as its first text segment. *)
Definition reply_text (s : str) : pyval :=
  PyDict [ (lit "content",
            PyList [ PyDict [ (lit "type", PyStr (lit "text"));
                              (lit "text", PyStr s) ] ]) ].

Definition w0 : world := {| tick := 0; fs := ∅; trace := [] |}.

(** An environment in which nothing fails and the service answers every
    prompt with [reply]. *)
Definition calm_env (reply : str) : env :=
  {| now_Ymd := fun _ => lit "20240315";
     now_BdY := fun _ => lit "March 15, 2024";
     boto3_client := fun _ => None;
     invoke_model := fun _ _ => Ok (reply_text reply);
     Table_init := fun _ _ => None;
     multiBuild := fun _ _ _ => None;
     jinja_render := fun title date body _ _ _ => title ++ [newline] ++ date ++ [newline] ++ body;
     open_w := fun _ _ => None;
     file_write := fun _ _ _ => None;
     pdfkit_configuration := fun _ => None;
     pdfkit_from_file := fun _ _ _ _ => None;
     pdfkit_from_string := fun _ _ _ _ => None;
     subprocess_run := fun _ => None;
     os_makedirs := fun _ => None;
     os_chdir := fun _ => None |}.

Definition with_client (f : nat -> option exn) (E : env) : env :=
  {| now_Ymd := now_Ymd E; now_BdY := now_BdY E; boto3_client := f;
     invoke_model := invoke_model E; Table_init := Table_init E;
     multiBuild := multiBuild E; jinja_render := jinja_render E;
     open_w := open_w E; file_write := file_write E;
     pdfkit_configuration := pdfkit_configuration E;
     pdfkit_from_file := pdfkit_from_file E;
     pdfkit_from_string := pdfkit_from_string E;
     subprocess_run := subprocess_run E;
     os_makedirs := os_makedirs E; os_chdir := os_chdir E |}.

Definition with_invoke (f : nat -> str -> result pyval) (E : env) : env :=
  {| now_Ymd := now_Ymd E; now_BdY := now_BdY E; boto3_client := boto3_client E;
     invoke_model := f; Table_init := Table_init E;
     multiBuild := multiBuild E; jinja_render := jinja_render E;
     open_w := open_w E; file_write := file_write E;
     pdfkit_configuration := pdfkit_configuration E;
     pdfkit_from_file := pdfkit_from_file E;
     pdfkit_from_string := pdfkit_from_string E;
     subprocess_run := subprocess_run E;
     os_makedirs := os_makedirs E; os_chdir := os_chdir E |}.

Definition with_renderer (conf : nat -> option exn)
    (ff : nat -> str -> str -> list (str * str) -> option exn)
    (fs : nat -> str -> str -> list (str * str) -> option exn) (E : env) : env :=
  {| now_Ymd := now_Ymd E; now_BdY := now_BdY E; boto3_client := boto3_client E;
     invoke_model := invoke_model E; Table_init := Table_init E;
     multiBuild := multiBuild E; jinja_render := jinja_render E;
     open_w := open_w E; file_write := file_write E;
     pdfkit_configuration := conf;
     pdfkit_from_file := ff;
     pdfkit_from_string := fs;
     subprocess_run := subprocess_run E;
     os_makedirs := os_makedirs E; os_chdir := os_chdir E |}.

(** The first record of the configuration store. *)
Definition florida : state_info :=
  match state_configs with
  | (_, info) :: _ => info
  | [] => {| state := []; state_abbrev := []; health_agency := []; agency_city := [];
             provider_name := []; provider_city := []; service_regions := [];
             contract_date := [];
             provider_details := {| fleet_size := 0; operating_hours := [];
                                    driver_count := 0; term := [] |} |}
  end.

(** A small table reply, and a reply of two lines joined by a line feed. *)
Definition two_lines (a b : string) : str := lit a ++ [newline] ++ lit b.
Definition three_lines (a b c : string) : str :=
  lit a ++ [newline] ++ lit b ++ [newline] ++ lit c.

(** A stub content service that fails for the records of Texas and Ohio. *)
Definition texas_ohio_env : env :=
  with_invoke (fun _ prompt =>
                 if contains (lit "Texas") prompt || contains (lit "Ohio") prompt
                 then Raise (ExternalError 3)
                 else Ok (reply_text (lit "A | B")))
              (calm_env []).

(** The renderer is configured and refuses the first method only. *)
Definition second_method_env : env :=
  with_renderer (fun _ => None)
                (fun _ _ _ _ => Some (ExternalError 1))
                (fun _ _ _ _ => None)
                (calm_env (lit "A | B")).

(** The renderer cannot be configured; its methods would all succeed. *)
Definition unconfigured_env : env :=
  with_renderer (fun _ => Some (ExternalError 0))
                (fun _ _ _ _ => None)
                (fun _ _ _ _ => None)
                (calm_env (lit "A | B")).

(** The renderer is configured and refuses every method. *)
Definition refusing_env : env :=
  with_renderer (fun _ => None)
                (fun _ _ _ _ => Some (ExternalError 1))
                (fun _ _ _ _ => Some (ExternalError 2))
                (calm_env (lit "A | B")).

(** The service has no rate schedule: its second invocation of a record
    (tick 3) raises. *)
Definition rates_missing_env : env :=
  with_invoke (fun n _ => if (n =? 3)%nat then Raise (ExternalError 3)
                          else Ok (reply_text (two_lines "A | B" "1 | 2")))
              (calm_env []).

(** [main] from the loop on, for any configuration store: the loop over
    the records, then the summary. *)
Definition pdf_batch (configs : list (str * state_info)) : M (list str) :=
  do r <- PDF.process_all configs;
  ret (PDF.summary_lines r.1 r.2).

Definition html_batch (configs : list (str * state_info)) : M (list str) :=
  do r <- HTML.process_all configs;
  ret (HTML.summary_lines (length configs) r.1 r.2).

(** The generator method of each content kind, variant by variant. *)
Definition pdf_generator (k : content_kind) : state_info -> M pyval :=
  match k with
  | Contract => PDF.create_contract
  | Rates => PDF.generate_rate_schedule
  | ServiceAreas => PDF.generate_service_areas
  | Performance => PDF.generate_performance_standards
  end.

Definition html_generator (k : content_kind) : state_info -> M pyval :=
  match k with
  | Contract => HTML.create_contract
  | Rates => HTML.generate_rate_schedule
  | ServiceAreas => HTML.generate_service_areas
  | Performance => HTML.generate_performance_standards
  end.

(** The record values that the prompt of a content kind refers to, read
    off the record itself: all eleven for the contract body; agency,
    provider and state for the rate schedule of [contracts.py]; provider
    and state for the other tables. *)
Definition contract_values (info : state_info) : list str :=
  [ health_agency info; agency_city info; state info; provider_name info;
    provider_city info; contract_date info; term (provider_details info);
    join (lit ", ") (service_regions info);
    str_of_int (fleet_size (provider_details info));
    operating_hours (provider_details info);
    str_of_int (driver_count (provider_details info)) ].

Definition pdf_values (k : content_kind) (info : state_info) : list str :=
  match k with
  | Contract => contract_values info
  | Rates => [health_agency info; provider_name info; state info]
  | ServiceAreas | Performance => [provider_name info; state info]
  end.

Definition html_values (k : content_kind) (info : state_info) : list str :=
  match k with
  | Contract => contract_values info
  | Rates | ServiceAreas | Performance => [provider_name info; state info]
  end.

(* ===================================================================== *)
(** ** Further vocabulary: widths, events, stories, file effects *)
(* ===================================================================== *)

(** The cap on a column's width: an equal share of the page width. *)
Definition width_cap (ncols : nat) : Q := (PDF.doc_width / inject_Z (Z.of_nat ncols))%Q.

(** The width a column would take from its longest cell alone. *)
Definition natural_width (max_width : nat) : Q :=
  (inject_Z (Z.of_nat max_width) * (1 # 10) * PDF.inch)%Q.

(** The calls one record makes to the content service when every client
    object can be created: a client and an invocation per content kind. *)
Definition four_calls (template_of : content_kind -> template) (info : state_info)
    : list event :=
  concat (map (fun k => [EvClient; EvInvokeModel (format (template_of k) info)])
              [Contract; Rates; ServiceAreas; Performance]).

(** A record with another abbreviation. *)
Definition with_abbrev (abbrev : str) (info : state_info) : state_info :=
  {| state := state info; state_abbrev := abbrev; health_agency := health_agency info;
     agency_city := agency_city info; provider_name := provider_name info;
     provider_city := provider_city info; service_regions := service_regions info;
     contract_date := contract_date info; provider_details := provider_details info |}.

(** A record with another contract date. *)
Definition with_contract_date (date : str) (info : state_info) : state_info :=
  {| state := state info; state_abbrev := state_abbrev info;
     health_agency := health_agency info;
     agency_city := agency_city info; provider_name := provider_name info;
     provider_city := provider_city info; service_regions := service_regions info;
     contract_date := date; provider_details := provider_details info |}.

(** Calls of the content service among events. *)
Definition is_service (ev : event) : bool :=
  match ev with
  | EvClient | EvInvokeModel _ => true
  | _ => false
  end.

(** Invocations of the model among events. *)
Definition is_invoke (ev : event) : bool :=
  match ev with
  | EvInvokeModel _ => true
  | _ => false
  end.

(** The four invocations of one record, in the order of [process_state]. *)
Definition prompts_of (template_of : content_kind -> template) (info : state_info)
    : list event :=
  map (fun k => EvInvokeModel (format (template_of k) info))
      [Contract; Rates; ServiceAreas; Performance].

(** Every event a computation adds to the trace satisfies [P]. *)
Definition emits (P : event -> Prop) {A} (m : M A) : Prop :=
  forall E w, exists evs, trace (m E w).2 = trace w ++ evs /\ Forall P evs.

(** What [HTML.process_state] does with the four content values. *)
Definition html_finish (info : state_info)
    (contract_text rate_schedule service_areas performance_standards : pyval) : M bool :=
  if all [contract_text; rate_schedule; service_areas; performance_standards] then
    do base_filename <- HTML.generate_filename (lit "Transportation_Contract") info;
    do html_content <-
      HTML.create_document (lit "Transportation Services Contract - " ++ state info)
        contract_text rate_schedule service_areas performance_standards;
    let html_filename := base_filename ++ lit ".html" in
    run HTML.save_html html_filename html_content;
    let pdf_filename := base_filename ++ lit ".pdf" in
    do converted <- html_convert info html_filename html_content pdf_filename;
    if converted then ret true else ret false
  else ret false.

(** The story of a PDF, part by part. *)
Definition style_name (b : DocumentBlock) : str :=
  match depth b with
  | 0 => lit "Normal"
  | S _ => lit "Heading" ++ str_of_nat (depth b)
  end.

Definition body_paragraph (b : DocumentBlock) : flowable :=
  Paragraph (text b) (SheetStyle (style_name b)).

Definition front_matter (title : str) : list flowable :=
  [ Paragraph title CustomTitle; PageBreak;
    Paragraph (lit "Table of Contents") (SheetStyle (lit "Heading1"));
    TableOfContents; PageBreak ].

Definition table_flowables (table_title : str) (rows : list (list str))
    (col_widths : list Q) : list flowable :=
  [ Paragraph (lit "<b>" ++ table_title ++ lit "</b>") TableTitle;
    Table rows col_widths;
    Spacer 1 20 ].

(** A computation that leaves every file as it is. *)
Definition fs_steady {A} (m : M A) : Prop := forall E w, fs (m E w).2 = fs w.

(** A computation that writes the PDF file [name] when it returns and no
    file when it raises. *)
Definition writes_on_return (name : str) {A} (m : M A) : Prop :=
  forall E w,
    match m E w with
    | (Ok _, w') => fs w' = <[name := PdfFile]> (fs w)
    | (Raise _, w') => fs w' = fs w
    end.

(** The guard around [main()] at the end of [contracts2.py]. *)
Definition contracts2_script : M unit :=
  try_catch (run HTML.main; ret tt) (fun _ => ret tt).

Definition with_files (op : nat -> str -> option exn)
    (wr : nat -> str -> str -> option exn) (E : env) : env :=
  {| now_Ymd := now_Ymd E; now_BdY := now_BdY E; boto3_client := boto3_client E;
     invoke_model := invoke_model E; Table_init := Table_init E;
     multiBuild := multiBuild E; jinja_render := jinja_render E;
     open_w := op; file_write := wr;
     pdfkit_configuration := pdfkit_configuration E;
     pdfkit_from_file := pdfkit_from_file E;
     pdfkit_from_string := pdfkit_from_string E;
     subprocess_run := subprocess_run E;
     os_makedirs := os_makedirs E; os_chdir := os_chdir E |}.

(** The HTML file cannot be opened for writing. *)
Definition read_only_env : env :=
  with_files (fun _ _ => Some (ExternalError 5)) (fun _ _ _ => None)
             (calm_env (lit "A | B")).

(* ===================================================================== *)
(** * Properties *)
(* ===================================================================== *)

(** ** Python strings *)

Section StringFacts.

Lemma lit_inj (s t : string) : lit s = lit t -> s = t.
Proof.
  unfold lit. intros H.
  rewrite <- (string_of_list_ascii_of_string s), <- (string_of_list_ascii_of_string t).
  f_equal. revert H.
  generalize (list_ascii_of_string s) (list_ascii_of_string t).
  induction l as [|a l IH]; intros [|b l']; simpl; intros H; try discriminate; auto.
  injection H as Hab Hl. f_equal; auto.
  rewrite <- (ascii_N_embedding a), <- (ascii_N_embedding b). now rewrite Hab.
Qed.

Lemma to_uint_nonnil (n : nat) : Nat.to_uint n <> Decimal.Nil.
Proof.
  rewrite <- (DecimalNat.Unsigned.of_to n) at 1.
  rewrite DecimalNat.Unsigned.to_of. apply DecimalFacts.unorm_nonnil.
Qed.

Lemma str_of_nat_inj (n m : nat) : str_of_nat n = str_of_nat m -> n = m.
Proof.
  unfold str_of_nat. intros H. apply lit_inj in H.
  apply DecimalNat.Unsigned.to_uint_inj.
  pose proof (NilZero.usu _ (to_uint_nonnil n)) as Hn.
  pose proof (NilZero.usu _ (to_uint_nonnil m)) as Hm.
  rewrite H in Hn. congruence.
Qed.

Variable p : N -> bool.

Lemma lstrip_by_all (s : list N) : forallb p s = true -> lstrip_by p s = [].
Proof.
  induction s as [|a s IH]; simpl; auto.
  destruct (p a); simpl; auto. discriminate.
Qed.

Lemma lstrip_by_snoc (s : list N) (a : N) :
  p a = true ->
  lstrip_by p (s ++ [a]) = if forallb p s then [] else lstrip_by p s ++ [a].
Proof.
  intros Ha. induction s as [|b s IH]; simpl.
  - now rewrite Ha.
  - destruct (p b); simpl; auto.
Qed.

Lemma rstrip_by_snoc (s : list N) (a : N) :
  p a = true -> rstrip_by p (s ++ [a]) = rstrip_by p s.
Proof.
  intros Ha. unfold rstrip_by. rewrite rev_app_distr. simpl. now rewrite Ha.
Qed.

Lemma rstrip_by_snoc_keep (s : list N) (a : N) :
  p a = false -> rstrip_by p (s ++ [a]) = s ++ [a].
Proof.
  intros Ha. unfold rstrip_by. rewrite rev_app_distr. simpl. rewrite Ha.
  simpl. now rewrite rev_involutive.
Qed.

Lemma strip_by_cons (a : N) (s : list N) :
  p a = true -> strip_by p (a :: s) = strip_by p s.
Proof. intros Ha. unfold strip_by. simpl. now rewrite Ha. Qed.

Lemma strip_by_snoc (s : list N) (a : N) :
  p a = true -> strip_by p (s ++ [a]) = strip_by p s.
Proof.
  intros Ha. unfold strip_by. rewrite (lstrip_by_snoc _ _ Ha).
  destruct (forallb p s) eqn:Hall.
  - now rewrite (lstrip_by_all _ Hall).
  - now apply rstrip_by_snoc.
Qed.

Lemma split_nonempty (sep : N) (s : list N) : split sep s <> [].
Proof.
  induction s as [|c s IH]; simpl; try discriminate.
  destruct (c =? sep)%N; try discriminate.
  destruct (split sep s); discriminate.
Qed.

Lemma split_cons_other (sep c : N) (s : list N) :
  c <> sep ->
  exists w ws, split sep s = w :: ws /\ split sep (c :: s) = (c :: w) :: ws.
Proof.
  intros Hc. simpl. apply N.eqb_neq in Hc. rewrite Hc.
  destruct (split sep s) as [|w ws] eqn:Hs.
  - now apply split_nonempty in Hs.
  - eauto.
Qed.

Lemma split_snoc_other (sep a : N) (s : list N) :
  a <> sep ->
  exists ws w, split sep s = ws ++ [w] /\ split sep (s ++ [a]) = ws ++ [w ++ [a]].
Proof.
  intros Ha. induction s as [|c s (ws & w & Hs & Hsa)].
  - exists [], []. simpl. apply N.eqb_neq in Ha. now rewrite Ha.
  - simpl. rewrite Hs, Hsa. destruct (c =? sep)%N.
    + exists ([] :: ws), w. auto.
    + destruct ws as [|v ws]; simpl.
      * exists [], (c :: w). auto.
      * exists ((c :: v) :: ws), w. auto.
Qed.

Lemma map_strip_split_lstrip (sep : N) (s : list N) :
  p sep = false ->
  map (strip_by p) (split sep (lstrip_by p s)) = map (strip_by p) (split sep s).
Proof.
  intros Hsep. induction s as [|a s IH]; auto.
  simpl lstrip_by. destruct (p a) eqn:Ha; auto.
  rewrite IH.
  destruct (split_cons_other sep a s) as (w & ws & Hs & Has).
  { intros ->. congruence. }
  rewrite Hs, Has. simpl. now rewrite (strip_by_cons _ _ Ha).
Qed.

Lemma map_strip_split_rstrip (sep : N) (s : list N) :
  p sep = false ->
  map (strip_by p) (split sep (rstrip_by p s)) = map (strip_by p) (split sep s).
Proof.
  intros Hsep. induction s as [|a s IH] using rev_ind; auto.
  destruct (p a) eqn:Ha.
  - rewrite (rstrip_by_snoc _ _ Ha), IH.
    destruct (split_snoc_other sep a s) as (ws & w & Hs & Has).
    { intros ->. congruence. }
    rewrite Hs, Has, !map_app. simpl. now rewrite (strip_by_snoc _ _ Ha).
  - now rewrite (rstrip_by_snoc_keep _ _ Ha).
Qed.

Lemma map_strip_split_strip (sep : N) (s : list N) :
  p sep = false ->
  map (strip_by p) (split sep (strip_by p s)) = map (strip_by p) (split sep s).
Proof.
  intros Hsep. unfold strip_by at 2.
  rewrite (map_strip_split_rstrip _ _ Hsep). now apply map_strip_split_lstrip.
Qed.

End StringFacts.

(** ** Structured-text parser *)

Section ParserFacts.

Lemma lstrip_by_snoc_keep (p : N -> bool) (s : list N) (a : N) :
  p a = false -> lstrip_by p (s ++ [a]) <> [].
Proof.
  intros Ha. induction s as [|b s IH]; simpl.
  - rewrite Ha. discriminate.
  - destruct (p b); [exact IH | discriminate].
Qed.

Lemma strip_by_keeps_head (p : N -> bool) (a : N) (s : list N) :
  p a = false -> truthy_str (strip_by p (a :: s)) = true.
Proof.
  intros Ha. unfold strip_by, rstrip_by. simpl lstrip_by at 2. rewrite Ha.
  simpl rev at 2.
  pose proof (lstrip_by_snoc_keep p (rev s) a Ha) as Hne.
  destruct (lstrip_by p (rev s ++ [a])) as [|b l]; [congruence|].
  simpl. destruct (rev l); reflexivity.
Qed.

Lemma startswith_hash (s : list N) :
  startswith hash s = true -> exists s', s = hash :: s'.
Proof.
  destruct s as [|c s']; simpl; [discriminate|].
  intros H. apply N.eqb_eq in H. subst. eauto.
Qed.

Lemma heading_not_blank (s : list N) :
  startswith hash s = true -> truthy_str (strip s) = true.
Proof.
  intros H. destruct (startswith_hash _ H) as [s' ->].
  now apply strip_by_keeps_head.
Qed.

Lemma startswith_count (s : list N) :
  startswith hash s = true -> exists n, count hash s = S n.
Proof.
  intros H. destruct (startswith_hash _ H) as [s' ->]. simpl. eauto.
Qed.

(** The three cases of the loop body. *)
Lemma block_of_section_blank (s : list N) :
  truthy_str (strip s) = false -> block_of_section s = None.
Proof. unfold block_of_section. now intros ->. Qed.

Lemma block_of_section_paragraph (s : list N) :
  truthy_str (strip s) = true -> startswith hash s = false ->
  block_of_section s = Some {| depth := 0; text := s |}.
Proof. unfold block_of_section. now intros -> ->. Qed.

Lemma block_of_section_heading (s : list N) :
  startswith hash s = true ->
  block_of_section s =
    Some {| depth := count hash s; text := strip (strip_chars [hash] s) |}.
Proof.
  intros H. unfold block_of_section. now rewrite (heading_not_blank _ H), H.
Qed.

Lemma count_app (c : N) (s t : list N) : count c (s ++ t) = count c s + count c t.
Proof.
  induction s as [|d s IH]; simpl; auto. destruct (d =? c)%N; simpl; auto.
Qed.

Lemma count_rev (c : N) (s : list N) : count c (rev s) = count c s.
Proof.
  induction s as [|d s IH]; simpl; auto.
  rewrite count_app, IH. simpl. destruct (d =? c)%N; lia.
Qed.



Lemma length_split (sep : N) (s : list N) : length (split sep s) = S (count sep s).
Proof.
  induction s as [|c s IH]; simpl; auto.
  destruct (c =? sep)%N; simpl; [now rewrite IH|].
  destruct (split sep s); simpl in *; lia.
Qed.

(** The depth of a heading is the number of markers anywhere in the
    segment: the leading run plus the markers that follow it. *)
Lemma count_leading_run (c : N) (s : list N) :
  count c s = leading_run c s + count c (drop (leading_run c s) s).
Proof.
  induction s as [|d s IH]; simpl; auto.
  destruct (d =? c)%N eqn:Hd; simpl; [now rewrite IH|].
  now rewrite Hd.
Qed.

(** Both assemblers run the loop that [parse_blocks] describes. *)
Lemma add_line_block (processed_content : list (list N)) (line : list N) :
  HTML.add_line processed_content line =
  processed_content ++ match block_of_section line with
                       | Some b => [html_of_block b]
                       | None => []
                       end.
Proof.
  unfold HTML.add_line, block_of_section.
  destruct (truthy_str (strip line)); [|now rewrite app_nil_r].
  destruct (startswith hash line) eqn:Hh; [|reflexivity].
  destruct (startswith_count _ Hh) as [n Hn].
  unfold html_of_block. simpl depth. simpl text. now rewrite Hn.
Qed.

Lemma html_body_blocks (lines : list (list N)) (acc : list (list N)) :
  fold_left HTML.add_line lines acc = acc ++ map html_of_block (omap block_of_section lines).
Proof.
  revert acc. induction lines as [|line lines IH]; intros acc; simpl.
  - now rewrite app_nil_r.
  - rewrite IH, add_line_block.
    destruct (block_of_section line); simpl; now rewrite <- app_assoc.
Qed.

Lemma add_section_block (story : list flowable) (section : list N) (E : env) (w : world) :
  PDF.add_section story section E w =
  (match block_of_section section with
   | None => Ok story
   | Some b => match paragraph_of_block b with
               | Ok f => Ok (story ++ [f])
               | Raise e => Raise e
               end
   end, w).
Proof.
  unfold PDF.add_section, block_of_section.
  destruct (truthy_str (strip section)); [|reflexivity].
  destruct (startswith hash section) eqn:Hh.
  - destruct (startswith_count _ Hh) as [n Hn].
    unfold paragraph_of_block. simpl depth. simpl text. rewrite Hn.
    unfold bind, lift, ret. now destruct (PDF.styles _).
  - reflexivity.
Qed.

End ParserFacts.

(** The example of the markdown-parsing property, on which the source and
    the specification agree. *)
Example parse_blocks_title_body_sub :
  parse_blocks (three_lines "# Title" "Body line" "## Sub")
  = [ {| depth := 1; text := lit "Title" |};
      {| depth := 0; text := lit "Body line" |};
      {| depth := 2; text := lit "Sub" |} ].
Proof. reflexivity. Qed.

(** Blank segments between blocks leave no block behind. *)
Example parse_blocks_drops_blank_segments :
  parse_blocks (lit "# Title" ++ [newline; newline] ++ lit "Body line"
                ++ [newline] ++ lit "   " ++ [newline] ++ lit "## Sub")
  = [ {| depth := 1; text := lit "Title" |};
      {| depth := 0; text := lit "Body line" |};
      {| depth := 2; text := lit "Sub" |} ].
Proof. reflexivity. Qed.

(** Where no marker follows the leading run, the depth is the length of
    the leading run. *)
Lemma heading_depth_leading_run (s : list N) (b : DocumentBlock) :
  startswith hash s = true ->
  count hash (drop (leading_run hash s) s) = 0 ->
  block_of_section s = Some b ->
  depth b = leading_run hash s.
Proof.
  intros Hh Hrest Hb. rewrite (block_of_section_heading _ Hh) in Hb.
  injection Hb as <-. simpl. rewrite (count_leading_run hash s). lia.
Qed.

(** C1 (the code departs from the claim).  The claim gives a heading the
    depth of its leading run of markers.  Both assemblers compute the
    depth with [count('#')], which counts every marker of the segment: the
    segment "## Vehicle #2 Requirements" has a leading run of two markers
    and is emitted at depth three, as an [<h3>] element by the HTML
    assembler and with style [Heading3] by the PDF assembler. *)
Theorem C1_heading_depth_counts_every_marker :
  let section := lit "## Vehicle #2 Requirements" in
  leading_run hash section = 2
  /\ parse_blocks section
     = [ {| depth := 3; text := lit "Vehicle #2 Requirements" |} ]
  /\ HTML.add_line [] section = [ lit "<h3>Vehicle #2 Requirements</h3>" ]
  /\ forall (E : env) (w : world),
       PDF.add_section [] section E w
       = (Ok [ Paragraph (lit "Vehicle #2 Requirements") (SheetStyle (lit "Heading3")) ], w).
Proof.
  repeat split.
Qed.

(** ** Pipe-table parser and column widths *)

Section TableFacts.

Lemma parse_rows_unfold (data : list N) :
  PDF.parse_rows data
  = map (fun line => map strip (split pipe (strip line))) (split newline (strip data)).
Proof.
  unfold PDF.parse_rows. rewrite map_map. reflexivity.
Qed.

Lemma cell_lengths_cases (rows : list (list (list N))) (i : nat) :
  match PDF.cell_lengths rows i with
  | Ok ls => length ls = length rows /\ Forall (fun row => i < length row) rows
  | Raise e => e = IndexError /\ Exists (fun row => length row <= i) rows
  end.
Proof.
  induction rows as [|row rows IH]; simpl.
  - split; [reflexivity | constructor].
  - destruct (row !! i) as [cell|] eqn:Hrow.
    + apply lookup_lt_Some in Hrow.
      destruct (PDF.cell_lengths rows i) as [ls|e].
      * destruct IH as [Hlen Hall]. split; [simpl; congruence | now constructor].
      * destruct IH as [He Hex]. split; [assumption | now apply Exists_cons_tl].
    + apply lookup_ge_None in Hrow. split; [reflexivity | now apply Exists_cons_hd].
Qed.

Lemma col_widths_loop_cases (rows : list (list (list N))) (ncols : nat)
    (idxs : list nat) (acc : list Q) :
  match PDF.col_widths_loop rows ncols idxs acc with
  | Ok ws => length ws = length acc + length idxs
             /\ Forall (fun i => Forall (fun row => i < length row) rows) idxs
  | Raise e => e = IndexError
               /\ Exists (fun i => Exists (fun row => length row <= i) rows) idxs
  end.
Proof.
  revert acc. induction idxs as [|i idxs IH]; intros acc; simpl.
  - split; [lia | constructor].
  - unfold PDF.col_width. pose proof (cell_lengths_cases rows i) as Hc.
    destruct (PDF.cell_lengths rows i) as [ls|e].
    + specialize (IH (acc ++ [Qmin (inject_Z (Z.of_nat (list_max ls)) * (1 # 10) * PDF.inch)
                                   (PDF.doc_width / inject_Z (Z.of_nat ncols))])).
      destruct (PDF.col_widths_loop rows ncols idxs _) as [ws|e].
      * destruct IH as [Hlen Hall]. rewrite length_app in Hlen. simpl in Hlen.
        split; [lia | constructor; tauto].
      * destruct IH as [He Hex]. split; [assumption | now apply Exists_cons_tl].
    + destruct Hc as [He Hex]. split; [assumption | now apply Exists_cons_hd].
Qed.

(** The width computation ends in exactly one of two ways. *)
Lemma col_widths_of_cases (rows : list (list (list N))) :
  rows <> [] ->
  match PDF.col_widths_of rows with
  | Ok ws => length ws = length (hd [] rows)
             /\ Forall (fun row => length (hd [] rows) <= length row) rows
  | Raise e => e = IndexError
               /\ Exists (fun row => length row < length (hd [] rows)) rows
  end.
Proof.
  destruct rows as [|header rest]; [congruence|]. intros _.
  unfold PDF.col_widths_of. simpl hd.
  pose proof (col_widths_loop_cases (header :: rest) (length header)
                (seq 0 (length header)) []) as Hc.
  destruct (PDF.col_widths_loop _ _ _ _) as [ws|e].
  - destruct Hc as [Hlen Hall]. rewrite length_seq in Hlen. split; [exact Hlen|].
    rewrite Forall_forall. intros row Hrow.
    destruct (length header) as [|n] eqn:Hn; [lia|].
    rewrite Forall_forall in Hall.
    assert (Hin : n ∈ seq 0 (S n)) by (apply elem_of_seq; lia).
    specialize (Hall n Hin). rewrite Forall_forall in Hall.
    specialize (Hall row Hrow). lia.
  - destruct Hc as [He Hex]. split; [exact He|].
    apply Exists_exists in Hex. destruct Hex as (i & Hi & Hex).
    apply elem_of_seq in Hi. apply Exists_exists in Hex. destruct Hex as (row & Hrow & Hle).
    apply Exists_exists. exists row. split; [exact Hrow | lia].
Qed.

Lemma parse_rows_nonempty (data : list N) : PDF.parse_rows data <> [].
Proof.
  rewrite parse_rows_unfold. intros H. apply map_eq_nil in H.
  now apply split_nonempty in H.
Qed.

Lemma create_table_from_data_unfold (data title : list N) (E : env) (w : world) :
  PDF.create_table_from_data (PyStr data) title E w
  = (match PDF.col_widths_of (PDF.parse_rows data) with
     | Ok col_widths =>
         match Table_init E (PDF.parse_rows data) col_widths with
         | None => Ok [ Paragraph (lit "<b>" ++ title ++ lit "</b>") TableTitle;
                        Table (PDF.parse_rows data) col_widths;
                        Spacer 1 20 ]
         | Some e => Raise e
         end
     | Raise e => Raise e
     end, w).
Proof.
  unfold PDF.create_table_from_data, bind, lift, ret. simpl.
  destruct (PDF.col_widths_of (PDF.parse_rows data)) as [ws|e]; [|reflexivity].
  now destruct (Table_init E (PDF.parse_rows data) ws).
Qed.

End TableFacts.

(** C5.  The pipe-table parser strips the reply, cuts it into lines at
    line feeds, cuts each line at every '|' and trims each cell (stripping
    the line first, as the source does, changes no cell); the first row is
    the header: the width computation yields one width per header cell or
    stops with an [IndexError].  On the example of the claim the result is
    the 3 by 3 grid with header A, B, C. *)
Theorem C5_pipe_table_parsing :
  (forall data : list N,
     PDF.parse_rows data
     = map (fun line => map strip (split pipe line)) (split newline (strip data)))
  /\ (forall data : list N,
        match PDF.col_widths_of (PDF.parse_rows data) with
        | Ok col_widths => length col_widths = length (hd [] (PDF.parse_rows data))
        | Raise e => e = IndexError
        end)
  /\ PDF.parse_rows (three_lines "A | B | C" "1 | 2 | 3" "4 | 5 | 6")
     = [ [lit "A"; lit "B"; lit "C"];
         [lit "1"; lit "2"; lit "3"];
         [lit "4"; lit "5"; lit "6"] ].
Proof.
  split; [|split].
  - intros data. rewrite parse_rows_unfold. apply map_ext. intros line.
    apply (map_strip_split_strip isspace pipe line). reflexivity.
  - intros data. pose proof (col_widths_of_cases _ (parse_rows_nonempty data)) as H.
    destruct (PDF.col_widths_of (PDF.parse_rows data)); tauto.
  - reflexivity.
Qed.



(** ** Content service client *)

Section ClientFacts.

Lemma client_result (prompt : list N) (E : env) (w : world) :
  generate_content_with_bedrock prompt E w =
  match boto3_client E (tick w) with
  | Some e => (Raise e, advance [EvClient] w)
  | None => (Ok (text_or_none (invoke_model E (S (tick w)) prompt)),
             advance [EvInvokeModel prompt] (advance [EvClient] w))
  end.
Proof.
  unfold generate_content_with_bedrock, bind, call, try_catch, lift, ret.
  destruct (boto3_client E (tick w)); [reflexivity|]. simpl.
  destruct (invoke_model E (S (tick w)) prompt) as [body|e]; [|reflexivity].
  unfold text_or_none, extract_text.
  destruct (py_get body (lit "content")) as [content|e]; [|reflexivity].
  destruct (py_item0 content) as [first|e]; [|reflexivity].
  now destruct (py_get first (lit "text")).
Qed.

(** A well-formed reply yields its first text segment. *)
Example extract_text_reply (s : list N) : extract_text (reply_text s) = Ok (PyStr s).
Proof. reflexivity. Qed.

(** Malformed payloads: no content, an empty content array, a segment
    without text. *)
Example extract_text_no_content : extract_text (PyDict []) = Raise TypeError.
Proof. reflexivity. Qed.

Example extract_text_empty_content :
  extract_text (PyDict [(lit "content", PyList [])]) = Raise IndexError.
Proof. reflexivity. Qed.

Example extract_text_no_text :
  extract_text (PyDict [(lit "content", PyList [PyDict []])]) = Ok PyNone.
Proof. reflexivity. Qed.

Lemma service_only_refl (w : world) : service_only w w.
Proof. split; [reflexivity|]. exists []. now rewrite app_nil_r. Qed.

Lemma service_only_trans (w1 w2 w3 : world) :
  service_only w1 w2 -> service_only w2 w3 -> service_only w1 w3.
Proof.
  intros [Hfs1 (evs1 & Ht1 & Hs1)] [Hfs2 (evs2 & Ht2 & Hs2)].
  split; [congruence|]. exists (evs1 ++ evs2).
  split; [rewrite Ht2, Ht1; now rewrite app_assoc | now apply Forall_app].
Qed.

Lemma client_service_only (prompt : list N) (E : env) (w : world) r w1 :
  generate_content_with_bedrock prompt E w = (r, w1) -> service_only w w1.
Proof.
  rewrite client_result.
  destruct (boto3_client E (tick w)); intros [= <- <-].
  - split; [reflexivity|]. exists [EvClient]. split; [reflexivity|].
    repeat constructor.
  - split; [reflexivity|]. exists [EvClient; EvInvokeModel prompt]. split.
    + simpl. now rewrite <- app_assoc.
    + repeat constructor.
Qed.

Lemma try_catch_total {A} (m : M A) (a : A) (E : env) (w : world) :
  exists v w1, try_catch m (fun _ => ret a) E w = (Ok v, w1).
Proof.
  unfold try_catch, ret. destruct (m E w) as [[v|e] w1]; eauto.
Qed.

Lemma pdf_process_state_total (info : state_info) (E : env) (w : world) :
  exists ok w1, PDF.process_state info E w = (Ok ok, w1).
Proof. apply try_catch_total. Qed.

Lemma html_process_state_total (info : state_info) (E : env) (w : world) :
  exists ok w1, HTML.process_state info E w = (Ok ok, w1).
Proof. apply try_catch_total. Qed.

End ClientFacts.


(** ** The PDF assembler and heading styles *)

Section HeadingStyles.

Lemma styles_Heading1 : PDF.styles (lit "Heading1") = Ok (SheetStyle (lit "Heading1")).
Proof. reflexivity. Qed.

Lemma styles_Normal : PDF.styles (lit "Normal") = Ok (SheetStyle (lit "Normal")).
Proof. reflexivity. Qed.

(** A key [Heading<n>] is in the stylesheet exactly for n from 1 to 6. *)
Lemma heading_key_bounds (n : nat) :
  lit "Heading" ++ str_of_nat n ∈ PDF.sample_style_keys -> 1 <= n <= 6.
Proof.
  intros H. apply list_elem_of_In in H. unfold PDF.sample_style_keys in H.
  apply in_map_iff in H. destruct H as (name & Hname & Hin).
  simpl in Hin.
  repeat match goal with
         | H : _ \/ _ |- _ => destruct H as [H|H]
         end; try contradiction; subst name;
    try (apply (f_equal (fun s => hd 0%N s)) in Hname; discriminate Hname).
  all: match goal with
       | H : lit ?k = _ |- _ =>
           first
             [ change (lit k) with (lit "Heading" ++ str_of_nat 1) in H
             | change (lit k) with (lit "Heading" ++ str_of_nat 2) in H
             | change (lit k) with (lit "Heading" ++ str_of_nat 3) in H
             | change (lit k) with (lit "Heading" ++ str_of_nat 4) in H
             | change (lit k) with (lit "Heading" ++ str_of_nat 5) in H
             | change (lit k) with (lit "Heading" ++ str_of_nat 6) in H ]
       end;
    apply app_inv_head in Hname; apply str_of_nat_inj in Hname; lia.
Qed.

Lemma styles_heading_ok (n : nat) :
  1 <= n <= 6 ->
  PDF.styles (lit "Heading" ++ str_of_nat n) = Ok (SheetStyle (lit "Heading" ++ str_of_nat n)).
Proof.
  intros Hn.
  assert (Hcases : n = 1 \/ n = 2 \/ n = 3 \/ n = 4 \/ n = 5 \/ n = 6) by lia.
  destruct Hcases as [->|[->|[->|[->|[->| ->]]]]]; reflexivity.
Qed.

Lemma styles_heading_missing (n : nat) :
  6 < n -> PDF.styles (lit "Heading" ++ str_of_nat n) = Raise KeyError.
Proof.
  intros Hn. unfold PDF.styles.
  destruct (decide _) as [Hin|]; [|reflexivity].
  apply heading_key_bounds in Hin. lia.
Qed.

Lemma styles_heading_result (n : nat) (st : style) :
  PDF.styles (lit "Heading" ++ str_of_nat n) = Ok st -> 1 <= n <= 6.
Proof.
  unfold PDF.styles. destruct (decide _) as [Hin|]; [|discriminate].
  intros _. now apply heading_key_bounds.
Qed.

(** One pass of the loop either stops on a heading deeper than six or
    extends the story. *)
Lemma add_section_cases (story : list flowable) (section : list N) (E : env) (w : world) :
  (heading_line section /\ 6 < count hash section
   /\ PDF.add_section story section E w = (Raise KeyError, w))
  \/ ((heading_line section -> 1 <= count hash section <= 6)
      /\ exists story', PDF.add_section story section E w = (Ok story', w)).
Proof.
  unfold PDF.add_section, heading_line.
  destruct (startswith hash section) eqn:Hh.
  - rewrite (heading_not_blank _ Hh). unfold bind, lift, ret.
    destruct (startswith_count _ Hh) as [n Hn].
    destruct (le_lt_dec (count hash section) 6) as [Hle|Hgt].
    + right. split; [lia|].
      rewrite styles_heading_ok by lia. eauto.
    + left. rewrite (styles_heading_missing _ Hgt). auto.
  - right. split; [discriminate|].
    destruct (truthy_str (strip section)); unfold bind, lift, ret; simpl; eauto.
Qed.

Lemma foldM_add_section (lines : list (list N)) (story : list flowable) (E : env) (w : world) :
  (Exists (fun line => heading_line line /\ 6 < count hash line) lines
   /\ foldM PDF.add_section lines story E w = (Raise KeyError, w))
  \/ (Forall (fun line => heading_line line -> 1 <= count hash line <= 6) lines
      /\ exists story', foldM PDF.add_section lines story E w = (Ok story', w)).
Proof.
  revert story. induction lines as [|line lines IH]; intros story.
  - right. split; [constructor|]. simpl. unfold ret. eauto.
  - simpl. unfold bind.
    destruct (add_section_cases story line E w) as [(Hh & Hgt & ->)|(Hok & story1 & ->)].
    + left. split; [apply Exists_cons_hd; auto | reflexivity].
    + destruct (IH story1) as [(Hex & ->)|(Hall & story2 & ->)].
      * left. split; [now apply Exists_cons_tl | reflexivity].
      * right. split; [now constructor | eauto].
Qed.

End HeadingStyles.

(** ** [process_state], variant by variant *)

Section ProcessStateFacts.

Lemma generate_service_only (t : template) (info : state_info) (E : env) (w : world) r w1 :
  generate t info E w = (r, w1) -> service_only w w1.
Proof. apply client_service_only. Qed.

Lemma pdf_generate_all_service_only (info : state_info) (E : env) (w : world) r w1 :
  PDF.generate_all info E w = (r, w1) -> service_only w w1.
Proof.
  unfold PDF.generate_all, bind, ret.
  destruct (PDF.create_contract info E w) as [[c|e] wa] eqn:Ha;
    apply generate_service_only in Ha; [|intros [= <- <-]; exact Ha].
  destruct (PDF.generate_rate_schedule info E wa) as [[r'|e] wb] eqn:Hb;
    apply generate_service_only in Hb;
    [|intros [= <- <-]; eauto using service_only_trans].
  destruct (PDF.generate_service_areas info E wb) as [[s|e] wc] eqn:Hc;
    apply generate_service_only in Hc;
    [|intros [= <- <-]; eauto using service_only_trans].
  destruct (PDF.generate_performance_standards info E wc) as [[p|e] wd] eqn:Hd;
    apply generate_service_only in Hd;
    intros [= <- <-]; eauto using service_only_trans.
Qed.

Lemma html_generate_all_service_only (info : state_info) (E : env) (w : world) r w1 :
  HTML.generate_all info E w = (r, w1) -> service_only w w1.
Proof.
  unfold HTML.generate_all, bind, ret.
  destruct (HTML.create_contract info E w) as [[c|e] wa] eqn:Ha;
    apply generate_service_only in Ha; [|intros [= <- <-]; exact Ha].
  destruct (HTML.generate_rate_schedule info E wa) as [[r'|e] wb] eqn:Hb;
    apply generate_service_only in Hb;
    [|intros [= <- <-]; eauto using service_only_trans].
  destruct (HTML.generate_service_areas info E wb) as [[s|e] wc] eqn:Hc;
    apply generate_service_only in Hc;
    [|intros [= <- <-]; eauto using service_only_trans].
  destruct (HTML.generate_performance_standards info E wc) as [[p|e] wd] eqn:Hd;
    apply generate_service_only in Hd;
    intros [= <- <-]; eauto using service_only_trans.
Qed.

(** [PDF.process_state]: the four calls, the gate, the assembly. *)
Lemma pdf_process_state_decomp (info : state_info) (E : env) (w : world) :
  PDF.process_state info E w =
  match PDF.generate_all info E w with
  | (Ok (c, r, s, p), w1) =>
      if all [c; r; s; p] then
        match pdf_assemble info c r s p E w1 with
        | (Ok ok, w2) => (Ok ok, w2)
        | (Raise _, w2) => (Ok false, w2)
        end
      else (Ok false, w1)
  | (Raise _, w1) => (Ok false, w1)
  end.
Proof.
  unfold PDF.process_state, PDF.generate_all, pdf_assemble, try_catch, bind, ret.
  destruct (PDF.create_contract info E w) as [[c|e] wa]; [|reflexivity].
  destruct (PDF.generate_rate_schedule info E wa) as [[r|e] wb]; [|reflexivity].
  destruct (PDF.generate_service_areas info E wb) as [[s|e] wc]; [|reflexivity].
  destruct (PDF.generate_performance_standards info E wc) as [[p|e] wd]; [|reflexivity].
  destruct (all [c; r; s; p]); reflexivity.
Qed.

(** [HTML.process_state]: preparation up to the saved HTML file, then
    conversion. *)
Lemma html_process_state_decomp (info : state_info) (E : env) (w : world) :
  HTML.process_state info E w =
  match HTML.prepare info E w with
  | (Ok (Some (html_filename, html_content, pdf_filename)), w1) =>
      html_convert info html_filename html_content pdf_filename E w1
  | (Ok None, w1) => (Ok false, w1)
  | (Raise _, w1) => (Ok false, w1)
  end.
Proof.
  unfold HTML.process_state, HTML.prepare, HTML.generate_all, html_convert,
    try_catch, bind, ret.
  destruct (HTML.create_contract info E w) as [[c|e] wa]; [|reflexivity].
  destruct (HTML.generate_rate_schedule info E wa) as [[r|e] wb]; [|reflexivity].
  destruct (HTML.generate_service_areas info E wb) as [[s|e] wc]; [|reflexivity].
  destruct (HTML.generate_performance_standards info E wc) as [[p|e] wd]; [|reflexivity].
  destruct (all [c; r; s; p]); [|reflexivity].
  destruct (HTML.generate_filename _ info E wd) as [[base|e] we]; [|reflexivity].
  destruct (HTML.create_document _ c r s p E we) as [[hc|e] wf]; [|reflexivity].
  destruct (HTML.save_html _ hc E wf) as [[[]|e] wg]; [|reflexivity].
  destruct (HTML.convert_to_pdf info _ hc _ E wg) as [[[]|e] wh]; [reflexivity|].
  destruct (call EvSubprocess subprocess_run E wh) as [[[]|e'] wi]; reflexivity.
Qed.

(** The gate in [HTML.prepare]. *)
Lemma html_prepare_gate (info : state_info) (E : env) (w : world) c r s p w1 :
  HTML.generate_all info E w = (Ok (c, r, s, p), w1) ->
  all [c; r; s; p] = false ->
  HTML.prepare info E w = (Ok None, w1).
Proof.
  intros Hg Hall. unfold HTML.prepare, bind. rewrite Hg, Hall. reflexivity.
Qed.

Lemma no_content_closes_gate (l : list pyval) :
  Exists no_content l -> all l = false.
Proof.
  unfold all. induction 1 as [v l [-> | ->]|v l _ IH]; simpl; auto.
  rewrite IH. apply andb_false_r.
Qed.

End ProcessStateFacts.

(** C2.  In both variants, when one of the four content calls has
    returned [None] or the empty string, [process_state] returns [False]
    in the very world the fourth call left behind: since the record began,
    no file has changed and nothing has happened but calls of the content
    service, so the document assembler was not entered and no output was
    written. *)
Theorem C2_content_gate_all_or_nothing (E : env) (w : world) (info : state_info) :
  (forall c r s p w1,
     PDF.generate_all info E w = (Ok (c, r, s, p), w1) ->
     Exists no_content [c; r; s; p] ->
     PDF.process_state info E w = (Ok false, w1)
     /\ fs w1 = fs w
     /\ exists evs, trace w1 = (trace w ++ evs)
                    /\ Forall service_event evs
                    /\ (EvCreateDocument ∉ evs)
                    /\ Forall (fun ev => ~ output_event ev) evs)
  /\ (forall c r s p w1,
     HTML.generate_all info E w = (Ok (c, r, s, p), w1) ->
     Exists no_content [c; r; s; p] ->
     HTML.process_state info E w = (Ok false, w1)
     /\ fs w1 = fs w
     /\ exists evs, trace w1 = (trace w ++ evs)
                    /\ Forall service_event evs
                    /\ (EvCreateDocument ∉ evs)
                    /\ Forall (fun ev => ~ output_event ev) evs).
Proof.
  assert (Hevs : forall evs, Forall service_event evs ->
                   (EvCreateDocument ∉ evs) /\ Forall (fun ev => ~ output_event ev) evs).
  { intros evs Hs. split.
    - intros Hin. rewrite Forall_forall in Hs. exact (Hs _ Hin).
    - eapply Forall_impl; [exact Hs|]. intros [] Hev; simpl in *; tauto. }
  split; intros c r s p w1 Hg Hex.
  - rewrite pdf_process_state_decomp, Hg, (no_content_closes_gate _ Hex).
    split; [reflexivity|].
    destruct (pdf_generate_all_service_only _ _ _ _ _ Hg) as [Hfs (evs & Ht & Hs)].
    split; [exact Hfs|]. exists evs. destruct (Hevs _ Hs). auto.
  - rewrite html_process_state_decomp,
      (html_prepare_gate _ _ _ _ _ _ _ _ Hg (no_content_closes_gate _ Hex)).
    split; [reflexivity|].
    destruct (html_generate_all_service_only _ _ _ _ _ Hg) as [Hfs (evs & Ht & Hs)].
    split; [exact Hfs|]. exists evs. destruct (Hevs _ Hs). auto.
Qed.

(** The service fails on the rate schedule only: the gate stays closed
    and the file system is as empty as before. *)
Lemma C2_content_gate_witness :
  exists w1,
    PDF.process_state florida rates_missing_env w0 = (Ok false, w1) /\ fs w1 = ∅.
Proof.
  destruct (C2_content_gate_all_or_nothing rates_missing_env w0 florida) as [Hpdf _].
  edestruct Hpdf as (Hr & Hfs & _).
  - lazy. reflexivity.
  - apply Exists_cons_tl, Exists_cons_hd. left. reflexivity.
  - eexists. split; [exact Hr | exact Hfs].
Defined.

(** ** Failures of the content service client inside a record *)

Section ClientCreation.

(** The four generator calls when the creation of a client object raises:
    the calls before it are complete, the failing one has left its
    [boto3.client] call only, and the exception is that of the creation. *)
Lemma generate_four_client_failure (t1 t2 t3 t4 : template) (info : state_info)
    (E : env) (w : world) (k : nat) (e : exn) :
  k < 4 ->
  (forall j, j < k -> boto3_client E (tick w + 2 * j) = None) ->
  boto3_client E (tick w + 2 * k) = Some e ->
  exists w1,
    (do a <- generate t1 info; do b <- generate t2 info;
     do c <- generate t3 info; do d <- generate t4 info;
     ret (a, b, c, d)) E w = (Raise e, w1)
    /\ fs w1 = fs w
    /\ trace w1
       = trace w
         ++ take (2 * k)
              (concat (map (fun t => [EvClient; EvInvokeModel (format t info)])
                           [t1; t2; t3; t4]))
         ++ [EvClient].
Proof.
  intros Hk Hbefore Hfail.
  assert (H0 : 0 < k -> boto3_client E (tick w) = None).
  { intros H. rewrite <- (Hbefore 0 H). f_equal. lia. }
  assert (H1 : 1 < k -> boto3_client E (S (S (tick w))) = None).
  { intros H. rewrite <- (Hbefore 1 H). f_equal. lia. }
  assert (H2 : 2 < k -> boto3_client E (S (S (S (S (tick w))))) = None).
  { intros H. rewrite <- (Hbefore 2 H). f_equal. lia. }
  unfold generate, bind, ret.
  destruct k as [|[|[|[|k]]]]; [| | | |lia].
  - replace (tick w + 2 * 0) with (tick w) in Hfail by lia.
    rewrite client_result, Hfail. eexists. split; [reflexivity|].
    split; [reflexivity|]. reflexivity.
  - replace (tick w + 2 * 1) with (S (S (tick w))) in Hfail by lia.
    rewrite client_result, H0 by lia.
    rewrite client_result. cbn [tick advance]. rewrite Hfail.
    eexists. split; [reflexivity|]. split; [reflexivity|].
    cbn [trace advance take concat map Nat.mul Nat.add app]. rewrite <- !app_assoc. reflexivity.
  - replace (tick w + 2 * 2) with (S (S (S (S (tick w))))) in Hfail by lia.
    rewrite client_result, H0 by lia.
    rewrite client_result. cbn [tick advance]. rewrite H1 by lia.
    rewrite client_result. cbn [tick advance]. rewrite Hfail.
    eexists. split; [reflexivity|]. split; [reflexivity|].
    cbn [trace advance take concat map Nat.mul Nat.add app]. rewrite <- !app_assoc. reflexivity.
  - replace (tick w + 2 * 3) with (S (S (S (S (S (S (tick w))))))) in Hfail by lia.
    rewrite client_result, H0 by lia.
    rewrite client_result. cbn [tick advance]. rewrite H1 by lia.
    rewrite client_result. cbn [tick advance]. rewrite H2 by lia.
    rewrite client_result. cbn [tick advance]. rewrite Hfail.
    eexists. split; [reflexivity|]. split; [reflexivity|].
    cbn [trace advance take concat map Nat.mul Nat.add app]. rewrite <- !app_assoc. reflexivity.
Qed.

End ClientCreation.

(** C4 (as amended).  Once the service client object exists, the client
    returns a value and never raises: an exception of the model
    invocation, of reading or decoding the reply, or of taking the first
    text segment out of the payload becomes [None], and a well-formed
    payload yields its text.  An exception raised while the client object
    is created, before the [try] block, leaves the client uncaught; it
    reaches the handler of [process_state], which turns it into a failed
    record: whichever of the four client objects of a record cannot be
    created, [process_state] returns [False] right after that
    [boto3.client] call, with no file changed.  Neither variant of
    [process_state] ever raises. *)
Theorem C4_client_catches_invocation_failures (E : env) (w : world) (prompt : list N) :
  (boto3_client E (tick w) = None ->
   exists v w1,
     generate_content_with_bedrock prompt E w = (Ok v, w1)
     /\ (forall e, invoke_model E (S (tick w)) prompt = Raise e -> v = PyNone)
     /\ (forall body e, invoke_model E (S (tick w)) prompt = Ok body ->
                        extract_text body = Raise e -> v = PyNone)
     /\ (forall body t, invoke_model E (S (tick w)) prompt = Ok body ->
                        extract_text body = Ok t -> v = t))
  /\ (forall e, boto3_client E (tick w) = Some e ->
      generate_content_with_bedrock prompt E w = (Raise e, advance [EvClient] w))
  /\ (forall info k e,
        k < 4 ->
        (forall j, j < k -> boto3_client E (tick w + 2 * j) = None) ->
        boto3_client E (tick w + 2 * k) = Some e ->
        (exists w1,
           PDF.process_state info E w = (Ok false, w1)
           /\ fs w1 = fs w
           /\ trace w1 = trace w ++ take (2 * k) (four_calls PDFPrompts.template_of info)
                         ++ [EvClient])
        /\ (exists w1,
           HTML.process_state info E w = (Ok false, w1)
           /\ fs w1 = fs w
           /\ trace w1 = trace w ++ take (2 * k) (four_calls HTMLPrompts.template_of info)
                         ++ [EvClient]))
  /\ (forall info, exists ok w1, PDF.process_state info E w = (Ok ok, w1))
  /\ (forall info, exists ok w1, HTML.process_state info E w = (Ok ok, w1)).
Proof.
  split; [|split; [|split; [|split]]].
  - intros Hc. rewrite client_result, Hc.
    eexists _, _. split; [reflexivity|].
    unfold text_or_none. repeat split.
    + intros e ->. reflexivity.
    + intros body e -> ->. reflexivity.
    + intros body t -> ->. reflexivity.
  - intros e Hc. now rewrite client_result, Hc.
  - intros info k e Hk Hbefore Hfail. split.
    + destruct (generate_four_client_failure
                  PDFPrompts.create_contract_template
                  PDFPrompts.generate_rate_schedule_template
                  PDFPrompts.generate_service_areas_template
                  PDFPrompts.generate_performance_standards_template
                  info E w k e Hk Hbefore Hfail) as (w1 & Hg & Hfs & Ht).
      change (PDF.generate_all info E w = (Raise e, w1)) in Hg.
      exists w1. rewrite pdf_process_state_decomp, Hg. auto.
    + destruct (generate_four_client_failure
                  HTMLPrompts.create_contract_template
                  HTMLPrompts.generate_rate_schedule_template
                  HTMLPrompts.generate_service_areas_template
                  HTMLPrompts.generate_performance_standards_template
                  info E w k e Hk Hbefore Hfail) as (w1 & Hg & Hfs & Ht).
      change (HTML.generate_all info E w = (Raise e, w1)) in Hg.
      exists w1. rewrite html_process_state_decomp. unfold HTML.prepare, bind.
      rewrite Hg. auto.
  - intros info. apply pdf_process_state_total.
  - intros info. apply html_process_state_total.
Qed.

(** With a client object and a failing invocation the client returns
    [None]; with a failing client creation it raises, and the record whose
    third client object cannot be created is a failed record. *)
Lemma C4_client_witness :
  (exists w1,
     generate_content_with_bedrock (lit "prompt")
       (with_invoke (fun _ _ => Raise (ExternalError 7)) (calm_env [])) w0
     = (Ok PyNone, w1))
  /\ generate_content_with_bedrock (lit "prompt")
       (with_client (fun _ => Some (ExternalError 1)) (calm_env [])) w0
     = (Raise (ExternalError 1), advance [EvClient] w0)
  /\ exists w1,
       PDF.process_state florida
         (with_client (fun n => if (n =? 4)%nat then Some (ExternalError 1) else None)
            (calm_env [])) w0
       = (Ok false, w1)
       /\ fs w1 = ∅.
Proof.
  split; [|split].
  - destruct (C4_client_catches_invocation_failures
                (with_invoke (fun _ _ => Raise (ExternalError 7)) (calm_env [])) w0
                (lit "prompt")) as (Hcaught & _).
    destruct (Hcaught eq_refl) as (v & w1 & Hrun & Hnone & _).
    exists w1. rewrite Hrun. f_equal. f_equal. exact (Hnone (ExternalError 7) eq_refl).
  - apply (C4_client_catches_invocation_failures
             (with_client (fun _ => Some (ExternalError 1)) (calm_env [])) w0 (lit "prompt")).
    reflexivity.
  - destruct (C4_client_catches_invocation_failures
                (with_client (fun n => if (n =? 4)%nat then Some (ExternalError 1) else None)
                   (calm_env [])) w0 (lit "prompt")) as (_ & _ & Hrecord & _).
    destruct (Hrecord florida 2 (ExternalError 1)) as [(w1 & Hr & Hfs & _) _].
    + lia.
    + intros j Hj. assert (Hc : j = 0 \/ j = 1) by lia. destruct Hc as [-> | ->]; reflexivity.
    + reflexivity.
    + exists w1. split; [exact Hr | exact Hfs].
Defined.

(** Counterexample to C4 as stated: [boto3.client(...)] is called before
    the [try] block, so an exception it raises reaches the caller of the
    client. *)
Lemma C4_client_creation_failure_propagates :
  generate_content_with_bedrock (lit "prompt")
    (with_client (fun _ => Some (ExternalError 1)) (calm_env [])) w0
  = (Raise (ExternalError 1), advance [EvClient] w0).
Proof. reflexivity. Qed.

(** ** Heading depth and the PDF assembler *)

Section DeepHeadings.

Lemma create_document_not_str (filename title : list N) (c r s p : pyval)
    (E : env) (w : world) :
  (forall t, c <> PyStr t) ->
  PDF.create_document filename title c r s p E w = (Raise AttributeError, entered w).
Proof.
  intros Hc. unfold PDF.create_document, bind, mark, lift, ret.
  rewrite !styles_Heading1.
  destruct c; try reflexivity. now destruct (Hc s0).
Qed.

Lemma create_document_deep_heading (filename title t : list N) (r s p : pyval)
    (E : env) (w : world) :
  Exists (fun line => heading_line line /\ 6 < count hash line) (split newline t) ->
  PDF.create_document filename title (PyStr t) r s p E w = (Raise KeyError, entered w).
Proof.
  intros Hex. unfold PDF.create_document, bind, mark, lift, ret.
  rewrite !styles_Heading1. simpl as_str. cbv beta iota.
  fold (entered w).
  match goal with
  | |- context [foldM PDF.add_section ?ls ?st E ?w'] =>
      destruct (foldM_add_section ls st E w') as [(_ & ->)|(Hall & _)]
  end; [reflexivity|].
  exfalso. apply Exists_exists in Hex. destruct Hex as (line & Hin & Hh & Hgt).
  rewrite Forall_forall in Hall. specialize (Hall line Hin Hh). lia.
Qed.

Lemma create_document_success (filename title : list N) (c r s p : pyval)
    (E : env) (w w2 : world) :
  PDF.create_document filename title c r s p E w = (Ok tt, w2) ->
  exists t, c = PyStr t
            /\ Forall (fun line => heading_line line -> 1 <= count hash line <= 6)
                 (split newline t).
Proof.
  intros Hrun.
  assert (Hstr : exists t, c = PyStr t).
  { destruct c; eauto;
      rewrite create_document_not_str in Hrun by discriminate; discriminate. }
  destruct Hstr as [t ->]. exists t. split; [reflexivity|].
  destruct (foldM_add_section (split newline t) [] E w) as [(Hex & _)|(Hall & _)];
    [|exact Hall].
  rewrite (create_document_deep_heading _ _ _ _ _ _ _ _ Hex) in Hrun. discriminate.
Qed.

End DeepHeadings.

(** C9 (as amended).  In the direct-PDF variant a heading line (a line
    that starts with '#') with more than six '#' characters makes the
    style lookup raise [KeyError]; the assembler stops before the build,
    and [process_state] returns [False] with no file written and no build
    started.  Hence a record for which [process_state] returns [True] has
    a contract body all of whose heading lines have between one and six
    '#' characters. *)
Theorem C9_heading_depth_at_most_six (E : env) (w : world) (info : state_info) :
  (forall story line w',
     heading_line line -> 6 < count hash line ->
     PDF.add_section story line E w' = (Raise KeyError, w'))
  /\ (forall t r s p w1,
        PDF.generate_all info E w = (Ok (PyStr t, r, s, p), w1) ->
        Exists (fun line => heading_line line /\ 6 < count hash line) (split newline t) ->
        exists w2,
          PDF.process_state info E w = (Ok false, w2)
          /\ fs w2 = fs w
          /\ exists evs, trace w2 = (trace w ++ evs)
                         /\ Forall (fun ev => ~ output_event ev) evs)
  /\ (forall w2,
        PDF.process_state info E w = (Ok true, w2) ->
        exists t r s p w1,
          PDF.generate_all info E w = (Ok (PyStr t, r, s, p), w1)
          /\ Forall (fun line => heading_line line -> 1 <= count hash line <= 6)
               (split newline t)).
Proof.
  split; [|split].
  - intros story line w' Hh Hgt.
    destruct (add_section_cases story line E w') as [(_ & _ & ->)|(Hok & _)];
      [reflexivity|].
    specialize (Hok Hh). lia.
  - intros t r s p w1 Hg Hex.
    rewrite pdf_process_state_decomp, Hg.
    destruct (pdf_generate_all_service_only _ _ _ _ _ Hg) as [Hfs (evs & Ht & Hs)].
    assert (Hquiet : Forall (fun ev => ~ output_event ev) evs).
    { eapply Forall_impl; [exact Hs|]. intros [] Hev; simpl in *; tauto. }
    destruct (all [PyStr t; r; s; p]).
    + unfold pdf_assemble, PDF.generate_filename, ask. unfold bind, ret. cbv beta iota.
      rewrite (create_document_deep_heading _ _ _ _ _ _ _ _ Hex).
      eexists. split; [reflexivity|]. split; [exact Hfs|].
      exists (evs ++ [EvCreateDocument]). simpl. rewrite Ht, app_nil_r, app_assoc.
      split; [reflexivity|]. apply Forall_app. split; [exact Hquiet|].
      repeat constructor. simpl. tauto.
    + exists w1. split; [reflexivity|]. split; [exact Hfs|]. eauto.
  - intros w2. rewrite pdf_process_state_decomp.
    destruct (PDF.generate_all info E w) as [[[[[c r] s] p]|e] w1]; [|discriminate].
    destruct (all [c; r; s; p]); [|discriminate].
    unfold pdf_assemble, PDF.generate_filename, ask. unfold bind, ret. cbv beta iota.
    destruct (PDF.create_document _ _ c r s p E _) as [[[]|e] w3] eqn:Hdoc;
      [|discriminate].
    intros _. destruct (create_document_success _ _ _ _ _ _ _ _ _ Hdoc) as (t & -> & Hall).
    exists t, r, s, p, w1. auto.
Qed.

(** A contract body whose only line is a heading of seven markers: the
    record fails and nothing is written. *)
Lemma C9_heading_depth_witness :
  exists w2,
    PDF.process_state florida (calm_env (lit "####### Annex")) w0 = (Ok false, w2)
    /\ fs w2 = ∅.
Proof.
  destruct (C9_heading_depth_at_most_six (calm_env (lit "####### Annex")) w0 florida)
    as (_ & Hdeep & _).
  edestruct Hdeep as (w2 & Hr & Hfs & _).
  - lazy. reflexivity.
  - apply Exists_cons_hd. split; [reflexivity | vm_compute; lia].
  - exists w2. split; [exact Hr | exact Hfs].
Defined.

(** Counterexample to C9 as stated: the line has seven '#' characters but
    does not start with one, so it is a body paragraph in style Normal; no
    heading style is looked up, the PDF is built and the record succeeds. *)
Lemma C9_markers_inside_a_line_build_the_pdf :
  let line := lit "Total ####### due" in
  count hash line = 7
  /\ startswith hash line = false
  /\ (forall (E : env) (w : world) story,
        PDF.add_section story line E w
        = (Ok (story ++ [Paragraph line (SheetStyle (lit "Normal"))]), w))
  /\ exists r s p w1 w2,
       PDF.generate_all florida (calm_env line) w0 = (Ok (PyStr line, r, s, p), w1)
       /\ PDF.process_state florida (calm_env line) w0 = (Ok true, w2)
       /\ fs w2 = {[ lit "Transportation_Contract_FL_20240315.pdf" := PdfFile ]}.
Proof.
  repeat split.
  eexists _, _, _, _, _. split; [lazy; reflexivity|].
  split; [lazy -[insert]; reflexivity|]. reflexivity.
Qed.

(** ** Rows that do not match the header *)

Section ShortRows.



End ShortRows.




(** ** The HTML variant: saving, then converting *)

(** Names the saved file, its text and the world of a computed
    [prepare], so that the terms are shared in what follows. *)
Ltac name_prepared H :=
  match type of H with
  | _ = (Ok (Some (?hf, ?hc, ?pf)), ?w1) =>
      let W := fresh "w1" in
      let HF := fresh "hf" in
      let HC := fresh "hc" in
      let PF := fresh "pf" in
      set (W := w1) in H; set (HF := hf) in H; set (HC := hc) in H; set (PF := pf) in H
  end.

Ltac convert_done :=
  eexists _, _; split; [reflexivity|]; cbn [trace fs advance];
  split; [rewrite <- ?app_assoc; reflexivity|]; split; reflexivity.

Section HtmlFacts.

Lemma html_pdf_names_differ (base : list N) : base ++ lit ".html" <> base ++ lit ".pdf".
Proof. intros H. apply app_inv_head in H. discriminate H. Qed.

(** What has happened when [prepare] hands over a saved HTML file. *)
Lemma prepare_saved (info : state_info) (E : env) (w w1 : world)
    (html_filename html_content pdf_filename : list N) :
  HTML.prepare info E w = (Ok (Some (html_filename, html_content, pdf_filename)), w1) ->
  exists base evs,
    html_filename = base ++ lit ".html"
    /\ pdf_filename = base ++ lit ".pdf"
    /\ trace w1 = trace w ++ evs ++ [EvCreateDocument; EvOpen html_filename;
                                      EvWrite html_filename html_content]
    /\ Forall service_event evs
    /\ fs w1 = <[html_filename := TextFile html_content]>
                 (<[html_filename := TextFile []]> (fs w)).
Proof.
  unfold HTML.prepare. unfold bind at 1.
  destruct (HTML.generate_all info E w) as [[[[[c r] s] p]|e] wa] eqn:Hg; [|discriminate].
  destruct (html_generate_all_service_only _ _ _ _ _ Hg) as [Hfs (evs & Ht & Hs)].
  destruct (all [c; r; s; p]); [|discriminate].
  unfold HTML.generate_filename, HTML.create_document, HTML.save_html, ask, mark, store,
    call, lift.
  unfold bind, ret. cbv beta iota.
  destruct (as_str c) as [t|e]; [|discriminate]. cbv beta iota. cbn [tick advance].
  destruct (open_w E _ _); [discriminate|]. cbv beta iota. cbn [tick advance].
  destruct (file_write E _ _ _); [discriminate|]. cbv beta iota.
  remember (lit "Transportation_Contract" ++ lit "_" ++ state_abbrev info
            ++ lit "_" ++ now_Ymd E (tick wa)) as base eqn:Hbase.
  intros [= <- <- <- <-].
  exists base, evs. split; [reflexivity|]. split; [reflexivity|].
  cbn [trace fs advance]. rewrite Ht, Hfs, !app_nil_r, <- !app_assoc. auto.
Qed.

(** The conversion step, case by case of the renderer's answers. *)
Lemma html_convert_spec (info : state_info) (hf hc pf : list N) (E : env) (w : world) :
  let header_right := now_BdY E (S (tick w)) in
  let a1 := pdfkit_from_file E (S (S (tick w))) hf pf (HTML.options info header_right) in
  let a2 := pdfkit_from_string E (S (S (S (tick w)))) hc pf
              (HTML.options info header_right) in
  let a3 := pdfkit_from_file E (S (S (S (S (tick w))))) hf pf HTML.simple_options in
  let converted :=
    match pdfkit_configuration E (tick w) with
    | None => negb (all_failed a1 a2 a3)
    | Some _ => false
    end in
  exists w2 evs,
    html_convert info hf hc pf E w = (Ok converted, w2)
    /\ trace w2 = trace w ++ evs
    /\ List.filter conversion_event evs
       = match pdfkit_configuration E (tick w) with
         | None => attempts_made a1 a2 (method1 info header_right hf pf)
                     (method2 info header_right hc pf) (method3 hf pf)
         | Some _ => []
         end
    /\ fs w2 = if converted then <[pf := PdfFile]> (fs w) else fs w.
Proof.
  intros header_right a1 a2 a3 converted.
  subst converted a1 a2 a3 header_right.
  unfold html_convert, HTML.convert_to_pdf, HTML.from_file, HTML.from_string,
    ask, store, call, raise.
  unfold try_catch, bind, ret. cbv beta iota.
  destruct (pdfkit_configuration E (tick w)) as [e0|]; cbn [tick advance].
  - destruct (subprocess_run E (S (tick w))); convert_done.
  - destruct (pdfkit_from_file E (S (S (tick w))) hf pf _) as [e1|];
      cbn [tick advance]; [|convert_done].
    destruct (pdfkit_from_string E (S (S (S (tick w)))) hc pf _) as [e2|];
      cbn [tick advance]; [|convert_done].
    destruct (pdfkit_from_file E (S (S (S (S (tick w))))) hf pf _) as [e3|];
      cbn [tick advance]; [|convert_done].
    destruct (subprocess_run E (S (S (S (S (S (tick w))))))); convert_done.
Qed.

End HtmlFacts.

Lemma service_events_no_conversion (evs : list event) :
  Forall service_event evs -> List.filter conversion_event evs = [].
Proof.
  induction 1 as [|ev evs Hev _ IH]; [reflexivity|].
  simpl. rewrite IH. destruct ev; simpl in *; tauto.
Qed.

(** C7 (as amended).  In the HTML-output variant, for a record that has
    passed the content gate and whose HTML page has been assembled and
    saved: when the renderer configuration is obtained, the conversion
    attempts of the record are the file method with the full options, then
    the string method with the same options, then the file method with the
    minimal options, stopping after the first that succeeds, and the
    record fails exactly when all three have failed; when obtaining the
    renderer configuration raises, the record fails with no attempt. *)
Theorem C7_renderer_fallback_after_configuration (E : env) (w w1 : world)
    (info : state_info) (hf hc pf : list N) :
  HTML.prepare info E w = (Ok (Some (hf, hc, pf)), w1) ->
  let header_right := now_BdY E (S (tick w1)) in
  let a1 := pdfkit_from_file E (S (S (tick w1))) hf pf (HTML.options info header_right) in
  let a2 := pdfkit_from_string E (S (S (S (tick w1)))) hc pf
              (HTML.options info header_right) in
  let a3 := pdfkit_from_file E (S (S (S (S (tick w1))))) hf pf HTML.simple_options in
  exists ok w2 evs,
    HTML.process_state info E w = (Ok ok, w2)
    /\ trace w2 = trace w ++ evs
    /\ match pdfkit_configuration E (tick w1) with
       | None =>
           List.filter conversion_event evs
           = attempts_made a1 a2 (method1 info header_right hf pf)
               (method2 info header_right hc pf) (method3 hf pf)
           /\ ok = negb (all_failed a1 a2 a3)
       | Some _ => List.filter conversion_event evs = [] /\ ok = false
       end.
Proof.
  intros Hprep header_right a1 a2 a3.
  rewrite html_process_state_decomp, Hprep.
  destruct (html_convert_spec info hf hc pf E w1) as (w2 & evs2 & Hrun & Htr & Hfilter & _).
  destruct (prepare_saved _ _ _ _ _ _ _ Hprep) as (base & evs0 & _ & _ & Ht & Hs & _).
  eexists _, w2, ((evs0 ++ [EvCreateDocument; EvOpen hf; EvWrite hf hc]) ++ evs2).
  split; [exact Hrun|]. split.
  { rewrite Htr, Ht, <- !app_assoc. reflexivity. }
  rewrite !List.filter_app, (service_events_no_conversion _ Hs), Hfilter.
  fold header_right a1 a2 a3.
  destruct (pdfkit_configuration E (tick w1)); split; reflexivity.
Qed.

(** The first method fails and the second succeeds: the record succeeds. *)
Lemma C7_renderer_fallback_witness :
  exists w2, HTML.process_state florida second_method_env w0 = (Ok true, w2).
Proof.
  eassert (Hprep : HTML.prepare florida second_method_env w0
                   = (Ok (Some (_, _, _)), _)) by (lazy -[insert]; reflexivity).
  name_prepared Hprep.
  destruct (C7_renderer_fallback_after_configuration _ _ _ _ _ _ _ Hprep)
    as (ok & w2 & evs & Hrun & _ & Hcase).
  lazy -[insert] in Hcase. destruct Hcase as [_ ->]. exists w2. exact Hrun.
Defined.

(** Counterexample to C7 as stated: the record passes the content gate,
    every conversion method would succeed, and yet the record fails with
    no conversion attempted, because obtaining the renderer configuration
    raised. *)
Lemma C7_configuration_failure_skips_all_methods :
  exists c r s p w1 w2,
    HTML.generate_all florida unconfigured_env w0 = (Ok (c, r, s, p), w1)
    /\ all [c; r; s; p] = true
    /\ HTML.process_state florida unconfigured_env w0 = (Ok false, w2)
    /\ List.filter conversion_event (trace w2) = [].
Proof.
  eexists _, _, _, _, _, _.
  split; [lazy -[insert]; reflexivity|].
  split; [reflexivity|].
  split; [lazy -[insert]; reflexivity|].
  reflexivity.
Qed.

(** C10.  In the HTML-output variant the HTML file is written before any
    conversion is attempted, and nothing removes it afterwards: whatever
    the conversion does the file is still there with the same text; in
    particular, when the three conversion attempts all fail the record is
    reported as failed, the file system is exactly as it was after the
    HTML file was saved, and the HTML file is on disk. *)
Theorem C10_html_file_survives_failed_conversion (E : env) (w w1 : world)
    (info : state_info) (hf hc pf : list N) :
  HTML.prepare info E w = (Ok (Some (hf, hc, pf)), w1) ->
  let header_right := now_BdY E (S (tick w1)) in
  let a1 := pdfkit_from_file E (S (S (tick w1))) hf pf (HTML.options info header_right) in
  let a2 := pdfkit_from_string E (S (S (S (tick w1)))) hc pf
              (HTML.options info header_right) in
  let a3 := pdfkit_from_file E (S (S (S (S (tick w1))))) hf pf HTML.simple_options in
  (exists evs, trace w1 = trace w ++ evs ++ [EvWrite hf hc]
               /\ List.filter conversion_event evs = [])
  /\ fs w1 !! hf = Some (TextFile hc)
  /\ exists ok w2 evs2,
       HTML.process_state info E w = (Ok ok, w2)
       /\ trace w2 = trace w1 ++ evs2
       /\ fs w2 !! hf = Some (TextFile hc)
       /\ (pdfkit_configuration E (tick w1) = None ->
           all_failed a1 a2 a3 = true ->
           ok = false
           /\ fs w2 = fs w1
           /\ List.filter conversion_event evs2
              = [ method1 info header_right hf pf;
                  method2 info header_right hc pf;
                  method3 hf pf ]).
Proof.
  intros Hprep header_right a1 a2 a3.
  destruct (prepare_saved _ _ _ _ _ _ _ Hprep)
    as (base & evs0 & Hhf & Hpf & Ht & Hs & Hfs).
  assert (Hthere : fs w1 !! hf = Some (TextFile hc)).
  { rewrite Hfs. apply lookup_insert_eq. }
  split; [|split; [exact Hthere|]].
  - exists (evs0 ++ [EvCreateDocument; EvOpen hf]). split.
    + rewrite Ht, <- !app_assoc. reflexivity.
    + rewrite List.filter_app, (service_events_no_conversion _ Hs). reflexivity.
  - rewrite html_process_state_decomp, Hprep.
    destruct (html_convert_spec info hf hc pf E w1)
      as (w2 & evs2 & Hrun & Htr & Hfilter & Hfs2).
    fold header_right a1 a2 a3 in Hrun, Hfilter, Hfs2.
    eexists _, w2, evs2. split; [exact Hrun|]. split; [exact Htr|]. split.
    + rewrite Hfs2. destruct (match pdfkit_configuration E (tick w1) with
                             | Some _ => false
                             | None => negb (all_failed a1 a2 a3)
                             end); [|exact Hthere].
      rewrite lookup_insert_ne; [exact Hthere|].
      rewrite Hhf, Hpf. intros Heq. symmetry in Heq.
      exact (html_pdf_names_differ base Heq).
    + intros Hconf Hall. rewrite Hconf in Hfilter, Hfs2 |- *.
      rewrite Hall in Hfs2 |- *. simpl in Hfs2 |- *.
      split; [reflexivity|]. split; [exact Hfs2|].
      rewrite Hfilter. unfold all_failed in Hall.
      destruct a1; [|discriminate]. destruct a2; [|discriminate]. reflexivity.
Qed.

(** The renderer refuses all three methods: the record fails and its
    HTML file is on disk. *)
Lemma C10_html_file_witness :
  exists w2 html_content,
    HTML.process_state florida refusing_env w0 = (Ok false, w2)
    /\ fs w2 !! lit "Transportation_Contract_FL_20240315.html"
       = Some (TextFile html_content).
Proof.
  eassert (Hprep : HTML.prepare florida refusing_env w0
                   = (Ok (Some (_, _, _)), _)) by (lazy -[insert]; reflexivity).
  name_prepared Hprep.
  destruct (C10_html_file_survives_failed_conversion _ _ _ _ _ _ _ Hprep)
    as (_ & _ & ok & w2 & evs2 & Hrun & _ & Hthere & Hfail).
  destruct Hfail as (-> & _); [reflexivity | reflexivity |].
  eexists w2, _. split; [exact Hrun | exact Hthere].
Defined.

(** ** Batch driver *)

Section BatchFacts.

Variable process_state : state_info -> M bool.
Hypothesis process_state_total :
  forall info E w, exists ok w1, process_state info E w = (Ok ok, w1).

Lemma batch_outcomes_length (configs : list (list N * state_info)) (E : env) (w : world) :
  length (batch_outcomes process_state configs E w).1 = length configs.
Proof.
  revert w. induction configs as [|[code info] configs IH]; intros w; simpl; auto.
  destruct (process_state_total info E w) as (ok & w1 & ->).
  specialize (IH w1). destruct (batch_outcomes process_state configs E w1) as [oks w2].
  simpl in *. now rewrite IH.
Qed.

Lemma batch_loop (configs : list (list N * state_info)) (E : env) (w : world)
    (successful_states : nat) (failed_states : list (list N)) :
  foldM (batch_step process_state) configs (successful_states, failed_states) E w
  = (Ok (successful_states
         + length (List.filter id (batch_outcomes process_state configs E w).1),
         failed_states
         ++ failed_codes configs (batch_outcomes process_state configs E w).1),
     (batch_outcomes process_state configs E w).2).
Proof.
  revert w successful_states failed_states.
  induction configs as [|[code info] configs IH]; intros w n failed; simpl.
  - unfold ret. now rewrite Nat.add_0_r, app_nil_r.
  - unfold bind at 1. unfold bind at 1.
    destruct (process_state_total info E w) as (ok & w1 & ->).
    specialize (IH w1).
    destruct (batch_outcomes process_state configs E w1) as [oks w2] eqn:Hb.
    simpl in IH |- *. destruct ok; unfold ret; rewrite IH; simpl.
    + f_equal. f_equal. f_equal. lia.
    + now rewrite <- app_assoc.
Qed.

End BatchFacts.

Lemma failed_codes_count (configs : list (list N * state_info)) (oks : list bool) :
  length oks = length configs ->
  length (failed_codes configs oks) = length (List.filter negb oks)
  /\ length (List.filter id oks) = length configs - length (failed_codes configs oks).
Proof.
  revert oks. induction configs as [|[code info] configs IH]; intros [|ok oks] Hlen;
    simpl in *; try discriminate; auto.
  destruct (IH oks) as [IH1 IH2]; [lia|].
  assert (length (failed_codes configs oks) <= length configs).
  { rewrite IH1. etransitivity; [apply List.filter_length_le | lia]. }
  destruct ok; simpl; split; lia.
Qed.

(** C6.  In both variants the loop of [main] handles every record of the
    batch, whichever of them fail: with the outcomes of the N records
    taken in order, of which K are failures, it ends with N - K in
    [successful_states] and with [failed_states] holding the codes of
    exactly the failed records, in input order.  The summary then reads
    "Successfully generated: <N - K> contracts" and, when K is not zero,
    names the failed codes joined by a comma and a space ([contracts2.py]
    also prints N and K); [main] is this loop and summary on
    [state_configs] once the output directory is set up.  In
    [state_configs] the codes are the records' abbreviations, without
    repetition. *)
Theorem C6_batch_summary (E : env) (w : world) (configs : list (list N * state_info)) :
  (exists oks w1,
     batch_outcomes PDF.process_state configs E w = (oks, w1)
     /\ length oks = length configs
     /\ let failed := failed_codes configs oks in
        let successes := length configs - length failed in
        length failed = length (List.filter negb oks)
        /\ PDF.process_all configs E w = (Ok (successes, failed), w1)
        /\ pdf_batch configs E w
           = (Ok ((lit "Successfully generated: " ++ str_of_nat successes ++ lit " contracts")
                  :: match failed with
                     | [] => []
                     | _ :: _ => [lit "Failed states: " ++ join (lit ", ") failed]
                     end), w1))
  /\ (exists oks w1,
     batch_outcomes HTML.process_state configs E w = (oks, w1)
     /\ length oks = length configs
     /\ let failed := failed_codes configs oks in
        let successes := length configs - length failed in
        length failed = length (List.filter negb oks)
        /\ HTML.process_all configs E w = (Ok (successes, failed), w1)
        /\ html_batch configs E w
           = (Ok ([ lit "Total states processed: " ++ str_of_nat (length configs);
                    lit "Successfully generated: " ++ str_of_nat successes ++ lit " contracts";
                    lit "Failed states: " ++ str_of_nat (length failed) ]
                  ++ match failed with
                     | [] => []
                     | _ :: _ => [lit "Failed state codes: " ++ join (lit ", ") failed]
                     end), w1))
  /\ (os_makedirs E (tick w) = None -> os_chdir E (S (tick w)) = None ->
      PDF.main E w = pdf_batch state_configs E (after_setup w)
      /\ HTML.main E w = html_batch state_configs E (after_setup w)
      /\ (exists oks w1,
          batch_outcomes PDF.process_state state_configs E (after_setup w) = (oks, w1)
          /\ let failed := failed_codes state_configs oks in
             PDF.main E w
             = (Ok ((lit "Successfully generated: "
                     ++ str_of_nat (length state_configs - length failed)
                     ++ lit " contracts")
                    :: match failed with
                       | [] => []
                       | _ :: _ => [lit "Failed states: " ++ join (lit ", ") failed]
                       end), w1))
      /\ (exists oks w1,
          batch_outcomes HTML.process_state state_configs E (after_setup w) = (oks, w1)
          /\ let failed := failed_codes state_configs oks in
             HTML.main E w
             = (Ok ([ lit "Total states processed: " ++ str_of_nat (length state_configs);
                      lit "Successfully generated: "
                      ++ str_of_nat (length state_configs - length failed)
                      ++ lit " contracts";
                      lit "Failed states: " ++ str_of_nat (length failed) ]
                    ++ match failed with
                       | [] => []
                       | _ :: _ => [lit "Failed state codes: " ++ join (lit ", ") failed]
                       end), w1)))
  /\ Forall (fun item => item.1 = state_abbrev item.2) state_configs
  /\ NoDup (map fst state_configs).
Proof.
  assert (Hloop : forall ps,
            (forall info E w, exists ok w1, ps info E w = (Ok ok, w1)) ->
            forall cfgs E' w',
            exists oks w1,
              batch_outcomes ps cfgs E' w' = (oks, w1)
              /\ length oks = length cfgs
              /\ length (failed_codes cfgs oks) = length (List.filter negb oks)
              /\ foldM (batch_step ps) cfgs (0, []) E' w'
                 = (Ok (length cfgs - length (failed_codes cfgs oks),
                        failed_codes cfgs oks), w1)).
  { intros ps Htotal cfgs E' w'.
    pose proof (batch_outcomes_length ps Htotal cfgs E' w') as Hlen.
    pose proof (batch_loop ps Htotal cfgs E' w' 0 []) as Hrun.
    destruct (batch_outcomes ps cfgs E' w') as [oks w1]. simpl in Hlen, Hrun.
    destruct (failed_codes_count cfgs oks Hlen) as [Hk Hn].
    exists oks, w1. rewrite Hrun, Hn. auto. }
  assert (Hpdf : forall cfgs E' w',
            exists oks w1,
              batch_outcomes PDF.process_state cfgs E' w' = (oks, w1)
              /\ length oks = length cfgs
              /\ length (failed_codes cfgs oks) = length (List.filter negb oks)
              /\ PDF.process_all cfgs E' w'
                 = (Ok (length cfgs - length (failed_codes cfgs oks),
                        failed_codes cfgs oks), w1)
              /\ pdf_batch cfgs E' w'
                 = (Ok (PDF.summary_lines (length cfgs - length (failed_codes cfgs oks))
                          (failed_codes cfgs oks)), w1)).
  { intros cfgs E' w'.
    destruct (Hloop _ pdf_process_state_total cfgs E' w')
      as (oks & w1 & Hb & Hlen & Hk & Hrun).
    exists oks, w1. repeat (split; [assumption|]).
    unfold pdf_batch, bind.
    change (foldM (batch_step PDF.process_state) cfgs (0, []) E' w')
      with (PDF.process_all cfgs E' w') in Hrun.
    rewrite Hrun. reflexivity. }
  assert (Hhtml : forall cfgs E' w',
            exists oks w1,
              batch_outcomes HTML.process_state cfgs E' w' = (oks, w1)
              /\ length oks = length cfgs
              /\ length (failed_codes cfgs oks) = length (List.filter negb oks)
              /\ HTML.process_all cfgs E' w'
                 = (Ok (length cfgs - length (failed_codes cfgs oks),
                        failed_codes cfgs oks), w1)
              /\ html_batch cfgs E' w'
                 = (Ok (HTML.summary_lines (length cfgs)
                          (length cfgs - length (failed_codes cfgs oks))
                          (failed_codes cfgs oks)), w1)).
  { intros cfgs E' w'.
    destruct (Hloop _ html_process_state_total cfgs E' w')
      as (oks & w1 & Hb & Hlen & Hk & Hrun).
    exists oks, w1. repeat (split; [assumption|]).
    unfold html_batch, bind.
    change (foldM (batch_step HTML.process_state) cfgs (0, []) E' w')
      with (HTML.process_all cfgs E' w') in Hrun.
    rewrite Hrun. reflexivity. }
  assert (Hmain1 : os_makedirs E (tick w) = None -> os_chdir E (S (tick w)) = None ->
                   PDF.main E w = pdf_batch state_configs E (after_setup w)).
  { intros Hmk Hcd. unfold PDF.main, pdf_batch, call. unfold bind at 1 2. rewrite Hmk.
    cbn [tick advance]. rewrite Hcd. reflexivity. }
  assert (Hmain2 : os_makedirs E (tick w) = None -> os_chdir E (S (tick w)) = None ->
                   HTML.main E w = html_batch state_configs E (after_setup w)).
  { intros Hmk Hcd. unfold HTML.main, html_batch, call. unfold bind at 1 2. rewrite Hmk.
    cbn [tick advance]. rewrite Hcd. reflexivity. }
  split; [|split; [|split; [|split]]].
  - destruct (Hpdf configs E w) as (oks & w1 & Hb & Hlen & Hk & Hrun & Hrep).
    exists oks, w1. split; [exact Hb|]. split; [exact Hlen|]. cbv zeta.
    split; [exact Hk|]. split; [exact Hrun|]. exact Hrep.
  - destruct (Hhtml configs E w) as (oks & w1 & Hb & Hlen & Hk & Hrun & Hrep).
    exists oks, w1. split; [exact Hb|]. split; [exact Hlen|]. cbv zeta.
    split; [exact Hk|]. split; [exact Hrun|]. exact Hrep.
  - intros Hmk Hcd.
    split; [exact (Hmain1 Hmk Hcd)|]. split; [exact (Hmain2 Hmk Hcd)|]. split.
    + destruct (Hpdf state_configs E (after_setup w)) as (oks & w1 & Hb & _ & _ & _ & Hrep).
      exists oks, w1. split; [exact Hb|]. cbv zeta. rewrite (Hmain1 Hmk Hcd). exact Hrep.
    + destruct (Hhtml state_configs E (after_setup w)) as (oks & w1 & Hb & _ & _ & _ & Hrep).
      exists oks, w1. split; [exact Hb|]. cbv zeta. rewrite (Hmain2 Hmk Hcd). exact Hrep.
  - repeat constructor.
  - apply (bool_decide_unpack _). vm_compute. exact I.
Qed.

(** The stub service fails for Texas and Ohio: eleven successes, and the
    two codes in the order of the configuration store. *)
Lemma C6_batch_summary_witness :
  exists w1,
    PDF.main texas_ohio_env w0
    = (Ok [ lit "Successfully generated: 11 contracts"; lit "Failed states: TX, OH" ], w1).
Proof.
  destruct (C6_batch_summary texas_ohio_env w0 []) as (_ & _ & Hmain & _).
  destruct (Hmain eq_refl eq_refl) as (_ & _ & (oks & w1 & Hb & Hrep) & _).
  cbv zeta in Hrep. exists w1. rewrite Hrep.
  assert (Hoks : oks = (batch_outcomes PDF.process_state state_configs texas_ohio_env
                          (after_setup w0)).1) by now rewrite Hb.
  rewrite Hoks. repeat f_equal; vm_compute; reflexivity.
Defined.

Example pdf_main_texas_ohio :
  (PDF.main texas_ohio_env w0).1
  = Ok [ lit "Successfully generated: 11 contracts"; lit "Failed states: TX, OH" ].
Proof. vm_compute. reflexivity. Qed.

Example html_main_texas_ohio :
  (HTML.main texas_ohio_env w0).1
  = Ok [ lit "Total states processed: 13";
         lit "Successfully generated: 11 contracts";
         lit "Failed states: 2";
         lit "Failed state codes: TX, OH" ].
Proof. vm_compute. reflexivity. Qed.

(** ** Prompt builder *)

Section PromptFacts.

Lemma substring_here (x rest : list N) : substring x (x ++ rest).
Proof. exists [], rest. reflexivity. Qed.

Lemma substring_later (x pre s : list N) : substring x s -> substring x (pre ++ s).
Proof. intros (p & q & ->). exists (pre ++ p), q. now rewrite <- app_assoc. Qed.

Lemma substring_earlier (x s post : list N) : substring x s -> substring x (s ++ post).
Proof.
  intros (p & q & ->). exists p, (q ++ post). now rewrite <- !app_assoc.
Qed.

Lemma substring_trans (x y z : list N) : substring x y -> substring y z -> substring x z.
Proof.
  intros (p & q & ->) (p' & q' & ->). exists (p' ++ p), (q ++ q').
  now rewrite <- !app_assoc.
Qed.

(** A replacement field of an f-string is in its value. *)
Lemma format_contains_field (t : template) (info : state_info) (f : field) :
  In (F f) t -> substring (field_value info f) (format t info).
Proof.
  unfold format. induction t as [|p t IH]; simpl; [tauto|].
  intros [-> | Hin].
  - apply substring_here.
  - apply substring_later. auto.
Qed.

Lemma fields_of_In (t : template) (f : field) : f ∈ fields_of t -> In (F f) t.
Proof.
  induction t as [|p t IH]; simpl.
  - intros H. now apply elem_of_nil in H.
  - destruct p as [s| |g].
    + intros H. right. auto.
    + intros H. right. auto.
    + intros H. apply elem_of_cons in H. destruct H as [-> | H]; auto.
Qed.

Lemma join_contains (sep : list N) (l : list (list N)) (x : list N) :
  x ∈ l -> substring x (join sep l).
Proof.
  induction l as [|y l IH]; intros H.
  - now apply elem_of_nil in H.
  - apply elem_of_cons in H. destruct l as [|z l].
    + destruct H as [-> | H]; [|now apply elem_of_nil in H].
      exists [], []. simpl. now rewrite app_nil_r.
    + change (join sep (y :: z :: l)) with (y ++ sep ++ join sep (z :: l)).
      destruct H as [-> | H].
      * apply substring_here.
      * apply substring_later, substring_later. auto.
Qed.

Lemma format_fields (t : template) (info : state_info) :
  Forall (fun f => substring (field_value info f) (format t info)) (fields_of t).
Proof.
  apply Forall_forall. intros f Hf. now apply format_contains_field, fields_of_In.
Qed.

Lemma format_regions (t : template) (info : state_info) :
  fld_service_regions ∈ fields_of t ->
  Forall (fun region => substring region (format t info)) (service_regions info).
Proof.
  intros Hf. apply Forall_forall. intros region Hr.
  apply (substring_trans _ (field_value info fld_service_regions)).
  - now apply join_contains.
  - now apply format_contains_field, fields_of_In.
Qed.

End PromptFacts.

Section SentPrompts.

Lemma generate_sends (t : template) (info : state_info) (E : env) (w : world) :
  boto3_client E (tick w) = None ->
  exists v w1,
    generate t info E w = (Ok v, w1)
    /\ trace w1 = trace w ++ [EvClient; EvInvokeModel (format t info)].
Proof.
  intros Hc. unfold generate. rewrite client_result, Hc.
  eexists _, _. split; [reflexivity|]. cbn [trace advance]. now rewrite <- app_assoc.
Qed.

End SentPrompts.

(** Finds the replacement field whose value is the string at hand. *)
Ltac field_in_prompt info :=
  first
    [ apply (format_contains_field _ info fld_state)
    | apply (format_contains_field _ info fld_health_agency)
    | apply (format_contains_field _ info fld_agency_city)
    | apply (format_contains_field _ info fld_provider_name)
    | apply (format_contains_field _ info fld_provider_city)
    | apply (format_contains_field _ info fld_service_regions)
    | apply (format_contains_field _ info fld_contract_date)
    | apply (format_contains_field _ info fld_term)
    | apply (format_contains_field _ info fld_fleet_size)
    | apply (format_contains_field _ info fld_operating_hours)
    | apply (format_contains_field _ info fld_driver_count) ];
  apply fields_of_In, (bool_decide_unpack _); vm_compute; exact I.

Section ReferencedValues.

Lemma pdf_values_in_prompt (k : content_kind) (info : state_info) :
  Forall (fun value => substring value (format (PDFPrompts.template_of k) info))
    (pdf_values k info).
Proof.
  destruct k; repeat (constructor; [field_in_prompt info|]); constructor.
Qed.

Lemma html_values_in_prompt (k : content_kind) (info : state_info) :
  Forall (fun value => substring value (format (HTMLPrompts.template_of k) info))
    (html_values k info).
Proof.
  destruct k; repeat (constructor; [field_in_prompt info|]); constructor.
Qed.

Lemma pdf_values_cover (k : content_kind) (info : state_info) (f : field) :
  f ∈ fields_of (PDFPrompts.template_of k) -> field_value info f ∈ pdf_values k info.
Proof.
  destruct k; cbn [PDFPrompts.template_of]; intros Hf;
    apply list_elem_of_In in Hf; apply list_elem_of_In;
    destruct f; simpl in Hf; simpl; intuition discriminate.
Qed.

Lemma html_values_cover (k : content_kind) (info : state_info) (f : field) :
  f ∈ fields_of (HTMLPrompts.template_of k) -> field_value info f ∈ html_values k info.
Proof.
  destruct k; cbn [HTMLPrompts.template_of]; intros Hf;
    apply list_elem_of_In in Hf; apply list_elem_of_In;
    destruct f; simpl in Hf; simpl; intuition discriminate.
Qed.

End ReferencedValues.

(** C8.  In both variants and for each of the four content kinds, the
    generator method, once its client object exists, sends the model one
    prompt, and every record value the kind's f-string refers to is a
    substring of that prompt: all eleven values for the contract body (a
    number in decimal, the service regions joined by a comma and a space,
    and hence each region by itself); agency, provider and state for the
    rate schedule of [contracts.py]; provider and state for the other
    tables.  These lists leave out no replacement field of the templates.
    For Florida the contract prompt contains "Florida", "Florida
    Department of Health" and "50".  Building the prompt cannot fail:
    the method returns whenever the client object exists. *)
Theorem C8_prompt_completeness (info : state_info) (k : content_kind)
    (E : env) (w : world) :
  boto3_client E (tick w) = None ->
  (exists prompt v w1,
     pdf_generator k info E w = (Ok v, w1)
     /\ trace w1 = trace w ++ [EvClient; EvInvokeModel prompt]
     /\ Forall (fun value => substring value prompt) (pdf_values k info)
     /\ (k = Contract ->
         Forall (fun region => substring region prompt) (service_regions info)))
  /\ (exists prompt v w1,
     html_generator k info E w = (Ok v, w1)
     /\ trace w1 = trace w ++ [EvClient; EvInvokeModel prompt]
     /\ Forall (fun value => substring value prompt) (html_values k info)
     /\ (k = Contract ->
         Forall (fun region => substring region prompt) (service_regions info)))
  /\ (forall f, f ∈ fields_of (PDFPrompts.template_of k) ->
                field_value info f ∈ pdf_values k info)
  /\ (forall f, f ∈ fields_of (HTMLPrompts.template_of k) ->
                field_value info f ∈ html_values k info)
  /\ (exists prompt v w1,
     PDF.create_contract florida E w = (Ok v, w1)
     /\ trace w1 = trace w ++ [EvClient; EvInvokeModel prompt]
     /\ substring (lit "Florida") prompt
     /\ substring (lit "Florida Department of Health") prompt
     /\ substring (lit "50") prompt)
  /\ (exists prompt v w1,
     HTML.create_contract florida E w = (Ok v, w1)
     /\ trace w1 = trace w ++ [EvClient; EvInvokeModel prompt]
     /\ substring (lit "Florida") prompt
     /\ substring (lit "Florida Department of Health") prompt
     /\ substring (lit "50") prompt).
Proof.
  intros Hc.
  assert (Hall1 : forall f, f ∈ fields_of (PDFPrompts.template_of Contract)).
  { intros f. apply (bool_decide_unpack _). destruct f; vm_compute; exact I. }
  assert (Hall2 : forall f, f ∈ fields_of (HTMLPrompts.template_of Contract)).
  { intros f. apply (bool_decide_unpack _). destruct f; vm_compute; exact I. }
  split; [|split; [|split; [|split; [|split]]]].
  - destruct (generate_sends (PDFPrompts.template_of k) info E w Hc) as (v & w1 & Hrun & Ht).
    exists (format (PDFPrompts.template_of k) info), v, w1.
    split; [destruct k; exact Hrun|]. split; [exact Ht|].
    split; [apply pdf_values_in_prompt|].
    intros ->. apply format_regions, Hall1.
  - destruct (generate_sends (HTMLPrompts.template_of k) info E w Hc) as (v & w1 & Hrun & Ht).
    exists (format (HTMLPrompts.template_of k) info), v, w1.
    split; [destruct k; exact Hrun|]. split; [exact Ht|].
    split; [apply html_values_in_prompt|].
    intros ->. apply format_regions, Hall2.
  - intros f. apply pdf_values_cover.
  - intros f. apply html_values_cover.
  - destruct (generate_sends (PDFPrompts.template_of Contract) florida E w Hc)
      as (v & w1 & Hrun & Ht).
    exists (format (PDFPrompts.template_of Contract) florida), v, w1.
    split; [exact Hrun|]. split; [exact Ht|]. repeat split.
    + apply (format_contains_field _ florida fld_state), fields_of_In, Hall1.
    + apply (format_contains_field _ florida fld_health_agency), fields_of_In, Hall1.
    + apply (format_contains_field _ florida fld_fleet_size), fields_of_In, Hall1.
  - destruct (generate_sends (HTMLPrompts.template_of Contract) florida E w Hc)
      as (v & w1 & Hrun & Ht).
    exists (format (HTMLPrompts.template_of Contract) florida), v, w1.
    split; [exact Hrun|]. split; [exact Ht|]. repeat split.
    + apply (format_contains_field _ florida fld_state), fields_of_In, Hall2.
    + apply (format_contains_field _ florida fld_health_agency), fields_of_In, Hall2.
    + apply (format_contains_field _ florida fld_fleet_size), fields_of_In, Hall2.
Qed.

(** The contract prompt sent for Florida. *)
Lemma C8_prompt_witness :
  exists prompt v w1,
    PDF.create_contract florida (calm_env []) w0 = (Ok v, w1)
    /\ trace w1 = [EvClient; EvInvokeModel prompt]
    /\ substring (lit "Florida") prompt
    /\ substring (lit "Florida Department of Health") prompt
    /\ substring (lit "50") prompt.
Proof.
  destruct (C8_prompt_completeness florida Contract (calm_env []) w0 eq_refl)
    as (_ & _ & _ & _ & Hfl & _).
  exact Hfl.
Defined.

(* ===================================================================== *)
(** * Further properties of the code *)
(* ===================================================================== *)

(** ** More on Python strings *)

Section MoreStringFacts.

Variable p : N -> bool.

Lemma lstrip_by_head (s : list N) (a : N) (t : list N) :
  lstrip_by p s = a :: t -> p a = false.
Proof.
  induction s as [|b s IH]; simpl; [discriminate|].
  destruct (p b) eqn:Hb; auto. intros [= <- _]. exact Hb.
Qed.

Lemma lstrip_by_snoc_other (s : list N) (a : N) :
  p a = false -> lstrip_by p (s ++ [a]) = lstrip_by p s ++ [a].
Proof.
  intros Ha. induction s as [|b s IH]; simpl.
  - now rewrite Ha.
  - destruct (p b); auto.
Qed.

Lemma rstrip_by_cons_other (a : N) (s : list N) :
  p a = false -> rstrip_by p (a :: s) = a :: rstrip_by p s.
Proof.
  intros Ha. unfold rstrip_by. simpl rev at 2.
  rewrite (lstrip_by_snoc_other _ _ Ha), rev_app_distr. reflexivity.
Qed.

Lemma rstrip_by_nil : rstrip_by p [] = [].
Proof. reflexivity. Qed.

(** What is left after stripping begins and ends with a kept character. *)
Lemma strip_by_head (s : list N) (a : N) (t : list N) :
  strip_by p s = a :: t -> p a = false.
Proof.
  unfold strip_by. destruct (lstrip_by p s) as [|b u] eqn:Hl.
  - rewrite rstrip_by_nil. discriminate.
  - pose proof (lstrip_by_head _ _ _ Hl) as Hb.
    rewrite (rstrip_by_cons_other _ _ Hb). intros [= <- _]. exact Hb.
Qed.

Lemma strip_by_last (s : list N) (a : N) :
  last (strip_by p s) = Some a -> p a = false.
Proof.
  unfold strip_by, rstrip_by.
  destruct (lstrip_by p (rev (lstrip_by p s))) as [|b u] eqn:Hl; [discriminate|].
  simpl rev. rewrite last_snoc. intros [= <-]. exact (lstrip_by_head _ _ _ Hl).
Qed.

Lemma lstrip_by_fixed (s : list N) :
  match s with [] => True | a :: _ => p a = false end -> lstrip_by p s = s.
Proof. destruct s as [|a s]; simpl; auto. now intros ->. Qed.

Lemma strip_by_idempotent (s : list N) : strip_by p (strip_by p s) = strip_by p s.
Proof.
  assert (Hfix : forall u, (forall a t, u = a :: t -> p a = false) ->
                           (forall a, last u = Some a -> p a = false) ->
                           strip_by p u = u).
  { intros u Hhead Hlast. unfold strip_by.
    rewrite (lstrip_by_fixed u) by (destruct u; eauto).
    unfold rstrip_by. rewrite lstrip_by_fixed; [apply rev_involutive|].
    destruct (rev u) as [|a t] eqn:Hr; [exact I|].
    apply Hlast. rewrite <- (rev_involutive u), Hr. simpl. apply last_snoc. }
  apply Hfix.
  - intros a t. apply strip_by_head.
  - apply strip_by_last.
Qed.

Lemma count_lstrip_by_le (c : N) (s : list N) : count c (lstrip_by p s) <= count c s.
Proof.
  induction s as [|d s IH]; simpl; auto.
  destruct (p d); simpl; destruct (d =? c)%N; lia.
Qed.

Lemma count_strip_by_le (c : N) (s : list N) : count c (strip_by p s) <= count c s.
Proof.
  unfold strip_by, rstrip_by. rewrite count_rev.
  etransitivity; [apply count_lstrip_by_le|]. rewrite count_rev.
  apply count_lstrip_by_le.
Qed.

End MoreStringFacts.

Section SplitFacts.

Variable sep : N.

(** Splitting is line by line: a separator between two texts separates
    their pieces. *)
Lemma split_app_sep (a b : list N) :
  split sep (a ++ sep :: b) = split sep a ++ split sep b.
Proof.
  induction a as [|c a IH]; simpl.
  - now rewrite N.eqb_refl.
  - rewrite IH. destruct (c =? sep)%N; [reflexivity|].
    destruct (split sep a) as [|w ws] eqn:Hs; [now apply split_nonempty in Hs|].
    reflexivity.
Qed.

Lemma split_pieces_free (s : list N) : Forall (fun w => count sep w = 0) (split sep s).
Proof.
  induction s as [|c s IH]; simpl.
  - repeat constructor.
  - destruct (c =? sep)%N eqn:Hc; [constructor; auto|].
    destruct (split sep s) as [|w ws]; [repeat constructor; simpl; now rewrite Hc|].
    inversion_clear IH as [|? ? Hw Hws]. constructor; [|exact Hws].
    simpl. now rewrite Hc.
Qed.

Lemma split_pieces_count_le (c : N) (s : list N) :
  Forall (fun w => count c w <= count c s) (split sep s).
Proof.
  induction s as [|d s IH]; simpl.
  - repeat constructor.
  - destruct (d =? sep)%N.
    + constructor; [simpl; lia|].
      eapply Forall_impl; [exact IH|]. intros w Hw. simpl in *.
      destruct (d =? c)%N; lia.
    + destruct (split sep s) as [|w ws].
      * constructor; [|constructor]. simpl. destruct (d =? c)%N; lia.
      * inversion_clear IH as [|? ? Hw Hws]. constructor.
        -- simpl. destruct (d =? c)%N; lia.
        -- eapply Forall_impl; [exact Hws|]. intros v Hv. simpl in *.
           destruct (d =? c)%N; lia.
Qed.

Lemma join_split (s : list N) : join [sep] (split sep s) = s.
Proof.
  induction s as [|c s IH]; simpl; auto.
  destruct (c =? sep)%N eqn:Hc.
  - apply N.eqb_eq in Hc. subst c.
    destruct (split sep s) as [|w ws] eqn:Hs; [now apply split_nonempty in Hs|].
    simpl in *. now rewrite IH.
  - destruct (split sep s) as [|w ws] eqn:Hs; [now apply split_nonempty in Hs|].
    destruct ws as [|v ws]; simpl in *; now rewrite <- IH.
Qed.

Lemma split_free (w : list N) : count sep w = 0 -> split sep w = [w].
Proof.
  induction w as [|c w IH]; simpl; auto.
  destruct (c =? sep)%N; [discriminate|]. intros H. now rewrite (IH H).
Qed.

Lemma split_join (ws : list (list N)) :
  ws <> [] -> Forall (fun w => count sep w = 0) ws -> split sep (join [sep] ws) = ws.
Proof.
  induction ws as [|w ws IH]; [congruence|]. intros _ Hall.
  inversion_clear Hall as [|? ? Hw Hws].
  destruct ws as [|v ws].
  - simpl. now apply split_free.
  - assert (Hj : join [sep] (w :: v :: ws) = w ++ sep :: join [sep] (v :: ws))
      by reflexivity.
    rewrite Hj, split_app_sep, (split_free _ Hw), IH; auto; discriminate.
Qed.

End SplitFacts.

(** ** More on the structured-text parser *)

Section MoreParserFacts.

Lemma split_all (p : N -> bool) (sep : N) (s : list N) :
  forallb p s = true -> Forall (fun w => forallb p w = true) (split sep s).
Proof.
  induction s as [|c s IH]; simpl.
  - repeat constructor.
  - intros H. apply andb_true_iff in H. destruct H as [Hc Hs]. specialize (IH Hs).
    destruct (c =? sep)%N; [now constructor|].
    destruct (split sep s) as [|w ws]; [repeat constructor; simpl; now rewrite Hc|].
    inversion_clear IH as [|? ? Hw Hws]. constructor; [|exact Hws].
    simpl. now rewrite Hc.
Qed.

Lemma strip_blank (s : list N) : forallb isspace s = true -> strip s = [].
Proof. intros H. unfold strip, strip_by. now rewrite (lstrip_by_all _ _ H). Qed.

Lemma omap_blank (lines : list (list N)) :
  Forall (fun w => forallb isspace w = true) lines -> omap block_of_section lines = [].
Proof.
  induction 1 as [|w lines Hw _ IH]; [reflexivity|].
  cbn [omap list_omap]. unfold block_of_section at 1. rewrite (strip_blank _ Hw).
  exact IH.
Qed.

Lemma length_omap_le {A B} (f : A -> option B) (l : list A) :
  length (omap f l) <= length l.
Proof.
  induction l as [|x l IH]; [reflexivity|].
  change (omap f (x :: l))
    with (match f x with Some y => y :: omap f l | None => omap f l end).
  destruct (f x); simpl; lia.
Qed.

Lemma block_text_free (segment : list N) (b : DocumentBlock) :
  count newline segment = 0 -> block_of_section segment = Some b ->
  count newline (text b) = 0.
Proof.
  unfold block_of_section. intros Hseg.
  destruct (truthy_str (strip segment)); [|discriminate].
  destruct (startswith hash segment); intros [= <-]; cbn [text]; [|exact Hseg].
  pose proof (count_strip_by_le isspace newline (strip_chars [hash] segment)).
  pose proof (count_strip_by_le (char_in [hash]) newline segment).
  unfold strip, strip_chars in *. lia.
Qed.

Lemma parsed_blocks_text_free (content : list N) :
  Forall (fun b => count newline (text b) = 0) (parse_blocks content).
Proof.
  unfold parse_blocks. apply Forall_forall. intros b Hb.
  apply list_elem_of_omap in Hb. destruct Hb as (segment & Hin & Hblock).
  pose proof (split_pieces_free newline content) as Hall.
  rewrite Forall_forall in Hall. exact (block_text_free _ _ (Hall _ Hin) Hblock).
Qed.

End MoreParserFacts.

(** X1.  Parsing of the contract body is line by line: the blocks of two
    texts joined by a line feed are the blocks of the first followed by the
    blocks of the second; a text of white space only (the empty text
    included) has no block; and a text has at most one block per line. *)
Theorem X1_parse_blocks_line_by_line :
  (forall a b : list N,
     parse_blocks (a ++ newline :: b) = parse_blocks a ++ parse_blocks b)
  /\ (forall s : list N, forallb isspace s = true -> parse_blocks s = [])
  /\ (forall s : list N, length (parse_blocks s) <= S (count newline s)).
Proof.
  split; [|split].
  - intros a b. unfold parse_blocks. now rewrite split_app_sep, omap_app.
  - intros s Hs. unfold parse_blocks. apply omap_blank. now apply split_all.
  - intros s. unfold parse_blocks. rewrite <- length_split. apply length_omap_le.
Qed.

Lemma X1_parse_blocks_witness : parse_blocks (lit "  " ++ [newline] ++ lit " ") = [].
Proof.
  apply (proj1 (proj2 X1_parse_blocks_line_by_line)). reflexivity.
Defined.

(** X2.  Every block the parser emits is well formed.  Its text holds no
    line feed.  A block of depth 0 is a segment of the input, unchanged,
    that is not blank and does not start with '#'.  A block of depth d > 0
    comes from a segment that starts with '#', d is the number of '#' of
    that segment (so at most its length), and its text carries neither
    leading nor trailing white space. *)
Theorem X2_parsed_blocks_well_formed (content : list N) :
  Forall (fun b =>
            count newline (text b) = 0
            /\ match depth b with
               | 0 => text b ∈ split newline content
                      /\ strip (text b) <> []
                      /\ startswith hash (text b) = false
               | S _ => exists segment,
                          segment ∈ split newline content
                          /\ startswith hash segment = true
                          /\ depth b = count hash segment
                          /\ depth b <= length segment
                          /\ strip (text b) = text b
               end)
    (parse_blocks content).
Proof.
  unfold parse_blocks. apply Forall_forall. intros b Hb.
  apply list_elem_of_omap in Hb. destruct Hb as (segment & Hin & Hblock).
  assert (Hfree : count newline segment = 0).
  { pose proof (split_pieces_free newline content) as Hall.
    rewrite Forall_forall in Hall. auto. }
  split; [exact (block_text_free _ _ Hfree Hblock)|].
  unfold block_of_section in Hblock.
  destruct (truthy_str (strip segment)) eqn:Htruthy; [|discriminate].
  destruct (startswith hash segment) eqn:Hh; injection Hblock as <-; simpl.
  - destruct (startswith_count _ Hh) as [n Hn]. rewrite Hn.
    exists segment. repeat split; auto.
    + rewrite <- Hn. clear. induction segment as [|c s IH]; simpl; auto.
      destruct (c =? hash)%N; lia.
    + apply strip_by_idempotent.
  - repeat split; auto. intros Hnil. now rewrite Hnil in Htruthy.
Qed.

(** ** More on the pipe-table parser *)

(** X3.  The grid the table parser returns is never empty and has no empty
    row, and every cell is clean: it carries neither leading nor trailing
    white space and holds neither a '|' nor a line feed. *)
Theorem X3_parsed_cells_clean (data : list N) :
  PDF.parse_rows data <> []
  /\ Forall (fun row =>
               row <> []
               /\ Forall (fun cell =>
                            strip cell = cell
                            /\ count pipe cell = 0
                            /\ count newline cell = 0) row)
       (PDF.parse_rows data).
Proof.
  split; [apply parse_rows_nonempty|].
  rewrite parse_rows_unfold. apply Forall_forall. intros row Hrow.
  apply list_elem_of_In, in_map_iff in Hrow. destruct Hrow as (line & <- & Hline).
  apply list_elem_of_In in Hline.
  assert (Hfree : count newline line = 0).
  { pose proof (split_pieces_free newline (strip data)) as Hall.
    rewrite Forall_forall in Hall. auto. }
  split.
  { intros Hnil. apply map_eq_nil in Hnil. now apply split_nonempty in Hnil. }
  apply Forall_forall. intros cell Hcell.
  apply list_elem_of_In, in_map_iff in Hcell. destruct Hcell as (w & <- & Hw).
  apply list_elem_of_In in Hw.
  pose proof (split_pieces_free pipe (strip line)) as Hp.
  pose proof (split_pieces_count_le pipe newline (strip line)) as Hn.
  rewrite Forall_forall in Hp, Hn. specialize (Hp w Hw). specialize (Hn w Hw).
  pose proof (count_strip_by_le isspace newline line) as Hl.
  pose proof (count_strip_by_le isspace pipe w) as Hwp.
  pose proof (count_strip_by_le isspace newline w) as Hwn.
  unfold strip in *. repeat split; [apply strip_by_idempotent | lia | lia].
Qed.

(** X4.  A table reply of white space only is not refused by the parser:
    it yields a grid of one row with one empty cell, for which the width
    computation succeeds with a single width of zero. *)
Theorem X4_blank_table_reply (data : list N) :
  forallb isspace data = true ->
  PDF.parse_rows data = [[[]]]
  /\ exists width, PDF.col_widths_of (PDF.parse_rows data) = Ok [width] /\ (width == 0)%Q.
Proof.
  intros Hblank. assert (Hrows : PDF.parse_rows data = [[[]]]).
  { unfold PDF.parse_rows. now rewrite (strip_blank _ Hblank). }
  split; [exact Hrows|]. rewrite Hrows. eexists. split; [reflexivity|]. reflexivity.
Qed.

Lemma X4_blank_table_reply_witness : PDF.parse_rows (lit "   ") = [[[]]].
Proof. apply (X4_blank_table_reply (lit "   ")). reflexivity. Defined.

(** ** Column widths *)

Section WidthFacts.

Lemma width_cap_nonneg (ncols : nat) : (0 <= width_cap ncols)%Q.
Proof.
  unfold width_cap, Qdiv. apply Qmult_le_0_compat; [discriminate|].
  apply Qinv_le_0_compat. change 0%Q with (inject_Z 0). rewrite <- Zle_Qle. lia.
Qed.

Lemma natural_width_nonneg (max_width : nat) : (0 <= natural_width max_width)%Q.
Proof.
  unfold natural_width.
  apply Qmult_le_0_compat; [|discriminate].
  apply Qmult_le_0_compat; [|discriminate].
  change 0%Q with (inject_Z 0). rewrite <- Zle_Qle. lia.
Qed.

(** The loop appends one width per index, in the order of the indices. *)
Lemma col_widths_loop_index (rows : list (list (list N))) (ncols : nat)
    (idxs : list nat) (acc ws : list Q) :
  PDF.col_widths_loop rows ncols idxs acc = Ok ws ->
  exists ws', ws = acc ++ ws'
              /\ Forall2 (fun i w => PDF.col_width rows ncols i = Ok w) idxs ws'.
Proof.
  revert acc. induction idxs as [|i idxs IH]; intros acc; simpl.
  - intros [= <-]. exists []. now rewrite app_nil_r.
  - destruct (PDF.col_width rows ncols i) as [w|e] eqn:Hw; [|discriminate].
    intros Hrun. destruct (IH _ Hrun) as (ws' & -> & Hall).
    exists (w :: ws'). rewrite <- app_assoc. split; [reflexivity|]. now constructor.
Qed.

Lemma cell_lengths_cells (rows : list (list (list N))) (i : nat) (ls : list nat) :
  PDF.cell_lengths rows i = Ok ls ->
  Forall2 (fun row l => exists cell, row !! i = Some cell /\ l = length cell) rows ls.
Proof.
  revert ls. induction rows as [|row rows IH]; intros ls; simpl.
  - intros [= <-]. constructor.
  - destruct (row !! i) as [cell|] eqn:Hc; [|discriminate].
    destruct (PDF.cell_lengths rows i) as [ls'|e]; [|discriminate].
    intros [= <-]. constructor; eauto.
Qed.

End WidthFacts.

(** X5.  When the width computation succeeds there is one width per
    header cell, and the width at index i comes from column i alone: the
    cells at index i of all rows, the header included, are measured, and
    the width is the smaller of the natural width of the longest of them
    and the equal share of the page.  So a width is never negative and
    never above either of the two.  (Nothing is said of the sum of the
    widths: the source computes in floating point, where rounded shares
    need not add up to the page width.) *)
Theorem X5_column_widths_clamped (rows : list (list (list N))) (col_widths : list Q) :
  PDF.col_widths_of rows = Ok col_widths ->
  length col_widths = length (hd [] rows)
  /\ forall i w,
       col_widths !! i = Some w ->
       exists ls,
         Forall2 (fun row l => exists cell, row !! i = Some cell /\ l = length cell) rows ls
         /\ (w == natural_width (list_max ls) \/ w == width_cap (length (hd [] rows)))%Q
         /\ (0 <= w)%Q
         /\ (w <= natural_width (list_max ls))%Q
         /\ (w <= width_cap (length (hd [] rows)))%Q.
Proof.
  intros Hrun. destruct rows as [|header rest]; [discriminate|].
  pose proof (col_widths_of_cases (header :: rest)) as Hc. rewrite Hrun in Hc.
  destruct Hc as [Hlen _]; [discriminate|]. split; [exact Hlen|].
  simpl hd in *. unfold PDF.col_widths_of in Hrun.
  apply col_widths_loop_index in Hrun. destruct Hrun as (ws' & -> & Hall).
  intros i w Hi. cbn [app] in Hi.
  destruct (Forall2_lookup_r _ _ _ _ _ Hall Hi) as (j & Hj & Hw).
  apply lookup_seq in Hj. destruct Hj as [-> _]. cbn [Nat.add] in Hw.
  unfold PDF.col_width in Hw.
  destruct (PDF.cell_lengths (header :: rest) i) as [ls|e] eqn:Hls; [|discriminate].
  injection Hw as <-. fold (natural_width (list_max ls)). fold (width_cap (length header)).
  exists ls. split; [now apply cell_lengths_cells|].
  split.
  { destruct (Q.min_spec (natural_width (list_max ls)) (width_cap (length header)))
      as [[_ H]|[_ H]]; auto. }
  split; [apply Q.min_glb; [apply natural_width_nonneg | apply width_cap_nonneg]|].
  split; [apply Q.le_min_l | apply Q.le_min_r].
Qed.

(** Three columns of one-character cells: each is 7.2 points wide, well
    under its share of 156 points. *)
Lemma X5_column_widths_witness :
  (0 <= 7.2)%Q /\ (7.2 <= natural_width 1)%Q /\ (7.2 <= width_cap 3)%Q.
Proof.
  destruct (X5_column_widths_clamped
              (PDF.parse_rows (three_lines "A | B | C" "1 | 2 | 3" "4 | 5 | 6"))
              [7.2%Q; 7.2%Q; 7.2%Q] eq_refl) as [_ Hall].
  destruct (Hall 0 7.2%Q eq_refl) as (ls & Hls & _ & H0 & Hn & Hc).
  assert (Hmax : list_max ls = 1).
  { inversion Hls as [|row1 l1 rows1 ls1 (c1 & Hc1 & ->) Hls1]; subst.
    inversion Hls1 as [|row2 l2 rows2 ls2 (c2 & Hc2 & ->) Hls2]; subst.
    inversion Hls2 as [|row3 l3 rows3 ls3 (c3 & Hc3 & ->) Hls3]; subst.
    inversion Hls3; subst.
    injection Hc1 as <-. injection Hc2 as <-. injection Hc3 as <-. reflexivity. }
  rewrite Hmax in Hn. auto.
Defined.


(** ** More on the prompt builder *)

(** X6.  A prompt depends on the record only through the replacement
    fields of its template: two records that agree on those fields get the
    same prompt.  The abbreviation of a record is no replacement field, so
    it changes no prompt of either variant. *)
Theorem X6_prompt_depends_on_referenced_fields (t : template) (info1 info2 : state_info) :
  (forall f, f ∈ fields_of t -> field_value info1 f = field_value info2 f) ->
  format t info1 = format t info2
  /\ (forall (abbrev : list N) (k : content_kind),
        format (PDFPrompts.template_of k) (with_abbrev abbrev info1)
        = format (PDFPrompts.template_of k) info1
        /\ format (HTMLPrompts.template_of k) (with_abbrev abbrev info1)
           = format (HTMLPrompts.template_of k) info1).
Proof.
  assert (Hframe : forall t' i1 i2,
            (forall f, f ∈ fields_of t' -> field_value i1 f = field_value i2 f) ->
            format t' i1 = format t' i2).
  { intros t' i1 i2. unfold format. induction t' as [|p t' IH]; intros Hagree.
    - reflexivity.
    - cbn [map concat]. destruct p as [s| |f]; cbn [fields_of] in Hagree.
      + now rewrite IH.
      + now rewrite IH.
      + cbn [render_piece]. rewrite (Hagree f) by (apply elem_of_cons; auto).
        rewrite IH; [reflexivity|]. intros g Hg. apply Hagree.
        apply elem_of_cons. auto. }
  intros Hagree. split; [now apply Hframe|].
  intros abbrev k. split; apply Hframe; intros f _; now destruct f.
Qed.

(** Two records that differ in the contract date only get the same
    service-area prompt. *)
Lemma X6_prompt_frame_witness :
  format (PDFPrompts.template_of ServiceAreas) (with_contract_date (lit "May 1, 2030") florida)
  = format (PDFPrompts.template_of ServiceAreas) florida.
Proof.
  apply (X6_prompt_depends_on_referenced_fields
           (PDFPrompts.template_of ServiceAreas)
           (with_contract_date (lit "May 1, 2030") florida) florida).
  intros f Hf. apply list_elem_of_In in Hf. simpl in Hf.
  repeat (destruct Hf as [<-|Hf]; [reflexivity|]). contradiction.
Defined.

(** ** File names *)

(** X7.  Naming is deterministic.  Both variants derive the same PDF name
    from a record and a date: base name, abbreviation and date joined by
    underscores, with the extension [.pdf] (the HTML variant also uses the
    stem with [.html]).  For one record two names agree exactly when the
    dates agree; for one date two names agree exactly when the
    abbreviations agree. *)
Theorem X7_file_names_deterministic (E : env) (w1 w2 : world) (base_name : list N)
    (info1 info2 : state_info) :
  exists n1 n2 stem,
    PDF.generate_filename base_name info1 E w1 = (Ok n1, advance [] w1)
    /\ PDF.generate_filename base_name info2 E w2 = (Ok n2, advance [] w2)
    /\ HTML.generate_filename base_name info1 E w1 = (Ok stem, advance [] w1)
    /\ n1 = stem ++ lit ".pdf"
    /\ (state_abbrev info1 = state_abbrev info2 ->
        (n1 = n2 <-> now_Ymd E (tick w1) = now_Ymd E (tick w2)))
    /\ (now_Ymd E (tick w1) = now_Ymd E (tick w2) ->
        (n1 = n2 <-> state_abbrev info1 = state_abbrev info2)).
Proof.
  unfold PDF.generate_filename, HTML.generate_filename, ask. unfold bind, ret.
  cbv beta iota zeta.
  eexists _, _, _. split; [reflexivity|]. split; [reflexivity|]. split; [reflexivity|].
  split; [now rewrite <- !app_assoc|]. split.
  - intros ->. split.
    + intros H. apply app_inv_head, app_inv_head, app_inv_head, app_inv_head in H.
      now apply app_inv_tail in H.
    + now intros ->.
  - intros ->. split.
    + intros H. apply app_inv_head, app_inv_head in H.
      now apply app_inv_tail in H.
    + now intros ->.
Qed.

Lemma X7_file_names_witness :
  exists n1 n2,
    PDF.generate_filename (lit "Transportation_Contract") florida (calm_env []) w0
    = (Ok n1, advance [] w0)
    /\ PDF.generate_filename (lit "Transportation_Contract")
         (with_abbrev (lit "TX") florida) (calm_env []) w0
       = (Ok n2, advance [] w0)
    /\ n1 <> n2.
Proof.
  destruct (X7_file_names_deterministic (calm_env []) w0 w0 (lit "Transportation_Contract")
              florida (with_abbrev (lit "TX") florida))
    as (n1 & n2 & stem & H1 & H2 & _ & _ & _ & Hsame_date).
  exists n1, n2. split; [exact H1|]. split; [exact H2|].
  intros Heq. apply (Hsame_date eq_refl) in Heq. discriminate Heq.
Defined.

(** ** More on the content service client *)

(** X8.  The client hands out a value other than [None] only from a
    payload of the expected shape: a dictionary whose "content" entry is a
    list that starts with a dictionary, whose "text" entry is the value
    returned.  Every other outcome of the invocation yields [None]. *)
Theorem X8_client_value_from_well_formed_payload (E : env) (w w1 : world)
    (prompt : list N) (v : pyval) :
  generate_content_with_bedrock prompt E w = (Ok v, w1) ->
  v <> PyNone ->
  exists items segment rest,
    invoke_model E (S (tick w)) prompt = Ok (PyDict items)
    /\ assoc (lit "content") items = Some (PyList (PyDict segment :: rest))
    /\ assoc (lit "text") segment = Some v.
Proof.
  rewrite client_result. destruct (boto3_client E (tick w)); [discriminate|].
  intros [= <- _]. unfold text_or_none, extract_text.
  destruct (invoke_model E (S (tick w)) prompt) as [body|e];
    [|intros Hne; now destruct Hne].
  destruct body as [| | | |l|items]; try (intros Hne; now destruct Hne).
  cbn [py_get]. destruct (assoc (lit "content") items) as [content|] eqn:Hc;
    cbn [default from_option id]; [|intros Hne; now destruct Hne].
  destruct content as [| | |s|l|d]; try (intros Hne; now destruct Hne).
  - destruct s; intros Hne; now destruct Hne.
  - destruct l as [|first rest]; [intros Hne; now destruct Hne|]. cbn [py_item0].
    destruct first as [| | | |l'|segment]; try (intros Hne; now destruct Hne).
    cbn [py_get]. destruct (assoc (lit "text") segment) as [t|] eqn:Ht;
      cbn [default from_option id]; [|intros Hne; now destruct Hne].
    intros _. exists items, segment, rest. auto.
Qed.

Lemma X8_client_value_witness :
  exists items segment rest,
    invoke_model (calm_env (lit "# Title")) 1 (lit "prompt") = Ok (PyDict items)
    /\ assoc (lit "content") items = Some (PyList (PyDict segment :: rest))
    /\ assoc (lit "text") segment = Some (PyStr (lit "# Title")).
Proof.
  apply (X8_client_value_from_well_formed_payload (calm_env (lit "# Title")) w0
           (advance [EvInvokeModel (lit "prompt")] (advance [EvClient] w0))
           (lit "prompt")).
  - reflexivity.
  - discriminate.
Defined.

(** ** Which events a computation can add to the trace *)

Section Emits.

Context (P : event -> Prop).

Lemma emits_pure {A} (m : M A) : (forall E w, (m E w).2 = w) -> emits P m.
Proof.
  intros H E w. exists []. rewrite H, app_nil_r. split; [reflexivity | constructor].
Qed.

Lemma emits_ret {A} (a : A) : emits P (ret a).
Proof. now apply emits_pure. Qed.

Lemma emits_raise {A} (e : exn) : emits P (raise (A := A) e).
Proof. now apply emits_pure. Qed.

Lemma emits_lift {A} (r : result A) : emits P (lift r).
Proof. now apply emits_pure. Qed.

Lemma emits_ask {A} (f : env -> nat -> A) : emits P (ask f).
Proof.
  intros E w. exists []. simpl. split; [reflexivity | constructor].
Qed.

Lemma emits_store (name : list N) (a : artifact) : emits P (store name a).
Proof.
  intros E w. exists []. simpl. rewrite app_nil_r. split; [reflexivity | constructor].
Qed.

Lemma emits_mark (ev : event) : P ev -> emits P (mark ev).
Proof.
  intros Hev E w. exists [ev]. simpl. split; [reflexivity | repeat constructor; exact Hev].
Qed.

Lemma emits_call (ev : event) (f : env -> nat -> option exn) : P ev -> emits P (call ev f).
Proof.
  intros Hev E w. exists [ev]. unfold call.
  destruct (f E (tick w)); simpl; (split; [reflexivity | repeat constructor; exact Hev]).
Qed.

Lemma emits_bind {A B} (m : M A) (k : A -> M B) :
  emits P m -> (forall a, emits P (k a)) -> emits P (bind m k).
Proof.
  intros Hm Hk E w. unfold bind. destruct (Hm E w) as (evs1 & Ht1 & H1).
  destruct (m E w) as [[a|e] w1]; simpl in Ht1.
  - destruct (Hk a E w1) as (evs2 & Ht2 & H2). exists (evs1 ++ evs2).
    rewrite Ht2, Ht1, <- app_assoc. split; [reflexivity | now apply Forall_app].
  - exists evs1. auto.
Qed.

Lemma emits_try_catch {A} (m : M A) (h : exn -> M A) :
  emits P m -> (forall e, emits P (h e)) -> emits P (try_catch m h).
Proof.
  intros Hm Hh E w. unfold try_catch. destruct (Hm E w) as (evs1 & Ht1 & H1).
  destruct (m E w) as [[a|e] w1]; simpl in Ht1.
  - exists evs1. auto.
  - destruct (Hh e E w1) as (evs2 & Ht2 & H2). exists (evs1 ++ evs2).
    rewrite Ht2, Ht1, <- app_assoc. split; [reflexivity | now apply Forall_app].
Qed.

Lemma emits_foldM {A B} (f : B -> A -> M B) (l : list A) (b : B) :
  (forall b' a, emits P (f b' a)) -> emits P (foldM f l b).
Proof.
  intros Hf. revert b. induction l as [|a l IH]; intros b; simpl.
  - apply emits_ret.
  - apply emits_bind; auto.
Qed.

End Emits.

Ltac emits_auto :=
  repeat first
    [ apply emits_ret | apply emits_raise | apply emits_lift | apply emits_ask
    | apply emits_store
    | apply emits_mark; reflexivity
    | apply emits_call; reflexivity
    | apply emits_bind; [|intros ?]
    | apply emits_try_catch; [|intros ?]
    | apply emits_foldM; intros ? ?
    | match goal with
      | |- emits _ (if ?b then _ else _) => destruct b
      | |- emits _ (match ?x with (_, _) => _ end) => destruct x
      end
    | apply emits_pure; intros; reflexivity ].

Section QuietTails.

Let quiet (ev : event) : Prop := is_invoke ev = false.

Lemma pdf_assemble_quiet (info : state_info) (c r s p : pyval) :
  emits quiet (pdf_assemble info c r s p).
Proof.
  unfold pdf_assemble, PDF.generate_filename, PDF.create_document,
    PDF.create_table_from_data, PDF.add_section.
  cbv zeta. emits_auto.
Qed.

Lemma html_finish_quiet (info : state_info) (c r s p : pyval) :
  emits quiet (html_finish info c r s p).
Proof.
  unfold html_finish, html_convert, HTML.generate_filename, HTML.create_document,
    HTML.save_html, HTML.convert_to_pdf, HTML.from_file, HTML.from_string.
  cbv zeta. emits_auto.
Qed.

End QuietTails.

(** ** The service calls of a record *)

Section ServiceCalls.

(** [HTML.process_state]: the four calls, then the rest. *)
Lemma html_process_state_tail (info : state_info) (E : env) (w : world) :
  HTML.process_state info E w =
  match HTML.generate_all info E w with
  | (Ok (c, r, s, p), w1) =>
      match html_finish info c r s p E w1 with
      | (Ok ok, w2) => (Ok ok, w2)
      | (Raise _, w2) => (Ok false, w2)
      end
  | (Raise _, w1) => (Ok false, w1)
  end.
Proof.
  unfold HTML.process_state, HTML.generate_all, try_catch, bind, ret.
  destruct (HTML.create_contract info E w) as [[c|e] wa]; [|reflexivity].
  destruct (HTML.generate_rate_schedule info E wa) as [[r|e] wb]; [|reflexivity].
  destruct (HTML.generate_service_areas info E wb) as [[s|e] wc]; [|reflexivity].
  destruct (HTML.generate_performance_standards info E wc) as [[p|e] wd]; [|reflexivity].
  reflexivity.
Qed.

(** The invocations of the four generator calls: all four when every
    client object can be created, otherwise those before the failure. *)
Lemma generate_four (t1 t2 t3 t4 : template) (info : state_info) (E : env) (w : world) :
  exists evs,
    trace ((do a <- generate t1 info; do b <- generate t2 info;
            do c <- generate t3 info; do d <- generate t4 info;
            ret (a, b, c, d)) E w).2 = trace w ++ evs
    /\ List.filter is_invoke evs
       `prefix_of` map (fun t => EvInvokeModel (format t info)) [t1; t2; t3; t4].
Proof.
  unfold generate, bind, ret. rewrite client_result.
  destruct (boto3_client E (tick w)).
  { eexists. split; [reflexivity|]. cbn. eexists. reflexivity. }
  rewrite client_result. cbn [tick advance].
  destruct (boto3_client E (S (S (tick w)))).
  { eexists. split; [cbn [snd trace advance]; rewrite <- !app_assoc; reflexivity|].
    cbn. eexists. reflexivity. }
  rewrite client_result. cbn [tick advance].
  destruct (boto3_client E (S (S (S (S (tick w)))))).
  { eexists. split; [cbn [snd trace advance]; rewrite <- !app_assoc; reflexivity|].
    cbn. eexists. reflexivity. }
  rewrite client_result. cbn [tick advance].
  destruct (boto3_client E (S (S (S (S (S (S (tick w)))))))).
  { eexists. split; [cbn [snd trace advance]; rewrite <- !app_assoc; reflexivity|].
    cbn. eexists. reflexivity. }
  eexists. split; [cbn [snd trace advance]; rewrite <- !app_assoc; reflexivity|].
  cbn. exists []. now rewrite app_nil_r.
Qed.

Lemma prefix_filter_quiet (evs1 evs2 l : list event) :
  List.filter is_invoke evs1 `prefix_of` l ->
  Forall (fun ev => is_invoke ev = false) evs2 ->
  List.filter is_invoke (evs1 ++ evs2) `prefix_of` l.
Proof.
  intros Hp Hq. rewrite List.filter_app.
  assert (Hnil : List.filter is_invoke evs2 = []).
  { induction Hq as [|ev evs Hev _ IH]; [reflexivity|]. simpl. now rewrite Hev. }
  now rewrite Hnil, app_nil_r.
Qed.

End ServiceCalls.

Section AfterTheCalls.

Let silent (ev : event) : Prop := is_service ev = false.

Lemma pdf_assemble_silent (info : state_info) (c r s p : pyval) :
  emits silent (pdf_assemble info c r s p).
Proof.
  unfold pdf_assemble, PDF.generate_filename, PDF.create_document,
    PDF.create_table_from_data, PDF.add_section.
  cbv zeta. emits_auto.
Qed.

Lemma html_finish_silent (info : state_info) (c r s p : pyval) :
  emits silent (html_finish info c r s p).
Proof.
  unfold html_finish, html_convert, HTML.generate_filename, HTML.create_document,
    HTML.save_html, HTML.convert_to_pdf, HTML.from_file, HTML.from_string.
  cbv zeta. emits_auto.
Qed.

(** The four generator calls when every client object can be created. *)
Lemma generate_four_calls (t1 t2 t3 t4 : template) (info : state_info) (E : env) (w : world) :
  boto3_client E (tick w) = None ->
  boto3_client E (2 + tick w) = None ->
  boto3_client E (4 + tick w) = None ->
  boto3_client E (6 + tick w) = None ->
  exists v w4,
    (do a <- generate t1 info; do b <- generate t2 info;
     do c <- generate t3 info; do d <- generate t4 info;
     ret (a, b, c, d)) E w = (Ok v, w4)
    /\ trace w4
       = trace w ++ concat (map (fun t => [EvClient; EvInvokeModel (format t info)])
                                [t1; t2; t3; t4]).
Proof.
  cbn [Nat.add]. intros H0 H2 H4 H6. unfold generate, bind, ret.
  rewrite client_result. cbn [tick advance]. rewrite H0.
  rewrite client_result. cbn [tick advance]. rewrite H2.
  rewrite client_result. cbn [tick advance]. rewrite H4.
  rewrite client_result. cbn [tick advance]. rewrite H6.
  eexists _, _. split; [reflexivity|].
  cbn [trace advance concat map app]. rewrite <- !app_assoc. reflexivity.
Qed.

End AfterTheCalls.

(** X9.  The four content requests of a record are not short-circuited:
    when the four client objects can be created, [process_state] of
    either variant makes the four calls of the content service, with the
    contract, rate-schedule, service-area and performance prompts of the
    record in this order, whatever the service answers (a failed first
    request does not spare the other three), and calls the service no
    more after them. *)
Theorem X9_four_requests_in_order (E : env) (w : world) (info : state_info) :
  boto3_client E (tick w) = None ->
  boto3_client E (2 + tick w) = None ->
  boto3_client E (4 + tick w) = None ->
  boto3_client E (6 + tick w) = None ->
  (exists evs,
     trace (PDF.process_state info E w).2
     = trace w ++ four_calls PDFPrompts.template_of info ++ evs
     /\ Forall (fun ev => is_service ev = false) evs)
  /\ (exists evs,
     trace (HTML.process_state info E w).2
     = trace w ++ four_calls HTMLPrompts.template_of info ++ evs
     /\ Forall (fun ev => is_service ev = false) evs).
Proof.
  intros H0 H2 H4 H6. split.
  - destruct (generate_four_calls
                PDFPrompts.create_contract_template
                PDFPrompts.generate_rate_schedule_template
                PDFPrompts.generate_service_areas_template
                PDFPrompts.generate_performance_standards_template
                info E w H0 H2 H4 H6) as ([[[c r] s] p] & w4 & Hg & Ht).
    change (PDF.generate_all info E w = (Ok (c, r, s, p), w4)) in Hg.
    change (trace w4 = trace w ++ four_calls PDFPrompts.template_of info) in Ht.
    rewrite pdf_process_state_decomp, Hg.
    destruct (all [c; r; s; p]).
    + destruct (pdf_assemble_silent info c r s p E w4) as (evs & Hevs & Hs).
      exists evs. split; [|exact Hs].
      destruct (pdf_assemble info c r s p E w4) as [[ok|e] w5]; cbn [snd] in *;
        now rewrite Hevs, Ht, <- app_assoc.
    + exists []. cbn [snd]. rewrite Ht, app_nil_r. split; [reflexivity | constructor].
  - destruct (generate_four_calls
                HTMLPrompts.create_contract_template
                HTMLPrompts.generate_rate_schedule_template
                HTMLPrompts.generate_service_areas_template
                HTMLPrompts.generate_performance_standards_template
                info E w H0 H2 H4 H6) as ([[[c r] s] p] & w4 & Hg & Ht).
    change (HTML.generate_all info E w = (Ok (c, r, s, p), w4)) in Hg.
    change (trace w4 = trace w ++ four_calls HTMLPrompts.template_of info) in Ht.
    rewrite html_process_state_tail, Hg.
    destruct (html_finish_silent info c r s p E w4) as (evs & Hevs & Hs).
    exists evs. split; [|exact Hs].
    destruct (html_finish info c r s p E w4) as [[ok|e] w5]; cbn [snd] in *;
      now rewrite Hevs, Ht, <- app_assoc.
Qed.

(** The service fails on the second request only: the four calls are
    made all the same. *)
Lemma X9_four_requests_witness :
  exists evs,
    trace (PDF.process_state florida rates_missing_env w0).2
    = four_calls PDFPrompts.template_of florida ++ evs
    /\ Forall (fun ev => is_service ev = false) evs.
Proof.
  destruct (X9_four_requests_in_order rates_missing_env w0 florida
              eq_refl eq_refl eq_refl eq_refl) as [Hpdf _].
  exact Hpdf.
Defined.


Section InvocationBounds.

Lemma pdf_invocations (info : state_info) (E : env) (w : world) :
  exists evs,
    trace (PDF.process_state info E w).2 = trace w ++ evs
    /\ List.filter is_invoke evs `prefix_of` prompts_of PDFPrompts.template_of info.
Proof.
  rewrite pdf_process_state_decomp.
  destruct (generate_four PDFPrompts.create_contract_template
              PDFPrompts.generate_rate_schedule_template
              PDFPrompts.generate_service_areas_template
              PDFPrompts.generate_performance_standards_template info E w)
    as (evs1 & Ht1 & Hp1).
  change (trace (PDF.generate_all info E w).2 = trace w ++ evs1) in Ht1.
  change (List.filter is_invoke evs1 `prefix_of` prompts_of PDFPrompts.template_of info)
    in Hp1.
  destruct (PDF.generate_all info E w) as [[[[[c r] s] p]|e] w1]; cbn [snd] in Ht1;
    [|exists evs1; auto].
  destruct (all [c; r; s; p]); [|exists evs1; auto].
  destruct (pdf_assemble_quiet info c r s p E w1) as (evs2 & Ht2 & Hq).
  exists (evs1 ++ evs2). split.
  - destruct (pdf_assemble info c r s p E w1) as [[ok|e] w2]; cbn [snd] in *;
      now rewrite Ht2, Ht1, app_assoc.
  - now apply prefix_filter_quiet.
Qed.

Lemma html_invocations (info : state_info) (E : env) (w : world) :
  exists evs,
    trace (HTML.process_state info E w).2 = trace w ++ evs
    /\ List.filter is_invoke evs `prefix_of` prompts_of HTMLPrompts.template_of info.
Proof.
  rewrite html_process_state_tail.
  destruct (generate_four HTMLPrompts.create_contract_template
              HTMLPrompts.generate_rate_schedule_template
              HTMLPrompts.generate_service_areas_template
              HTMLPrompts.generate_performance_standards_template info E w)
    as (evs1 & Ht1 & Hp1).
  change (trace (HTML.generate_all info E w).2 = trace w ++ evs1) in Ht1.
  change (List.filter is_invoke evs1 `prefix_of` prompts_of HTMLPrompts.template_of info)
    in Hp1.
  destruct (HTML.generate_all info E w) as [[[[[c r] s] p]|e] w1]; cbn [snd] in Ht1;
    [|exists evs1; auto].
  destruct (html_finish_quiet info c r s p E w1) as (evs2 & Ht2 & Hq).
  exists (evs1 ++ evs2). split.
  - destruct (html_finish info c r s p E w1) as [[ok|e] w2]; cbn [snd] in *;
      now rewrite Ht2, Ht1, app_assoc.
  - now apply prefix_filter_quiet.
Qed.

Lemma batch_invocations (ps : state_info -> M bool) (bound : nat) :
  (forall info E w, exists evs,
      trace (ps info E w).2 = trace w ++ evs
      /\ length (List.filter is_invoke evs) <= bound) ->
  forall configs acc E w, exists evs,
    trace (foldM (batch_step ps) configs acc E w).2 = trace w ++ evs
    /\ length (List.filter is_invoke evs) <= bound * length configs.
Proof.
  intros Hps. induction configs as [|[code info] configs IH]; intros [n failed] E w.
  - exists []. simpl. rewrite app_nil_r. split; [reflexivity | lia].
  - cbn [foldM]. unfold bind at 1. unfold batch_step at 1, bind at 1.
    destruct (Hps info E w) as (evs1 & Ht1 & Hb1).
    destruct (ps info E w) as [[ok|e] w1]; cbn [snd] in Ht1.
    + assert (Hnext : exists acc', (if ok then ret (n + 1, failed)
                                    else ret (n, failed ++ [code])) E w1 = (Ok acc', w1)).
      { destruct ok; unfold ret; eauto. }
      destruct Hnext as (acc' & ->).
      destruct (IH acc' E w1) as (evs2 & Ht2 & Hb2).
      exists (evs1 ++ evs2). rewrite Ht2, Ht1, app_assoc. split; [reflexivity|].
      rewrite List.filter_app, length_app. simpl length. lia.
    + exists evs1. cbn [snd]. split; [exact Ht1|]. simpl length. lia.
Qed.

End InvocationBounds.

(** X10.  The model invocations of one record are, in both variants, an
    initial part of the record's four prompts in their fixed order: no
    prompt is sent twice, none out of order, and nothing is sent after the
    four (no retry); hence a batch of N records makes at most 4 N
    invocations. *)
Theorem X10_invocations_bounded (E : env) (w : world) :
  (forall info, exists evs,
     trace (PDF.process_state info E w).2 = trace w ++ evs
     /\ List.filter is_invoke evs `prefix_of` prompts_of PDFPrompts.template_of info)
  /\ (forall info, exists evs,
     trace (HTML.process_state info E w).2 = trace w ++ evs
     /\ List.filter is_invoke evs `prefix_of` prompts_of HTMLPrompts.template_of info)
  /\ (forall configs, exists evs,
     trace (PDF.process_all configs E w).2 = trace w ++ evs
     /\ length (List.filter is_invoke evs) <= 4 * length configs)
  /\ (forall configs, exists evs,
     trace (HTML.process_all configs E w).2 = trace w ++ evs
     /\ length (List.filter is_invoke evs) <= 4 * length configs).
Proof.
  split; [intros info; apply pdf_invocations|].
  split; [intros info; apply html_invocations|].
  split; intros configs.
  - apply (batch_invocations PDF.process_state 4). intros info E' w'.
    destruct (pdf_invocations info E' w') as (evs & Ht & Hp).
    exists evs. split; [exact Ht|]. apply prefix_length in Hp. exact Hp.
  - apply (batch_invocations HTML.process_state 4). intros info E' w'.
    destruct (html_invocations info E' w') as (evs & Ht & Hp).
    exists evs. split; [exact Ht|]. apply prefix_length in Hp. exact Hp.
Qed.

(** ** What the PDF variant hands to the build and writes *)

Section PdfStory.

Lemma bind_ok {A B} (m : M A) (k : A -> M B) (E : env) (w w2 : world) (b : B) :
  bind m k E w = (Ok b, w2) ->
  exists a w1, m E w = (Ok a, w1) /\ k a E w1 = (Ok b, w2).
Proof.
  unfold bind. destruct (m E w) as [[a|e] w1]; [eauto | discriminate].
Qed.

Lemma paragraph_of_block_ok (b : DocumentBlock) (f : flowable) :
  paragraph_of_block b = Ok f -> f = body_paragraph b.
Proof.
  unfold paragraph_of_block, body_paragraph, style_name, PDF.styles.
  destruct (decide _); [|discriminate]. now intros [= <-].
Qed.

Lemma foldM_add_section_story (lines : list (list N)) (story story' : list flowable)
    (E : env) (w w1 : world) :
  foldM PDF.add_section lines story E w = (Ok story', w1) ->
  story' = story ++ map body_paragraph (omap block_of_section lines) /\ w1 = w.
Proof.
  revert story. induction lines as [|line lines IH]; intros story.
  - simpl. unfold ret. intros [= <- <-]. now rewrite app_nil_r.
  - cbn [foldM]. intros Hrun. apply bind_ok in Hrun.
    destruct Hrun as (story1 & w' & Hstep & Hrest).
    rewrite add_section_block in Hstep.
    change (omap block_of_section (line :: lines))
      with (match block_of_section line with
            | Some b => b :: omap block_of_section lines
            | None => omap block_of_section lines
            end).
    destruct (block_of_section line) as [b|].
    + destruct (paragraph_of_block b) as [f|e] eqn:Hf; [|discriminate].
      injection Hstep as <- <-. apply paragraph_of_block_ok in Hf. subst f.
      destruct (IH _ Hrest) as [-> ->]. now rewrite <- app_assoc.
    + injection Hstep as <- <-. exact (IH _ Hrest).
Qed.

Lemma create_table_from_data_ok (data : pyval) (table_title : list N)
    (E : env) (w w1 : world) (elements : list flowable) :
  PDF.create_table_from_data data table_title E w = (Ok elements, w1) ->
  exists d col_widths,
    data = PyStr d
    /\ PDF.col_widths_of (PDF.parse_rows d) = Ok col_widths
    /\ Table_init E (PDF.parse_rows d) col_widths = None
    /\ elements = table_flowables table_title (PDF.parse_rows d) col_widths
    /\ w1 = w.
Proof.
  destruct data as [| | |d| |];
    try (unfold PDF.create_table_from_data, bind, lift; simpl; discriminate).
  rewrite create_table_from_data_unfold.
  destruct (PDF.col_widths_of (PDF.parse_rows d)) as [cw|e] eqn:Hcw; [|discriminate].
  destruct (Table_init E (PDF.parse_rows d) cw) eqn:Ht; [discriminate|].
  intros [= <- <-]. exists d, cw. repeat split; auto.
Qed.

End PdfStory.

(** X11.  When the PDF assembler returns, all four contents were strings
    and the story it handed to the build is, in this order: the title
    page, the table of contents, one paragraph per parsed block of the
    contract body (a block of depth 0 in style Normal, a block of depth d
    in style Heading d), the Attachments heading, and the three tables A
    (rate schedule), B (service areas) and C (performance standards), each
    as title, grid of the parsed rows, and spacer.  The build is the one
    call that leaves the program, and the PDF file is recorded under the
    given name. *)
Theorem X11_pdf_story_order (filename title : list N) (c r s p : pyval)
    (E : env) (w w2 : world) :
  PDF.create_document filename title c r s p E w = (Ok tt, w2) ->
  exists t ra sa pa wa wb wc,
    c = PyStr t /\ r = PyStr ra /\ s = PyStr sa /\ p = PyStr pa
    /\ PDF.col_widths_of (PDF.parse_rows ra) = Ok wa
    /\ PDF.col_widths_of (PDF.parse_rows sa) = Ok wb
    /\ PDF.col_widths_of (PDF.parse_rows pa) = Ok wc
    /\ let story :=
         front_matter title
         ++ map body_paragraph (parse_blocks t)
         ++ [Paragraph (lit "Attachments") (SheetStyle (lit "Heading1"))]
         ++ table_flowables (lit "Attachment A: Rate Schedule") (PDF.parse_rows ra) wa
         ++ table_flowables (lit "Attachment B: Service Areas") (PDF.parse_rows sa) wb
         ++ table_flowables (lit "Attachment C: Performance Standards")
              (PDF.parse_rows pa) wc in
       multiBuild E (tick w) filename story = None
       /\ trace w2 = trace w ++ [EvCreateDocument; EvMultiBuild filename story]
       /\ fs w2 = <[filename := PdfFile]> (fs w)
       /\ tick w2 = S (tick w).
Proof.
  unfold PDF.create_document. intros Hrun.
  apply bind_ok in Hrun. destruct Hrun as ([] & w' & Hmark & Hrun).
  unfold mark in Hmark. injection Hmark as <-.
  rewrite styles_Heading1 in Hrun.
  apply bind_ok in Hrun. destruct Hrun as (h1 & w' & Hl & Hrun).
  unfold lift in Hl. injection Hl as <- <-. cbv zeta in Hrun.
  apply bind_ok in Hrun. destruct Hrun as (h1 & w' & Hl & Hrun).
  unfold lift in Hl. injection Hl as <- <-.
  apply bind_ok in Hrun. destruct Hrun as (t & w' & Hl & Hrun).
  unfold lift in Hl. injection Hl as Hc <-.
  destruct c as [| | |t'| |]; try discriminate. injection Hc as ->.
  apply bind_ok in Hrun. destruct Hrun as (story1 & w' & Hfold & Hrun).
  apply foldM_add_section_story in Hfold. destruct Hfold as [-> ->].
  apply bind_ok in Hrun. destruct Hrun as (h1 & w' & Hl & Hrun).
  unfold lift in Hl. injection Hl as <- <-.
  apply bind_ok in Hrun. destruct Hrun as (ta & w' & Hta & Hrun).
  apply create_table_from_data_ok in Hta.
  destruct Hta as (ra & wa & -> & Hwa & _ & -> & ->).
  apply bind_ok in Hrun. destruct Hrun as (tb & w' & Htb & Hrun).
  apply create_table_from_data_ok in Htb.
  destruct Htb as (sa & wb & -> & Hwb & _ & -> & ->).
  apply bind_ok in Hrun. destruct Hrun as (tc & w' & Htc & Hrun).
  apply create_table_from_data_ok in Htc.
  destruct Htc as (pa & wc & -> & Hwc & _ & -> & ->).
  apply bind_ok in Hrun. destruct Hrun as ([] & w' & Hcall & Hstore).
  unfold call in Hcall. cbn [tick] in Hcall.
  match type of Hcall with
  | context [multiBuild E (tick w) filename ?st] =>
      destruct (multiBuild E (tick w) filename st) eqn:Hbuild; [discriminate|]
  end.
  injection Hcall as <-. unfold store in Hstore. injection Hstore as <-.
  exists t, ra, sa, pa, wa, wb, wc. repeat (split; [reflexivity || assumption|]).
  cbv zeta. unfold parse_blocks, front_matter.
  cbn [trace fs tick].
  split; [rewrite <- !app_assoc in Hbuild; exact Hbuild|].
  split; [|split; reflexivity].
  rewrite <- !app_assoc. reflexivity.
Qed.

(** A contract body of a heading and a paragraph, and three small
    tables: the build receives the story in the stated order. *)
Lemma X11_pdf_story_witness :
  exists w2 story,
    trace w2 = [EvCreateDocument; EvMultiBuild (lit "out.pdf") story]
    /\ fs w2 = <[lit "out.pdf" := PdfFile]> ∅.
Proof.
  destruct (PDF.create_document (lit "out.pdf") (lit "Title")
              (PyStr (two_lines "# Scope" "Text")) (PyStr (lit "A | B"))
              (PyStr (lit "C | D")) (PyStr (lit "E | F")) (calm_env []) w0)
    as [[[]|e] w2] eqn:Hrun; [|exfalso; revert Hrun; lazy -[insert]; discriminate].
  destruct (X11_pdf_story_order _ _ _ _ _ _ _ _ _ Hrun)
    as (t & ra & sa & pa & wa & wb & wc & _ & _ & _ & _ & _ & _ & _ & _ & Ht & Hfs & _).
  eexists w2, _. split; [exact Ht | exact Hfs].
Defined.

Section FileEffects.

Lemma fs_steady_pure {A} (m : M A) : (forall E w, (m E w).2 = w) -> fs_steady m.
Proof. intros H E w. now rewrite H. Qed.

Lemma fs_steady_ask {A} (f : env -> nat -> A) : fs_steady (ask f).
Proof. intros E w. reflexivity. Qed.

Lemma fs_steady_mark (ev : event) : fs_steady (mark ev).
Proof. intros E w. reflexivity. Qed.

Lemma fs_steady_call (ev : event) (f : env -> nat -> option exn) : fs_steady (call ev f).
Proof. intros E w. unfold call. now destruct (f E (tick w)). Qed.

Lemma fs_steady_bind {A B} (m : M A) (k : A -> M B) :
  fs_steady m -> (forall a, fs_steady (k a)) -> fs_steady (bind m k).
Proof.
  intros Hm Hk E w. unfold bind. specialize (Hm E w).
  destruct (m E w) as [[a|e] w1]; simpl in Hm; [|exact Hm].
  now rewrite (Hk a E w1).
Qed.

Lemma fs_steady_foldM {A B} (f : B -> A -> M B) (l : list A) (b : B) :
  (forall b' a, fs_steady (f b' a)) -> fs_steady (foldM f l b).
Proof.
  intros Hf. revert b. induction l as [|a l IH]; intros b; simpl.
  - now apply fs_steady_pure.
  - apply fs_steady_bind; auto.
Qed.

Lemma writes_on_return_bind {A B} (name : list N) (m : M A) (k : A -> M B) :
  fs_steady m -> (forall a, writes_on_return name (k a)) ->
  writes_on_return name (bind m k).
Proof.
  intros Hm Hk E w. unfold bind. specialize (Hm E w).
  destruct (m E w) as [[a|e] w1]; simpl in Hm; [|exact Hm].
  specialize (Hk a E w1). destruct (k a E w1) as [[b|e] w2]; now rewrite Hk, Hm.
Qed.

Lemma writes_on_return_store (name : list N) : writes_on_return name (store name PdfFile).
Proof. intros E w. reflexivity. Qed.

Lemma create_document_writes (filename title : list N) (c r s p : pyval) :
  writes_on_return filename (PDF.create_document filename title c r s p).
Proof.
  unfold PDF.create_document, PDF.create_table_from_data, PDF.add_section. cbv zeta.
  repeat first
    [ apply writes_on_return_store
    | apply writes_on_return_bind; [|intros ?] ].
  all: repeat first
    [ apply fs_steady_ask | apply fs_steady_mark | apply fs_steady_call
    | apply fs_steady_bind; [|intros ?]
    | apply fs_steady_foldM; intros ? ?
    | match goal with
      | |- fs_steady (if ?b then _ else _) => destruct b
      end
    | apply fs_steady_pure; intros; reflexivity ].
Qed.

End FileEffects.

(** X12.  The PDF variant changes the file system only by a completed
    build (a build that raises is taken to leave no file): when
    [process_state] returns [True] the file system differs from the one
    before by exactly the record's PDF file, named from the base name, the
    abbreviation and the date read after the four content calls; when it
    returns [False] the file system is as before. *)
Theorem X12_pdf_record_file_effect (E : env) (w w2 : world) (info : state_info)
    (ok : bool) :
  PDF.process_state info E w = (Ok ok, w2) ->
  if ok
  then exists w1 filename,
         (PDF.generate_all info E w).2 = w1
         /\ filename = lit "Transportation_Contract" ++ lit "_" ++ state_abbrev info
                       ++ lit "_" ++ now_Ymd E (tick w1) ++ lit ".pdf"
         /\ fs w2 = <[filename := PdfFile]> (fs w)
  else fs w2 = fs w.
Proof.
  rewrite pdf_process_state_decomp.
  destruct (PDF.generate_all info E w) as [[[[[c r] s] p]|e] w1] eqn:Hg;
    pose proof (pdf_generate_all_service_only _ _ _ _ _ Hg) as [Hfs _].
  2:{ intros [= <- <-]. exact Hfs. }
  destruct (all [c; r; s; p]).
  2:{ intros [= <- <-]. exact Hfs. }
  unfold pdf_assemble, PDF.generate_filename, ask. unfold bind, ret.
  cbv beta iota zeta.
  match goal with
  | |- context [PDF.create_document ?f ?t c r s p E ?w'] =>
      pose proof (create_document_writes f t c r s p E w') as Hw;
      destruct (PDF.create_document f t c r s p E w') as [[[]|e'] w3]
  end; intros [= <- <-]; cbn [fs advance] in Hw.
  - exists w1. eexists. split; [reflexivity|]. split; [reflexivity|]. now rewrite Hw, Hfs.
  - now rewrite Hw, Hfs.
Qed.

Lemma X12_pdf_record_file_witness :
  exists w2,
    PDF.process_state florida (calm_env (lit "####### Annex")) w0 = (Ok false, w2)
    /\ fs w2 = ∅.
Proof.
  destruct (PDF.process_state florida (calm_env (lit "####### Annex")) w0)
    as [[[|]|e] w2] eqn:Hrun;
    [exfalso; revert Hrun; lazy -[insert]; discriminate
    | | exfalso; revert Hrun; lazy -[insert]; discriminate].
  exists w2. split; [reflexivity|].
  exact (X12_pdf_record_file_effect _ _ _ _ false Hrun).
Defined.

(** ** What the HTML variant writes and renders *)

(** X13.  When the HTML variant's [process_state] returns [True], the
    file system differs from the one before by exactly two files with a
    common stem: the HTML page as rendered and the PDF. *)
Theorem X13_html_success_leaves_both_files (E : env) (w w2 : world) (info : state_info) :
  HTML.process_state info E w = (Ok true, w2) ->
  exists stem html_content,
    fs w2 = <[stem ++ lit ".pdf" := PdfFile]>
              (<[stem ++ lit ".html" := TextFile html_content]> (fs w))
    /\ fs w2 !! (stem ++ lit ".html") = Some (TextFile html_content)
    /\ fs w2 !! (stem ++ lit ".pdf") = Some PdfFile.
Proof.
  rewrite html_process_state_decomp.
  destruct (HTML.prepare info E w) as [[[[[hf hc] pf]|]|e] w1] eqn:Hprep;
    try discriminate.
  destruct (prepare_saved _ _ _ _ _ _ _ Hprep) as (stem & evs & -> & -> & _ & _ & Hfs1).
  destruct (html_convert_spec info (stem ++ lit ".html") hc (stem ++ lit ".pdf") E w1)
    as (w2' & evs2 & Hrun & _ & _ & Hfs2).
  rewrite Hrun. intros [= Hok <-]. rewrite Hok in Hfs2.
  rewrite Hfs1, insert_insert_eq in Hfs2.
  exists stem, hc. split; [exact Hfs2|]. rewrite Hfs2. split.
  - rewrite lookup_insert_ne by (intros Heq; symmetry in Heq;
                                  exact (html_pdf_names_differ stem Heq)).
    apply lookup_insert_eq.
  - apply lookup_insert_eq.
Qed.

Lemma X13_html_success_witness :
  exists w2 stem html_content,
    HTML.process_state florida second_method_env w0 = (Ok true, w2)
    /\ fs w2 !! (stem ++ lit ".html") = Some (TextFile html_content)
    /\ fs w2 !! (stem ++ lit ".pdf") = Some PdfFile.
Proof.
  destruct (HTML.process_state florida second_method_env w0)
    as [[[|]|e] w2] eqn:Hrun;
    [ | exfalso; revert Hrun; lazy -[insert]; discriminate
      | exfalso; revert Hrun; lazy -[insert]; discriminate ].
  destruct (X13_html_success_leaves_both_files _ _ _ _ Hrun)
    as (stem & hc & _ & Hhtml & Hpdf).
  exists w2, stem, hc. auto.
Defined.

Section HtmlBody.

Lemma lit_cons (c : ascii) (s : string) : lit (String c s) = N_of_ascii c :: lit s.
Proof. reflexivity. Qed.

Lemma digits_no_newline (d : Decimal.uint) :
  count newline (lit (NilEmpty.string_of_uint d)) = 0.
Proof.
  induction d; cbn [NilEmpty.string_of_uint]; [reflexivity| ..];
    rewrite lit_cons; cbn [count]; exact IHd.
Qed.

Lemma str_of_nat_no_newline (n : nat) : count newline (str_of_nat n) = 0.
Proof.
  unfold str_of_nat, NilZero.string_of_uint.
  destruct (Nat.to_uint n); try apply digits_no_newline. reflexivity.
Qed.

Lemma html_of_block_no_newline (b : DocumentBlock) :
  count newline (text b) = 0 -> count newline (html_of_block b) = 0.
Proof.
  intros Ht. unfold html_of_block. destruct (depth b).
  - rewrite !count_app, Ht. reflexivity.
  - rewrite !count_app, Ht, !str_of_nat_no_newline. reflexivity.
Qed.

End HtmlBody.

(** X14.  The HTML assembler renders the contract body one element per
    line: the text it passes to the template is the parsed blocks, each as
    a [<p>] or [<hN>] element, joined by line feeds; no element holds a
    line feed, so splitting that text at line feeds gives the elements
    back, one per block.  The three table fragments reach the template as
    they came from the service. *)
Theorem X14_html_body_one_element_per_line (E : env) (w : world) (title t : list N)
    (r s p : pyval) :
  let elements := map html_of_block (parse_blocks t) in
  HTML.create_document title (PyStr t) r s p E w
  = (Ok (jinja_render E title (now_BdY E (tick w)) (join [newline] elements) r s p),
     advance [] (entered w))
  /\ Forall (fun element => count newline element = 0) elements
  /\ (elements <> [] -> split newline (join [newline] elements) = elements).
Proof.
  intros elements.
  assert (Hfree : Forall (fun element => count newline element = 0) elements).
  { unfold elements. apply Forall_forall. intros element Hin.
    apply list_elem_of_In, in_map_iff in Hin. destruct Hin as (b & <- & Hb).
    apply html_of_block_no_newline.
    pose proof (parsed_blocks_text_free t) as Hwf.
    rewrite Forall_forall in Hwf. apply list_elem_of_In in Hb.
    exact (Hwf b Hb). }
  split; [|split; [exact Hfree|]].
  - unfold HTML.create_document, bind, mark, lift, ask, ret. cbn [as_str].
    cbv beta iota zeta. rewrite html_body_blocks. reflexivity.
  - intros Hne. now apply split_join.
Qed.

Lemma X14_html_body_witness :
  split newline (join [newline]
                   (map html_of_block (parse_blocks (two_lines "# Scope" "Text"))))
  = [lit "<h1>Scope</h1>"; lit "<p>Text</p>"].
Proof.
  apply (X14_html_body_one_element_per_line (calm_env []) w0 (lit "T")
           (two_lines "# Scope" "Text") PyNone PyNone PyNone).
  discriminate.
Defined.

(** ** More on the batch driver *)

Section MoreBatchFacts.

Lemma batch_outcomes_app (ps : state_info -> M bool)
    (Htotal : forall info E w, exists ok w1, ps info E w = (Ok ok, w1))
    (c1 c2 : list (list N * state_info)) (E : env) (w : world) :
  batch_outcomes ps (c1 ++ c2) E w
  = ((batch_outcomes ps c1 E w).1
     ++ (batch_outcomes ps c2 E (batch_outcomes ps c1 E w).2).1,
     (batch_outcomes ps c2 E (batch_outcomes ps c1 E w).2).2).
Proof.
  revert w. induction c1 as [|[code info] c1 IH]; intros w.
  - simpl. now destruct (batch_outcomes ps c2 E w).
  - cbn [app batch_outcomes]. destruct (Htotal info E w) as (ok & w1 & ->).
    rewrite (IH w1). destruct (batch_outcomes ps c1 E w1) as [o1 wa]. cbn [fst snd].
    destruct (batch_outcomes ps c2 E wa) as [o2 wb]. reflexivity.
Qed.

Lemma failed_codes_app (c1 c2 : list (list N * state_info)) (o1 o2 : list bool) :
  length o1 = length c1 ->
  failed_codes (c1 ++ c2) (o1 ++ o2) = failed_codes c1 o1 ++ failed_codes c2 o2.
Proof.
  revert o1. induction c1 as [|[code info] c1 IH]; intros [|ok o1] Hlen;
    simpl in *; try discriminate; auto.
  rewrite IH by lia. now destruct ok.
Qed.

Lemma batch_split (ps : state_info -> M bool)
    (Htotal : forall info E w, exists ok w1, ps info E w = (Ok ok, w1))
    (c1 c2 : list (list N * state_info)) (E : env) (w : world) :
  exists n1 f1 w1 n2 f2 w2,
    foldM (batch_step ps) c1 (0, []) E w = (Ok (n1, f1), w1)
    /\ foldM (batch_step ps) c2 (0, []) E w1 = (Ok (n2, f2), w2)
    /\ foldM (batch_step ps) (c1 ++ c2) (0, []) E w = (Ok (n1 + n2, f1 ++ f2), w2).
Proof.
  pose proof (batch_loop ps Htotal c1 E w 0 []) as H1.
  pose proof (batch_loop ps Htotal (c1 ++ c2) E w 0 []) as H12.
  rewrite (batch_outcomes_app ps Htotal) in H12.
  pose proof (batch_outcomes_length ps Htotal c1 E w) as Hlen.
  destruct (batch_outcomes ps c1 E w) as [o1 w1]. cbn [fst snd] in *.
  pose proof (batch_loop ps Htotal c2 E w1 0 []) as H2.
  destruct (batch_outcomes ps c2 E w1) as [o2 w2]. cbn [fst snd] in *.
  eexists _, _, _, _, _, _. split; [exact H1|]. split; [exact H2|].
  rewrite H12, List.filter_app, length_app, (failed_codes_app _ _ _ _ Hlen).
  reflexivity.
Qed.

Lemma batch_returns (ps : state_info -> M bool)
    (Htotal : forall info E w, exists ok w1, ps info E w = (Ok ok, w1))
    (configs : list (list N * state_info)) (E : env) (w : world) :
  exists r w1, foldM (batch_step ps) configs (0, []) E w = (Ok r, w1).
Proof. eexists _, _. apply (batch_loop ps Htotal). Qed.

End MoreBatchFacts.

(** X15.  A batch can be run in two parts: in both variants, running the
    loop of [main] on a first list of records and then, in the world this
    leaves, on a second list gives success counts that add up to, and
    failed codes that concatenate to, the result of one run on the two
    lists together, which also ends in the same world. *)
Theorem X15_batch_in_two_parts (c1 c2 : list (list N * state_info)) (E : env) (w : world) :
  (exists n1 f1 w1 n2 f2 w2,
     PDF.process_all c1 E w = (Ok (n1, f1), w1)
     /\ PDF.process_all c2 E w1 = (Ok (n2, f2), w2)
     /\ PDF.process_all (c1 ++ c2) E w = (Ok (n1 + n2, f1 ++ f2), w2))
  /\ (exists n1 f1 w1 n2 f2 w2,
     HTML.process_all c1 E w = (Ok (n1, f1), w1)
     /\ HTML.process_all c2 E w1 = (Ok (n2, f2), w2)
     /\ HTML.process_all (c1 ++ c2) E w = (Ok (n1 + n2, f1 ++ f2), w2)).
Proof.
  split.
  - exact (batch_split PDF.process_state pdf_process_state_total c1 c2 E w).
  - exact (batch_split HTML.process_state html_process_state_total c1 c2 E w).
Qed.

(** X16.  [main] raises only while the output directory is set up: when
    [os.makedirs] or [os.chdir] raises, the exception leaves [main] of
    either variant before any record is processed and nothing but the
    directory calls has happened; otherwise [main] returns its summary.
    The guard at the end of [contracts2.py] lets no such exception pass. *)
Theorem X16_main_raises_only_from_setup (E : env) (w : world) :
  (forall e w',
     PDF.main E w = (Raise e, w') ->
     (os_makedirs E (tick w) = Some e /\ w' = advance [EvMakedirs] w)
     \/ (os_makedirs E (tick w) = None /\ os_chdir E (S (tick w)) = Some e
         /\ w' = after_setup w))
  /\ (forall e w',
     HTML.main E w = (Raise e, w') ->
     (os_makedirs E (tick w) = Some e /\ w' = advance [EvMakedirs] w)
     \/ (os_makedirs E (tick w) = None /\ os_chdir E (S (tick w)) = Some e
         /\ w' = after_setup w))
  /\ exists w', contracts2_script E w = (Ok tt, w').
Proof.
  split; [|split].
  - intros e w'. unfold PDF.main, PDF.process_all, call. unfold bind at 1 2 3.
    destruct (os_makedirs E (tick w)) as [e1|]; [intros [= <- <-]; auto|].
    cbn [tick advance]. destruct (os_chdir E (S (tick w))) as [e2|];
      [intros [= <- <-]; auto|].
    destruct (batch_returns PDF.process_state pdf_process_state_total state_configs E
                (after_setup w)) as (r & w1 & Hrun).
    unfold batch_step, after_setup in Hrun. rewrite Hrun. discriminate.
  - intros e w'. unfold HTML.main, HTML.process_all, call. unfold bind at 1 2 3.
    destruct (os_makedirs E (tick w)) as [e1|]; [intros [= <- <-]; auto|].
    cbn [tick advance]. destruct (os_chdir E (S (tick w))) as [e2|];
      [intros [= <- <-]; auto|].
    destruct (batch_returns HTML.process_state html_process_state_total state_configs E
                (after_setup w)) as (r & w1 & Hrun).
    unfold batch_step, after_setup in Hrun. rewrite Hrun. discriminate.
  - unfold contracts2_script.
    destruct (try_catch_total (run HTML.main; ret tt) tt E w) as ([] & w' & Hrun).
    exists w'. exact Hrun.
Qed.

(** With an output directory that can be set up, [main] returns. *)
Lemma X16_main_setup_witness :
  exists lines w', PDF.main (calm_env (lit "A | B")) w0 = (Ok lines, w').
Proof.
  destruct (PDF.main (calm_env (lit "A | B")) w0) as [[lines|e] w'] eqn:Hrun;
    [eauto|].
  destruct (proj1 (X16_main_raises_only_from_setup (calm_env (lit "A | B")) w0)
              e w' Hrun) as [(Hmk & _)|(_ & Hcd & _)]; discriminate.
Defined.

(** ** Saving the HTML file *)

(** X17.  In the HTML variant, for a record that has passed the content
    gate with a string as contract text: when opening the HTML file for
    writing raises, the record fails and no file has changed; when the
    file is opened and the write raises, the record fails and the file is
    left empty (opening for writing truncates it); in both cases no
    conversion is attempted. *)
Theorem X17_html_save_failure (E : env) (w w1 : world) (info : state_info)
    (t : list N) (r s p : pyval) :
  HTML.generate_all info E w = (Ok (PyStr t, r, s, p), w1) ->
  all [PyStr t; r; s; p] = true ->
  let html_filename :=
    (lit "Transportation_Contract" ++ lit "_" ++ state_abbrev info ++ lit "_"
     ++ now_Ymd E (tick w1)) ++ lit ".html" in
  let html_content :=
    jinja_render E (lit "Transportation Services Contract - " ++ state info)
      (now_BdY E (S (tick w1)))
      (join [newline] (map html_of_block (parse_blocks t))) r s p in
  (forall e, open_w E (S (S (tick w1))) html_filename = Some e ->
     exists w2 evs,
       HTML.process_state info E w = (Ok false, w2)
       /\ fs w2 = fs w
       /\ trace w2 = trace w1 ++ evs
       /\ List.filter conversion_event evs = [])
  /\ (open_w E (S (S (tick w1))) html_filename = None ->
      forall e, file_write E (S (S (S (tick w1)))) html_filename html_content = Some e ->
      exists w2 evs,
        HTML.process_state info E w = (Ok false, w2)
        /\ fs w2 = <[html_filename := TextFile []]> (fs w)
        /\ trace w2 = trace w1 ++ evs
        /\ List.filter conversion_event evs = []).
Proof.
  intros Hg Hall html_filename html_content.
  pose proof (html_generate_all_service_only _ _ _ _ _ Hg) as [Hfs _].
  assert (Hdoc : HTML.create_document
                   (lit "Transportation Services Contract - " ++ state info)
                   (PyStr t) r s p E (advance [] w1)
                 = (Ok html_content, advance [] (entered (advance [] w1)))).
  { unfold HTML.create_document, bind, mark, lift, ask, ret. cbn [as_str].
    cbv beta iota zeta. rewrite html_body_blocks. reflexivity. }
  split.
  - intros e Hopen. rewrite html_process_state_tail, Hg.
    unfold html_finish. rewrite Hall.
    unfold HTML.generate_filename, ask. unfold bind at 1 2. unfold ret at 1.
    cbv beta iota zeta. unfold bind at 1. rewrite Hdoc.
    unfold HTML.save_html, call. unfold bind at 1 2. cbn [tick advance entered].
    fold html_filename. rewrite Hopen.
    eexists _, _. split; [reflexivity|]. cbn [fs trace advance entered].
    split; [exact Hfs|]. split; [rewrite <- !app_assoc; reflexivity | reflexivity].
  - intros Hopen e Hwrite. rewrite html_process_state_tail, Hg.
    unfold html_finish. rewrite Hall.
    unfold HTML.generate_filename, ask. unfold bind at 1 2. unfold ret at 1.
    cbv beta iota zeta. unfold bind at 1. rewrite Hdoc.
    unfold HTML.save_html, call, store. unfold bind at 1 2 3 4 5.
    cbn [tick advance entered]. fold html_filename. rewrite Hopen.
    cbn [tick advance entered]. rewrite Hwrite.
    eexists _, _. split; [reflexivity|]. cbn [fs trace advance entered].
    rewrite Hfs. split; [reflexivity|].
    split; [rewrite <- !app_assoc; reflexivity | reflexivity].
Qed.

(** The output directory is read-only: the record fails and no file
    appears. *)
Lemma X17_html_save_failure_witness :
  exists w2, HTML.process_state florida read_only_env w0 = (Ok false, w2) /\ fs w2 = ∅.
Proof.
  eassert (Hg : HTML.generate_all florida read_only_env w0
                = (Ok (PyStr _, _, _, _), _)) by (lazy -[insert]; reflexivity).
  match type of Hg with
  | _ = (_, ?w1) => set (w1' := w1) in Hg
  end.
  destruct (X17_html_save_failure _ _ _ _ _ _ _ _ Hg eq_refl) as [Hopen _].
  destruct (Hopen (ExternalError 5) eq_refl) as (w2 & evs & Hrun & Hfs & _).
  exists w2. split; [exact Hrun | exact Hfs].
Defined.

(** ** Heading depth and the leading run of markers *)

(** X18.  For a segment that starts with '#', the depth of the emitted
    heading is the length of the leading run of '#' plus the number of
    '#' that follow it: it is never less than the leading run, and equal
    to it exactly when no '#' occurs after the run. *)
Theorem X18_heading_depth_and_leading_run (segment : list N) (b : DocumentBlock) :
  startswith hash segment = true ->
  block_of_section segment = Some b ->
  1 <= leading_run hash segment
  /\ depth b = leading_run hash segment
               + count hash (drop (leading_run hash segment) segment)
  /\ (depth b = leading_run hash segment
      <-> count hash (drop (leading_run hash segment) segment) = 0).
Proof.
  intros Hh Hb. rewrite (block_of_section_heading _ Hh) in Hb. injection Hb as <-.
  cbn [depth]. pose proof (count_leading_run hash segment) as Hc.
  destruct (startswith_hash _ Hh) as [rest ->].
  split; [simpl; lia|]. split; [exact Hc|]. lia.
Qed.

Lemma X18_heading_depth_witness :
  depth {| depth := 2; text := lit "Sub" |} = leading_run hash (lit "## Sub").
Proof.
  apply (X18_heading_depth_and_leading_run (lit "## Sub")); reflexivity.
Defined.
